(** * pyintelowl: the command-line client [intel_owl_client.py]

    A shallow embedding of the client script and the properties of its
    control flow: CLI validation, input preparation (fingerprint),
    availability check, submission, polling loop and result presentation.

    Conventions of the embedding.
    - Python values that travel through the API envelopes (JSON) are the
      inductive [pyval]; a JSON number is an integer here.
    - A Python [str] is a Rocq [string] read as a sequence of code points
      up to U+00FF; [str.lower] and [str.encode("utf-8")] are modelled
      exactly on that range.
    - The remote service, the file system and the observable classifier are
      the fields of a [World]; each of their calls returns or raises as the
      world says. The script is a function of the world and of the parsed
      arguments that returns the trace of its effects and the way the
      process ends. *)

From Stdlib Require Import ZArith List String Ascii Bool Lia Arith.
From Stdlib Require Import Strings.Byte.
Import ListNotations.
Local Open Scope string_scope.
Local Open Scope list_scope.
Local Open Scope Z_scope.
Set Warnings "-register-all".

(* ===================================================================== *)
(** ** Python values *)
(* ===================================================================== *)

Module Py.

(** The values found in a decoded JSON document. A dict keeps its items
    in order; [dict_get] returns the first item stored under a key. *)
Inductive pyval : Type :=
| PNone
| PBool (b : bool)
| PInt (z : Z)
| PStr (s : string)
| PList (l : list pyval)
| PDict (d : list (string * pyval)).

Definition dict := list (string * pyval).

(** Truth value testing: [None], [False], zero and every empty container
    are false. *)
Definition truthy (v : pyval) : bool :=
  match v with
  | PNone => false
  | PBool b => b
  | PInt z => negb (z =? 0)
  | PStr s => negb (String.eqb s "")
  | PList l => match l with [] => false | _ :: _ => true end
  | PDict d => match d with [] => false | _ :: _ => true end
  end.

(** [v == "s"] for a string literal [s]: only a [str] compares equal. *)
Definition eq_str (v : pyval) (s : string) : bool :=
  match v with
  | PStr t => String.eqb t s
  | _ => false
  end.

(** [v in [s1, s2, ...]] for a list of string literals. *)
Definition in_strs (v : pyval) (l : list string) : bool :=
  existsb (eq_str v) l.

Fixpoint lookup (d : dict) (k : string) : option pyval :=
  match d with
  | [] => None
  | (k', v) :: d' => if String.eqb k' k then Some v else lookup d' k
  end.

(** [d.get(k, default)] on a dict. *)
Definition dict_get (d : dict) (k : string) (default : pyval) : pyval :=
  match lookup d k with
  | Some v => v
  | None => default
  end.

End Py.
Export Py.

(* ===================================================================== *)
(** ** Strings: [str.lower], UTF-8, [os.path.basename], [in] *)
(* ===================================================================== *)

Module Str.

(** [str.lower] on one code point below U+0100: A-Z, and the Latin-1
    capitals U+00C0-U+00DE except the multiplication sign U+00D7, move
    up by 32; every other code point is unchanged. *)
Definition lower_char (c : ascii) : ascii :=
  let n := N_of_ascii c in
  if (((65 <=? n) && (n <=? 90))
      || ((192 <=? n) && (n <=? 222) && negb (n =? 215)))%N
  then ascii_of_N (n + 32)
  else c.

Fixpoint lower (s : string) : string :=
  match s with
  | EmptyString => EmptyString
  | String c s' => String (lower_char c) (lower s')
  end.

(** [str.encode("utf-8")]: one byte below U+0080, two bytes from U+0080
    to U+00FF. *)
Definition utf8_char (c : ascii) : list byte :=
  let n := N_of_ascii c in
  if (n <? 128)%N then [byte_of_ascii c]
  else
    match Byte.of_N (192 + n / 64), Byte.of_N (128 + n mod 64) with
    | Some b1, Some b2 => [b1; b2]
    | _, _ => []
    end.

Fixpoint encode_utf8 (s : string) : list byte :=
  match s with
  | EmptyString => []
  | String c s' => utf8_char c ++ encode_utf8 s'
  end.

(** [os.path.basename]: what follows the last slash. *)
Fixpoint basename_from (acc : string) (s : string) : string :=
  match s with
  | EmptyString => acc
  | String c s' =>
      if Ascii.eqb c "/"%char then basename_from s' s'
      else basename_from acc s'
  end.

Definition basename (path : string) : string := basename_from path path.

(** [needle in hay] on strings. *)
Fixpoint contains (needle hay : string) : bool :=
  String.prefix needle hay
  || match hay with
     | EmptyString => false
     | String _ hay' => contains needle hay'
     end.

End Str.

(* ===================================================================== *)
(** ** [hashlib.md5(...).hexdigest()] (RFC 1321) *)
(* ===================================================================== *)

Module MD5.

Definition mask32 : Z := 0xFFFFFFFF.
Definition w32 (x : Z) : Z := Z.land x mask32.
Definition rotl32 (x c : Z) : Z :=
  w32 (Z.lor (Z.shiftl x c) (Z.shiftr x (32 - c))).
Definition not32 (x : Z) : Z := Z.lxor x mask32.

Definition K : list Z :=
  [ 0xd76aa478; 0xe8c7b756; 0x242070db; 0xc1bdceee;
    0xf57c0faf; 0x4787c62a; 0xa8304613; 0xfd469501;
    0x698098d8; 0x8b44f7af; 0xffff5bb1; 0x895cd7be;
    0x6b901122; 0xfd987193; 0xa679438e; 0x49b40821;
    0xf61e2562; 0xc040b340; 0x265e5a51; 0xe9b6c7aa;
    0xd62f105d; 0x02441453; 0xd8a1e681; 0xe7d3fbc8;
    0x21e1cde6; 0xc33707d6; 0xf4d50d87; 0x455a14ed;
    0xa9e3e905; 0xfcefa3f8; 0x676f02d9; 0x8d2a4c8a;
    0xfffa3942; 0x8771f681; 0x6d9d6122; 0xfde5380c;
    0xa4beea44; 0x4bdecfa9; 0xf6bb4b60; 0xbebfbc70;
    0x289b7ec6; 0xeaa127fa; 0xd4ef3085; 0x04881d05;
    0xd9d4d039; 0xe6db99e5; 0x1fa27cf8; 0xc4ac5665;
    0xf4292244; 0x432aff97; 0xab9423a7; 0xfc93a039;
    0x655b59c3; 0x8f0ccc92; 0xffeff47d; 0x85845dd1;
    0x6fa87e4f; 0xfe2ce6e0; 0xa3014314; 0x4e0811a1;
    0xf7537e82; 0xbd3af235; 0x2ad7d2bb; 0xeb86d391 ].

Definition shifts : list Z :=
  [ 7; 12; 17; 22; 7; 12; 17; 22; 7; 12; 17; 22; 7; 12; 17; 22;
    5; 9; 14; 20; 5; 9; 14; 20; 5; 9; 14; 20; 5; 9; 14; 20;
    4; 11; 16; 23; 4; 11; 16; 23; 4; 11; 16; 23; 4; 11; 16; 23;
    6; 10; 15; 21; 6; 10; 15; 21; 6; 10; 15; 21; 6; 10; 15; 21 ].

Record regs := { rA : Z; rB : Z; rC : Z; rD : Z }.

Definition init : regs :=
  {| rA := 0x67452301; rB := 0xefcdab89; rC := 0x98badcfe; rD := 0x10325476 |}.

(** One of the 64 operations on the block [m] of sixteen words. *)
Definition step (m : list Z) (r : regs) (i : nat) : regs :=
  let '(f, g) :=
    if (i <? 16)%nat then
      (Z.lor (Z.land (rB r) (rC r)) (Z.land (not32 (rB r)) (rD r)), i)
    else if (i <? 32)%nat then
      (Z.lor (Z.land (rD r) (rB r)) (Z.land (not32 (rD r)) (rC r)),
       ((5 * i + 1) mod 16)%nat)
    else if (i <? 48)%nat then
      (Z.lxor (rB r) (Z.lxor (rC r) (rD r)), ((3 * i + 5) mod 16)%nat)
    else
      (Z.lxor (rC r) (Z.lor (rB r) (not32 (rD r))), ((7 * i) mod 16)%nat) in
  let f' := w32 (f + rA r + nth i K 0 + nth g m 0) in
  {| rA := rD r;
     rB := w32 (rB r + rotl32 f' (nth i shifts 0));
     rC := rB r;
     rD := rC r |}.

Definition block (r : regs) (m : list Z) : regs :=
  let r' := fold_left (step m) (seq 0 64) r in
  {| rA := w32 (rA r + rA r'); rB := w32 (rB r + rB r');
     rC := w32 (rC r + rC r'); rD := w32 (rD r + rD r') |}.

(** Little-endian bytes of a word, and back. *)
Fixpoint le_bytes (n : nat) (x : Z) : list Z :=
  match n with
  | O => []
  | S n' => Z.land x 255 :: le_bytes n' (Z.shiftr x 8)
  end.

Fixpoint words (bs : list Z) : list Z :=
  match bs with
  | b0 :: b1 :: b2 :: b3 :: rest =>
      (b0 + Z.shiftl b1 8 + Z.shiftl b2 16 + Z.shiftl b3 24) :: words rest
  | _ => []
  end.

Definition pad (bs : list Z) : list Z :=
  let len := Z.of_nat (List.length bs) in
  bs ++ [128] ++ repeat 0 (Z.to_nat ((55 - len) mod 64))
     ++ le_bytes 8 ((8 * len) mod 2 ^ 64).

Fixpoint blocks (n : nat) (ws : list Z) (r : regs) : regs :=
  match n with
  | O => r
  | S n' => blocks n' (skipn 16 ws) (block r (firstn 16 ws))
  end.

Definition digest (bs : list byte) : list Z :=
  let ws := words (pad (map (fun b => Z.of_N (Byte.to_N b)) bs)) in
  let r := blocks (List.length ws / 16) ws init in
  le_bytes 4 (rA r) ++ le_bytes 4 (rB r) ++ le_bytes 4 (rC r) ++ le_bytes 4 (rD r).

Definition hex_digit (x : Z) : ascii :=
  if x <? 10 then ascii_of_N (Z.to_N (48 + x)) else ascii_of_N (Z.to_N (87 + x)).

Fixpoint hex (bs : list Z) : string :=
  match bs with
  | [] => EmptyString
  | b :: bs' => String (hex_digit (Z.shiftr b 4)) (String (hex_digit (Z.land b 15)) (hex bs'))
  end.

Definition hexdigest (bs : list byte) : string := hex (digest bs).

End MD5.

(* ===================================================================== *)
(** ** The data of the script *)
(* ===================================================================== *)

(** [args.command] together with the attribute its sub-parser defines:
    [args.file] exists only after [file -f ...], [args.value] only after
    [observable -v ...]; without a sub-command [args.command] is [None]. *)
Inductive subcommand : Type :=
| NoCommand
| CmdFile (file : string)
| CmdObservable (value : string).

(** The namespace returned by [parser.parse_args()]. *)
Record Args : Type := {
  show_colors : bool;
  api_key : option string;
  certificate : option string;
  instance : string;
  debug : bool;
  log_to_file : option string;
  get_configuration : bool;
  analyzers_list : option (list string);
  run_all_available_analyzers : bool;
  force_privacy : bool;
  private_job : bool;
  disable_external_analyzers : bool;
  check_reported_analysis_too : bool;
  skip_check_analysis_availability : bool;
  command : subcommand
}.

(** [args.value = v] *)
Definition set_value (a : Args) (v : string) : Args :=
  {| show_colors := show_colors a; api_key := api_key a;
     certificate := certificate a; instance := instance a; debug := debug a;
     log_to_file := log_to_file a; get_configuration := get_configuration a;
     analyzers_list := analyzers_list a;
     run_all_available_analyzers := run_all_available_analyzers a;
     force_privacy := force_privacy a; private_job := private_job a;
     disable_external_analyzers := disable_external_analyzers a;
     check_reported_analysis_too := check_reported_analysis_too a;
     skip_check_analysis_availability := skip_check_analysis_availability a;
     command := match command a with
                | CmdObservable _ => CmdObservable v
                | c => c
                end |}.

(** Truth value of [args.analyzers_list] ([None] or a list). *)
Definition some_analyzers (l : option (list string)) : bool :=
  match l with
  | Some (_ :: _) => true
  | _ => false
  end.

(** The message of each [IntelOwlClientException] the script raises, with
    the values its f-string interpolates; the last one is the message of
    the helper [get_observable_classification] of the library, for a value
    that is neither an IP, a URL, a domain nor a hash. *)
Inductive client_error : Type :=
| FileDoesNotExist (file : string)
| MustSpecifyType
| AvailabilityFailed (errors : pyval)
| AvailabilityNoStatus (answer : pyval)
| AvailabilityNoJobId (answer : pyval)
| SendFailed (errors : pyval)
| SendNoStatus (answer : pyval)
| SendUnexpectedStatus (status : pyval)
| SendNoJobId (answer : pyval)
| ResultFailed (errors : pyval)
| ResultNoStatus (job_id answer : pyval)
| ResultBadStatus (status : pyval)
| PollingTimeout (job_id : pyval)
| NotClassified (value : string).

(** The exceptions of the run; all of them derive from [Exception]. *)
Inductive exn : Type :=
| IntelOwlClientException (m : client_error)
| HTTPError (m : string)
| AttributeError (m : string)
| OSError (m : string)
| NotImplementedError.

(** What a method of the API client gives back: the envelope (a dict with
    the keys "errors" and "answer"), or an exception. *)
Inductive api_result : Type :=
| Returns (envelope : dict)
| Raises (e : exn).

(** The four operations of the API client, with their arguments. *)
Inductive api_call : Type :=
| GetAnalyzerConfigs
| AskAnalysisAvailability
    (md5 : option string) (analyzers : option (list string))
    (run_all check_reported : bool)
| SendFileAnalysisRequest
    (md5 : option string) (analyzers : option (list string))
    (filename : option string) (binary : option (list byte))
    (force_privacy private_job disable_external run_all : bool)
| SendObservableAnalysisRequest
    (md5 : option string) (analyzers : option (list string))
    (value : string)
    (force_privacy private_job disable_external run_all : bool)
| AskAnalysisResult (job_id : pyval).

(** The object built by [IntelOwl(api_key, certificate, instance, debug)].
    The remote service has a state of its own: the answer to the polling
    request depends on the iteration that asks. *)
Record IntelOwlClient : Type := {
  get_analyzer_configs : api_result;
  ask_analysis_availability :
    option string -> option (list string) -> bool -> bool -> api_result;
  send_file_analysis_request :
    option string -> option (list string) -> option string ->
    option (list byte) -> bool -> bool -> bool -> bool -> api_result;
  send_observable_analysis_request :
    option string -> option (list string) -> string ->
    bool -> bool -> bool -> bool -> api_result;
  ask_analysis_result : nat -> pyval -> api_result
}.

(** What [os.path.exists] and [open(..., "rb")] find under a path. *)
Inductive fs_entry : Type :=
| Missing
| Unreadable
| Regular (content : list byte).

(** What [get_observable_classification(value)] gives back: the type of
    the observable, or the exception it raises for a value that it cannot
    classify. *)
Inductive classification : Type :=
| Classified (observable : string)
| Unclassified (e : exn).

(** [appendable path]: [open(path, "a")], which [logging.FileHandler(path)]
    calls, succeeds. *)
Record World : Type := {
  path_entry : string -> fs_entry;
  appendable : string -> bool;
  IntelOwl : option string -> option string -> string -> bool -> IntelOwlClient;
  get_observable_classification : string -> classification
}.

Inductive level : Type := DEBUG | INFO | WARNING | ERROR.

Inductive log_handler : Type :=
| FileHandler (path : string)
| StreamHandler.

Record logger : Type := { log_level : level; handler : log_handler }.

(** The text of each log record, with the values it interpolates. *)
Inductive log_msg : Type :=
| ConfigsFailed (errors : pyval)
| ExtractedConfiguration (analyzers_config : pyval)
| StartedAvailability (md5 : option string) (analyzers : option (list string))
| AlreadyExisting (job_id : pyval) (md5 : option string) (status : pyval)
    (analyzers : option (list string))
| ReceivedResponse (md5 : option string) (answer : pyval)
| StartedJob (job_id : pyval) (md5 : option string) (status : pyval)
    (analyzers_running warnings : pyval)
| StartedPolling
| PendingMaybeStuck (job_id : pyval) (md5 : option string)
    (analyzers : option (list string))
| Finished (job_id : pyval) (md5 : option string) (status : pyval)
    (analyzers : option (list string))
| ErrorMd5 (e : client_error) (md5 : option string)
| ElapsedTime (elapsed_time : pyval)
| ResultsHeader.

Inductive checker : Type := check_domain | check_hash | check_url | check_ip.

(** The effects of the script, in the order they happen. *)
Inductive event : Type :=
| Print (text : string)
| PPrint (v : pyval)
| NewLogger (l : logger)
| Log (lvl : level) (m : log_msg)
| LogException (e : exn)
| Sleep (seconds : Z)
| ApiCall (c : api_call) (r : api_result)
| CheckersCall (k : checker) (results : pyval) (value : string).

Definition trace := list event.

(** How the process ends: the script returns, [exit(code)] is called, or
    an exception reaches the top level. *)
Inductive outcome : Type :=
| Returned
| Exited (code : Z)
| Uncaught (e : exn).

(** The exit status the shell sees. *)
Definition exit_status (o : outcome) : Z :=
  match o with
  | Returned => 0
  | Exited code => code
  | Uncaught _ => 1
  end.

(* ===================================================================== *)
(** ** The monad of the script: locals, trace, exceptions and [exit] *)
(* ===================================================================== *)

(** The variables that outlive the [try] block of [_pyintelowl_logic]
    (lines 122-124), with the namespace [args], which the block updates. *)
Record frame : Type := {
  args : Args;
  md5 : option string;
  results : pyval;
  elapsed_time : pyval
}.

(** How a piece of code ends: normally, by raising, or by [exit(code)]
    ([SystemExit] is not an [Exception]: no handler of the script catches
    it). *)
Inductive flow (A : Type) : Type :=
| Normal (a : A)
| Raise (e : exn)
| SysExit (code : Z).
Arguments Normal {A} a.
Arguments Raise {A} e.
Arguments SysExit {A} code.

Definition M (A : Type) : Type := frame -> trace * frame * flow A.

Definition ret {A} (a : A) : M A := fun fr => ([], fr, Normal a).

Definition bind {A B} (m : M A) (k : A -> M B) : M B :=
  fun fr =>
    match m fr with
    | (t, fr', Normal a) =>
        match k a fr' with
        | (t', fr'', r) => (t ++ t', fr'', r)
        end
    | (t, fr', Raise e) => (t, fr', Raise e)
    | (t, fr', SysExit code) => (t, fr', SysExit code)
    end.

Declare Scope py_scope.
Delimit Scope py_scope with py.
Notation "x <- c ;; k" := (bind c (fun x => k))
  (at level 61, c at next level, right associativity) : py_scope.
Notation "c ;; k" := (bind c (fun _ => k))
  (at level 61, right associativity) : py_scope.
Local Open Scope py_scope.

Definition emit (e : event) : M unit := fun fr => ([e], fr, Normal tt).
Definition raise {A} (e : exn) : M A := fun fr => ([], fr, Raise e).
Definition exit {A} (code : Z) : M A := fun fr => ([], fr, SysExit code).
Definition gets {A} (f : frame -> A) : M A := fun fr => ([], fr, Normal (f fr)).
Definition modify (f : frame -> frame) : M unit :=
  fun fr => ([], f fr, Normal tt).

Definition set_args (a : Args) (fr : frame) : frame :=
  {| args := a; md5 := md5 fr; results := results fr;
     elapsed_time := elapsed_time fr |}.
Definition set_md5 (m : option string) (fr : frame) : frame :=
  {| args := args fr; md5 := m; results := results fr;
     elapsed_time := elapsed_time fr |}.
Definition set_results (v : pyval) (fr : frame) : frame :=
  {| args := args fr; md5 := md5 fr; results := v;
     elapsed_time := elapsed_time fr |}.
Definition set_elapsed_time (v : pyval) (fr : frame) : frame :=
  {| args := args fr; md5 := md5 fr; results := results fr;
     elapsed_time := v |}.

(** [try: body  except Exception as e: handler(e)] *)
Definition try_except {A} (body : M A) (handler : exn -> M A) : M A :=
  fun fr =>
    match body fr with
    | (t, fr', Raise e) =>
        match handler e fr' with
        | (t', fr'', r) => (t ++ t', fr'', r)
        end
    | other => other
    end.

(** [for x in l: body(x)], where the body ends an iteration with
    [continue] (or by reaching its end) or leaves the loop with [break]. *)
Inductive loop_ctl : Type := Continue | Break.

Fixpoint for_in {A} (l : list A) (body : A -> M loop_ctl) : M unit :=
  match l with
  | [] => ret tt
  | x :: l' =>
      ctl <- body x ;;
      match ctl with
      | Continue => for_in l' body
      | Break => ret tt
      end
  end.

(** [v.get(k, default)]: [v] must be a dict. *)
Definition py_get (v : pyval) (k : string) (default : pyval) : M pyval :=
  match v with
  | PDict d => ret (dict_get d k default)
  | _ => raise (AttributeError "get")
  end.

(** A request to the API client: the call and its result are recorded. *)
Definition call (c : api_call) (r : api_result) : M dict :=
  emit (ApiCall c r) ;;
  match r with
  | Returns envelope => ret envelope
  | Raises e => raise e
  end.

Definition log (lvl : level) (m : log_msg) : M unit := emit (Log lvl m).

(** Running the script from the parsed arguments. *)
Definition start (a : Args) : frame :=
  {| args := a; md5 := None; results := PList []; elapsed_time := PNone |}.

Definition run (m : M unit) (a : Args) : trace * outcome :=
  match m (start a) with
  | (t, _, Normal _) => (t, Returned)
  | (t, _, Raise e) => (t, Uncaught e)
  | (t, _, SysExit code) => (t, Exited code)
  end.

(* ===================================================================== *)
(** ** [_pyintelowl_logic] *)
(* ===================================================================== *)

(** Lines 127-144: the input and its fingerprint. Returns [filename],
    [binary] and [get_configuration_only]. *)
Definition prepare_input (w : World)
  : M (option string * option (list byte) * bool) :=
  a <- gets args ;;
  match command a with
  | CmdFile file =>
      match path_entry w file with
      | Missing => raise (IntelOwlClientException (FileDoesNotExist file))
      | Unreadable => raise (OSError file)
      | Regular binary =>
          modify (set_md5 (Some (MD5.hexdigest binary))) ;;
          ret (Some (Str.basename file), Some binary, false)
      end
  | CmdObservable value =>
      modify (set_args (set_value a (Str.lower value))) ;;
      modify (set_md5
                (Some (MD5.hexdigest (Str.encode_utf8 (Str.lower value))))) ;;
      ret (None, None, false)
  | NoCommand =>
      if get_configuration a then ret (None, None, true)
      else raise (IntelOwlClientException MustSpecifyType)
  end.

(** Lines 153-161: the configuration-only mode. *)
Definition configuration_only (c : IntelOwlClient) : M unit :=
  api_request_result <- call GetAnalyzerConfigs (get_analyzer_configs c) ;;
  let errors := dict_get api_request_result "errors" (PList []) in
  (if truthy errors then log ERROR (ConfigsFailed errors) else ret tt) ;;
  let analyzers_config := dict_get api_request_result "answer" (PDict []) in
  log INFO (ExtractedConfiguration analyzers_config) ;;
  emit (PPrint analyzers_config) ;;
  exit 0.

(** Lines 163-202: the availability check. Returns [analysis_available]
    and [job_id_to_get]. *)
Definition check_availability (c : IntelOwlClient) : M (bool * pyval) :=
  a <- gets args ;;
  md5 <- gets md5 ;;
  if skip_check_analysis_availability a then ret (false, PNone)
  else
    log INFO (StartedAvailability md5 (analyzers_list a)) ;;
    api_request_result <-
      call (AskAnalysisAvailability md5 (analyzers_list a)
              (run_all_available_analyzers a) (check_reported_analysis_too a))
           (ask_analysis_availability c md5 (analyzers_list a)
              (run_all_available_analyzers a) (check_reported_analysis_too a)) ;;
    let errors := dict_get api_request_result "errors" (PList []) in
    if truthy errors
    then raise (IntelOwlClientException (AvailabilityFailed errors))
    else
      let answer := dict_get api_request_result "answer" (PDict []) in
      status <- py_get answer "status" PNone ;;
      if negb (truthy status)
      then raise (IntelOwlClientException (AvailabilityNoStatus answer))
      else if negb (eq_str status "not_available") then
        job_id_to_get <- py_get answer "job_id" (PStr "") ;;
        if truthy job_id_to_get then
          log INFO (AlreadyExisting job_id_to_get md5 status (analyzers_list a)) ;;
          ret (true, job_id_to_get)
        else raise (IntelOwlClientException (AvailabilityNoJobId answer))
      else ret (false, PNone).

(** Lines 205-262: the submission of a new analysis. Returns
    [job_id_to_get]. *)
Definition submit (c : IntelOwlClient)
    (filename : option string) (binary : option (list byte)) : M pyval :=
  a <- gets args ;;
  md5 <- gets md5 ;;
  api_request_result <-
    match command a with
    | CmdFile _ =>
        call (SendFileAnalysisRequest md5 (analyzers_list a) filename binary
                (force_privacy a) (private_job a)
                (disable_external_analyzers a) (run_all_available_analyzers a))
             (send_file_analysis_request c md5 (analyzers_list a) filename binary
                (force_privacy a) (private_job a)
                (disable_external_analyzers a) (run_all_available_analyzers a))
    | CmdObservable value =>
        call (SendObservableAnalysisRequest md5 (analyzers_list a) value
                (force_privacy a) (private_job a)
                (disable_external_analyzers a) (run_all_available_analyzers a))
             (send_observable_analysis_request c md5 (analyzers_list a) value
                (force_privacy a) (private_job a)
                (disable_external_analyzers a) (run_all_available_analyzers a))
    | NoCommand => raise NotImplementedError
    end ;;
  let errors := dict_get api_request_result "errors" (PList []) in
  if truthy errors then raise (IntelOwlClientException (SendFailed errors))
  else
    let answer := dict_get api_request_result "answer" (PDict []) in
    log INFO (ReceivedResponse md5 answer) ;;
    status <- py_get answer "status" PNone ;;
    if negb (truthy status)
    then raise (IntelOwlClientException (SendNoStatus answer))
    else if negb (eq_str status "accepted")
    then raise (IntelOwlClientException (SendUnexpectedStatus status))
    else
      job_id_to_get <- py_get answer "job_id" PNone ;;
      analyzers_running <- py_get answer "analyzers_running" PNone ;;
      warnings <- py_get answer "warnings" (PList []) ;;
      if truthy job_id_to_get then
        log INFO (StartedJob job_id_to_get md5 status analyzers_running warnings) ;;
        ret job_id_to_get
      else raise (IntelOwlClientException (SendNoJobId answer)).

Definition polling_max_tries : nat := 60 * 20.
Definition polling_interval : Z := 1.

(** Lines 269-303: the body of the polling loop. *)
Definition poll_once (c : IntelOwlClient) (job_id_to_get : pyval)
    (chance : nat) : M loop_ctl :=
  a <- gets args ;;
  md5 <- gets md5 ;;
  emit (Sleep polling_interval) ;;
  api_request_result <-
    call (AskAnalysisResult job_id_to_get)
         (ask_analysis_result c chance job_id_to_get) ;;
  let errors := dict_get api_request_result "errors" (PList []) in
  if truthy errors then raise (IntelOwlClientException (ResultFailed errors))
  else
    let answer := dict_get api_request_result "answer" (PDict []) in
    status <- py_get answer "status" PNone ;;
    if negb (truthy status)
    then raise (IntelOwlClientException (ResultNoStatus job_id_to_get answer))
    else if in_strs status ["invalid_id"; "not_available"]
    then raise (IntelOwlClientException (ResultBadStatus status))
    else if eq_str status "running" then ret Continue
    else if eq_str status "pending" then
      log WARNING (PendingMaybeStuck job_id_to_get md5 (analyzers_list a)) ;;
      ret Continue
    else if in_strs status ["reported_without_fails"; "reported_with_fails"; "failed"]
    then
      log INFO (Finished job_id_to_get md5 status (analyzers_list a)) ;;
      results <- py_get answer "results" (PList []) ;;
      modify (set_results results) ;;
      elapsed_time <- py_get answer "elapsed_time_in_seconds" (PList []) ;;
      modify (set_elapsed_time elapsed_time) ;;
      ret Break
    else ret Continue.

(** Lines 264-308: the polling loop and the check that follows it. *)
Definition polling (c : IntelOwlClient) (job_id_to_get : pyval) : M unit :=
  log INFO StartedPolling ;;
  for_in (seq 0 polling_max_tries) (poll_once c job_id_to_get) ;;
  results <- gets results ;;
  if negb (truthy results)
  then raise (IntelOwlClientException (PollingTimeout job_id_to_get))
  else ret tt.

(** Lines 127-262: everything before the polling loop. Returns the client
    and [job_id_to_get]. *)
Definition before_polling (w : World) : M (IntelOwlClient * pyval) :=
  prepared <- prepare_input w ;;
  let '(filename, binary, get_configuration_only) := prepared in
  a <- gets args ;;
  let pyintelowl_client :=
    IntelOwl w (api_key a) (certificate a) (instance a) (debug a) in
  (if get_configuration_only then configuration_only pyintelowl_client
   else ret tt) ;;
  checked <- check_availability pyintelowl_client ;;
  let '(analysis_available, job_id_to_get) := checked in
  job_id_to_get <-
    (if negb analysis_available then submit pyintelowl_client filename binary
     else ret job_id_to_get) ;;
  ret (pyintelowl_client, job_id_to_get).

(** Lines 127-308: the body of the [try] statement. *)
Definition try_block (w : World) : M unit :=
  reached <- before_polling w ;;
  let '(pyintelowl_client, job_id_to_get) := reached in
  polling pyintelowl_client job_id_to_get.

(** Lines 310-315: the three handlers. *)
Definition except (e : exn) : M unit :=
  match e with
  | IntelOwlClientException m =>
      md5 <- gets md5 ;;
      log ERROR (ErrorMd5 m md5)
  | _ => emit (LogException e)
  end.

(** [args.value] *)
Definition args_value : M string :=
  a <- gets args ;;
  match command a with
  | CmdObservable value => ret value
  | _ => raise (AttributeError "value")
  end.

(** [get_observable_classification(value)] *)
Definition classify (w : World) (value : string) : M string :=
  match get_observable_classification w value with
  | Classified observable => ret observable
  | Unclassified e => raise e
  end.

(** Lines 317-331: the presentation of the results. [Checkers(results,
    args.value)] reads [args.value] before the observable is classified. *)
Definition present (w : World) : M unit :=
  a <- gets args ;;
  elapsed_time <- gets elapsed_time ;;
  results <- gets results ;;
  log INFO (ElapsedTime elapsed_time) ;;
  log INFO ResultsHeader ;;
  if show_colors a then
    value <- args_value ;;
    observable <- classify w value ;;
    if Str.contains "domain" observable then emit (CheckersCall check_domain results value)
    else if Str.contains "hash" observable then emit (CheckersCall check_hash results value)
    else if Str.contains "url" observable then emit (CheckersCall check_url results value)
    else emit (CheckersCall check_ip results value)
  else emit (PPrint results).

Definition _pyintelowl_logic (w : World) : M unit :=
  modify (set_md5 None) ;;
  modify (set_results (PList [])) ;;
  modify (set_elapsed_time PNone) ;;
  try_except (try_block w) except ;;
  present w.

(* ===================================================================== *)
(** ** [get_logger] and [intel_owl_client] *)
(* ===================================================================== *)

(** [logging.FileHandler(path)] opens the file at once. *)
Definition open_file_handler (w : World) (path : string) : M log_handler :=
  if appendable w path then ret (FileHandler path) else raise (OSError path).

(** Lines 334-350. The formatter is a constant of the script. *)
Definition get_logger (w : World) (debug_mode : bool)
    (log_to_file : option string) : M logger :=
  let log_level := if debug_mode then DEBUG else INFO in
  handler <-
    match log_to_file with
    | Some path =>
        if negb (String.eqb path "") then open_file_handler w path
        else ret StreamHandler
    | None => ret StreamHandler
    end ;;
  let logger := {| log_level := log_level; handler := handler |} in
  emit (NewLogger logger) ;;
  ret logger.

Definition no_analyzer_message : string :=
  "you must specify at least an analyzer (-a) or every available analyzer (--aa)".
Definition both_message : string :=
  "you must specify either --aa or -a, not both".

(** Lines 103-118, from the namespace that [parse_args] returned. *)
Definition intel_owl_client (w : World) : M unit :=
  a <- gets args ;;
  (if negb (get_configuration a) then
     (if negb (some_analyzers (analyzers_list a))
         && negb (run_all_available_analyzers a)
      then emit (Print no_analyzer_message) ;; exit 2
      else ret tt) ;;
     (if some_analyzers (analyzers_list a) && run_all_available_analyzers a
      then emit (Print both_message) ;; exit 3
      else ret tt)
   else ret tt) ;;
  logger <- get_logger w (debug a) (log_to_file a) ;;
  _pyintelowl_logic w.

(* ===================================================================== *)
(** ** Reading a run: traces, outcomes and the vocabulary of the properties *)
(* ===================================================================== *)

Definition trace_of {A} (x : trace * frame * flow A) : trace := fst (fst x).
Definition frame_of {A} (x : trace * frame * flow A) : frame := snd (fst x).
Definition flow_of {A} (x : trace * frame * flow A) : flow A := snd x.

Definition is_api_call (e : event) : bool :=
  match e with
  | ApiCall _ _ => true
  | _ => false
  end.

Definition is_submission (e : event) : bool :=
  match e with
  | ApiCall (SendFileAnalysisRequest _ _ _ _ _ _ _ _) _ => true
  | ApiCall (SendObservableAnalysisRequest _ _ _ _ _ _ _) _ => true
  | _ => false
  end.

Definition is_poll (e : event) : bool :=
  match e with
  | ApiCall (AskAnalysisResult _) _ => true
  | _ => false
  end.

Definition is_sleep (e : event) : bool :=
  match e with
  | Sleep _ => true
  | _ => false
  end.

(** The record that the handlers of lines 310-315 write for [e]. *)
Definition handled (e : exn) (md5 : option string) : event :=
  match e with
  | IntelOwlClientException m => Log ERROR (ErrorMd5 m md5)
  | _ => LogException e
  end.

(** What the presentation step shows for the results, and how it ends;
    both depend on the arguments, on the results and on what the
    classifier says of [args.value]: with [--show-colors] nothing is shown
    when [args.value] does not exist or when the classifier raises, and
    the exception leaves the script. *)
Definition shown (w : World) (a : Args) (results : pyval) : trace :=
  if show_colors a then
    match command a with
    | CmdObservable value =>
        match get_observable_classification w value with
        | Classified observable =>
            if Str.contains "domain" observable
            then [CheckersCall check_domain results value]
            else if Str.contains "hash" observable
            then [CheckersCall check_hash results value]
            else if Str.contains "url" observable
            then [CheckersCall check_url results value]
            else [CheckersCall check_ip results value]
        | Unclassified _ => []
        end
    | _ => []
    end
  else [PPrint results].

Definition presented (w : World) (a : Args) : flow unit :=
  if show_colors a then
    match command a with
    | CmdObservable value =>
        match get_observable_classification w value with
        | Classified _ => Normal tt
        | Unclassified e => Raise e
        end
    | _ => Raise (AttributeError "value")
    end
  else Normal tt.

Definition outcome_of (r : flow unit) : outcome :=
  match r with
  | Normal _ => Returned
  | Raise e => Uncaught e
  | SysExit code => Exited code
  end.

(** The fields of the envelope and of its answer, as the script reads
    them. *)
Definition errors_of (envelope : dict) : pyval :=
  dict_get envelope "errors" (PList []).
Definition answer_of (envelope : dict) : pyval :=
  dict_get envelope "answer" (PDict []).

(** The answer to a polling request lets the loop go on: no error, a
    status that is neither a rejection nor terminal. *)
Definition non_terminal (r : api_result) : bool :=
  match r with
  | Returns envelope =>
      negb (truthy (errors_of envelope))
      && match answer_of envelope with
         | PDict d =>
             let status := dict_get d "status" PNone in
             truthy status
             && negb (in_strs status ["invalid_id"; "not_available"])
             && negb (in_strs status
                        ["reported_without_fails"; "reported_with_fails"; "failed"])
         | _ => false
         end
  | Raises _ => false
  end.

(** The answer to a polling request is a well-formed one with the given
    status. *)
Definition has_status (r : api_result) (s : string) : Prop :=
  exists envelope d,
    r = Returns envelope /\ truthy (errors_of envelope) = false
    /\ answer_of envelope = PDict d /\ dict_get d "status" PNone = PStr s.

(** [post m fr Q]: the result of [m] from the frame [fr] satisfies [Q]. *)
Definition post {A} (m : M A) (fr : frame)
    (Q : trace -> frame -> flow A -> Prop) : Prop :=
  match m fr with
  | (t, fr', r) => Q t fr' r
  end.

(** [each_suffix P t]: every event of [t] satisfies [P] together with the
    events that follow it. *)
Fixpoint each_suffix (P : event -> trace -> Prop) (t : trace) : Prop :=
  match t with
  | [] => True
  | e :: t' => P e t' /\ each_suffix P t'
  end.

(** The runs of [for x in l: body(x)], as a relation: from the frame [fr],
    the loop leaves the trace [t] and the frame [fr'] and ends as [r]. *)
Inductive loops {A} (body : A -> M loop_ctl)
  : list A -> frame -> trace -> frame -> flow unit -> Prop :=
| loops_exhausted fr :
    loops body [] fr [] fr (Normal tt)
| loops_continue x l fr t fr' t' fr'' r :
    body x fr = (t, fr', Normal Continue) ->
    loops body l fr' t' fr'' r ->
    loops body (x :: l) fr (t ++ t') fr'' r
| loops_break x l fr t fr' :
    body x fr = (t, fr', Normal Break) ->
    loops body (x :: l) fr t fr' (Normal tt)
| loops_raise x l fr t fr' e :
    body x fr = (t, fr', Raise e) ->
    loops body (x :: l) fr t fr' (Raise e)
| loops_exit x l fr t fr' code :
    body x fr = (t, fr', SysExit code) ->
    loops body (x :: l) fr t fr' (SysExit code).

(** The status of a terminal answer. *)
Definition terminal_statuses : list string :=
  ["reported_without_fails"; "reported_with_fails"; "failed"].

(** What the polling loop may leave in the trace: sleeps of one interval,
    requests for the result of the job, log records. *)
Definition polling_event (job : pyval) (e : event) : Prop :=
  match e with
  | Sleep s => s = polling_interval
  | ApiCall c _ => c = AskAnalysisResult job
  | Log _ _ => True
  | _ => False
  end.

(** A polling request whose envelope carries errors ends the run of the
    loop: nothing follows it, the frame is the one the loop started from
    and the failure is raised. *)
Definition poll_failure_aborts (job : pyval) (fr fr' : frame) (r : flow unit)
    (e : event) (post : trace) : Prop :=
  forall envelope,
    e = ApiCall (AskAnalysisResult job) (Returns envelope) ->
    truthy (errors_of envelope) = true ->
    post = [] /\ fr' = fr
    /\ r = Raise (IntelOwlClientException (ResultFailed (errors_of envelope))).

(** The namespace after the input has been prepared: the observable is
    lower-cased, nothing else changes. *)
Definition normalized (a : Args) : Args :=
  match command a with
  | CmdObservable value => set_value a (Str.lower value)
  | _ => a
  end.

(** The client that the script builds from its arguments. *)
Definition client_of (w : World) (a : Args) : IntelOwlClient :=
  IntelOwl w (api_key a) (certificate a) (instance a) (debug a).

Definition raised {A} (r : flow A) : option exn :=
  match r with
  | Raise e => Some e
  | _ => None
  end.

Definition exited {A} (r : flow A) : option Z :=
  match r with
  | SysExit code => Some code
  | _ => None
  end.

(** What the steps before the polling loop do when an envelope carries
    errors: the configuration request goes on to print the answer and to
    [exit(0)]; the availability request and the submission raise at once. *)
Definition early_failure {A} (r : flow A) (e : event) (post : trace) : Prop :=
  forall c envelope,
    e = ApiCall c (Returns envelope) ->
    truthy (errors_of envelope) = true ->
    match c with
    | GetAnalyzerConfigs =>
        post = [Log ERROR (ConfigsFailed (errors_of envelope));
                Log INFO (ExtractedConfiguration (answer_of envelope));
                PPrint (answer_of envelope)]
        /\ exited r = Some 0
    | AskAnalysisAvailability _ _ _ _ =>
        post = []
        /\ raised r
           = Some (IntelOwlClientException (AvailabilityFailed (errors_of envelope)))
    | SendFileAnalysisRequest _ _ _ _ _ _ _ _
    | SendObservableAnalysisRequest _ _ _ _ _ _ _ =>
        post = []
        /\ raised r
           = Some (IntelOwlClientException (SendFailed (errors_of envelope)))
    | AskAnalysisResult _ => False
    end.

(** The end of every run that does not exit: the elapsed time, the header
    and what the presentation step shows of the results. *)
Definition final (w : World) (fr : frame) : trace :=
  Log INFO (ElapsedTime (elapsed_time fr)) :: Log INFO ResultsHeader
    :: shown w (args fr) (results fr).

(** What follows the [try] block: the record of the handler when the
    block raised, then the end of the run. *)
Definition closing (w : World) (r : flow unit) (fr : frame) : trace :=
  match r with
  | Raise e => handled e (md5 fr) :: final w fr
  | _ => final w fr
  end.

(** The three ways a run of [_pyintelowl_logic] goes: it reaches the
    polling loop, it raises before the loop, or it is the
    configuration-only mode and ends with [exit(0)]. *)
Inductive run_case (w : World) (a : Args) : Prop :=
| run_polls t0 fr1 c j tp fr2 r
    (Ebefore : before_polling w (start a) = (t0, fr1, Normal (c, j)))
    (Epolling : polling c j fr1 = (tp, fr2, r))
    (Erun : run (_pyintelowl_logic w) a
            = (t0 ++ tp ++ closing w r fr2,
               outcome_of (presented w (normalized a))))
| run_raises_early t0 fr1 e
    (Ebefore : before_polling w (start a) = (t0, fr1, Raise e))
    (Erun : run (_pyintelowl_logic w) a
            = (t0 ++ handled e (md5 fr1) :: final w fr1,
               outcome_of (presented w (normalized a))))
| run_exits t0 fr1
    (Ebefore : before_polling w (start a) = (t0, fr1, SysExit 0))
    (Ecommand : command a = NoCommand)
    (Erun : run (_pyintelowl_logic w) a = (t0, Exited 0)).

(** The command line passes the validation of [intel_owl_client]. *)
Definition cli_valid (a : Args) : bool :=
  get_configuration a
  || xorb (some_analyzers (analyzers_list a)) (run_all_available_analyzers a).

(** The logger can be set up: no log file is asked for, or the log file
    can be opened. *)
Definition logger_opens (w : World) (a : Args) : bool :=
  match log_to_file a with
  | Some path => String.eqb path "" || appendable w path
  | None => true
  end.


(** The run is aborted with the error [m]: the handler logs it and the
    run ends with the presentation step, on the empty results. *)
Definition aborts_run (w : World) (a : Args) (m : client_error)
    (post : trace) (o : outcome) : Prop :=
  exists md5,
    post = [Log ERROR (ErrorMd5 m md5); Log INFO (ElapsedTime PNone);
            Log INFO ResultsHeader] ++ shown w (normalized a) (PList [])
    /\ o = outcome_of (presented w (normalized a)).

(** The wording of the specification for envelopes with errors: whatever
    the request, the run is aborted; no request follows and the results
    stay empty. *)
Definition errors_are_hard_failures (w : World) (a : Args) : Prop :=
  forall pre c envelope post o,
    run (_pyintelowl_logic w) a
    = (pre ++ ApiCall c (Returns envelope) :: post, o) ->
    truthy (errors_of envelope) = true ->
    Forall (fun e => is_api_call e = false) post
    /\ exists m, aborts_run w a m post o.

(** What the script does after an envelope with errors, by request. *)
Definition after_errors (w : World) (a : Args) (o : outcome)
    (c : api_call) (envelope : dict) (post : trace) : Prop :=
  Forall (fun e => is_api_call e = false) post
  /\ match c with
     | GetAnalyzerConfigs =>
         post = [Log ERROR (ConfigsFailed (errors_of envelope));
                 Log INFO (ExtractedConfiguration (answer_of envelope));
                 PPrint (answer_of envelope)]
         /\ o = Exited 0
     | AskAnalysisAvailability _ _ _ _ =>
         aborts_run w a (AvailabilityFailed (errors_of envelope)) post o
     | SendFileAnalysisRequest _ _ _ _ _ _ _ _
     | SendObservableAnalysisRequest _ _ _ _ _ _ _ =>
         aborts_run w a (SendFailed (errors_of envelope)) post o
     | AskAnalysisResult _ =>
         aborts_run w a (ResultFailed (errors_of envelope)) post o
     end.

Definition errors_handled (w : World) (a : Args) (o : outcome)
    (e : event) (post : trace) : Prop :=
  forall c envelope,
    e = ApiCall c (Returns envelope) ->
    truthy (errors_of envelope) = true ->
    after_errors w a o c envelope post.

(* ===================================================================== *)
(** ** Vocabulary of the further properties *)
(* ===================================================================== *)

(** The fingerprint of the input of a run: the digest of the file, or of
    the lower-cased observable; [None] when there is no input. *)
Definition fingerprint (w : World) (a : Args) : option string :=
  match command a with
  | CmdFile file =>
      match path_entry w file with
      | Regular binary => Some (MD5.hexdigest binary)
      | _ => None
      end
  | CmdObservable value =>
      Some (MD5.hexdigest (Str.encode_utf8 (Str.lower value)))
  | NoCommand => None
  end.

(** The requests that a run with the arguments [a] may send, with the
    arguments it gives them and the answer of the client. *)
Definition request_of_run (w : World) (a : Args) (e : event) : Prop :=
  match e with
  | ApiCall GetAnalyzerConfigs r =>
      command a = NoCommand /\ get_configuration a = true
      /\ r = get_analyzer_configs (client_of w a)
  | ApiCall (AskAnalysisAvailability m al ra cr) r =>
      skip_check_analysis_availability a = false
      /\ command a <> NoCommand
      /\ m = fingerprint w a /\ m <> None
      /\ al = analyzers_list a
      /\ ra = run_all_available_analyzers a
      /\ cr = check_reported_analysis_too a
      /\ r = ask_analysis_availability (client_of w a) m al ra cr
  | ApiCall (SendFileAnalysisRequest m al filename binary fp pj de ra) r =>
      (exists file content,
          command a = CmdFile file /\ path_entry w file = Regular content
          /\ filename = Some (Str.basename file) /\ binary = Some content)
      /\ m = fingerprint w a
      /\ al = analyzers_list a
      /\ fp = force_privacy a /\ pj = private_job a
      /\ de = disable_external_analyzers a
      /\ ra = run_all_available_analyzers a
      /\ r = send_file_analysis_request (client_of w a) m al filename binary
               fp pj de ra
  | ApiCall (SendObservableAnalysisRequest m al value fp pj de ra) r =>
      (exists typed, command a = CmdObservable typed /\ value = Str.lower typed)
      /\ m = fingerprint w a
      /\ al = analyzers_list a
      /\ fp = force_privacy a /\ pj = private_job a
      /\ de = disable_external_analyzers a
      /\ ra = run_all_available_analyzers a
      /\ r = send_observable_analysis_request (client_of w a) m al value
               fp pj de ra
  | ApiCall (AskAnalysisResult j) r =>
      truthy j = true /\ command a <> NoCommand
      /\ exists chance, (chance < polling_max_tries)%nat
                        /\ r = ask_analysis_result (client_of w a) chance j
  | _ => True
  end.

(** The requests of the polling loop over the chances [l]. *)
Definition poll_request (c : IntelOwlClient) (job : pyval) (l : list nat)
    (e : event) : Prop :=
  match e with
  | ApiCall c' r =>
      c' = AskAnalysisResult job
      /\ exists chance, In chance l /\ r = ask_analysis_result c chance job
  | _ => True
  end.

(** The four operations of the API client. *)
Inductive request_kind : Type :=
| Configuration
| Availability
| Submission
| Result.

Definition kind_of (c : api_call) : request_kind :=
  match c with
  | GetAnalyzerConfigs => Configuration
  | AskAnalysisAvailability _ _ _ _ => Availability
  | SendFileAnalysisRequest _ _ _ _ _ _ _ _ => Submission
  | SendObservableAnalysisRequest _ _ _ _ _ _ _ => Submission
  | AskAnalysisResult _ => Result
  end.

(** The operations that a trace requests, in order. *)
Fixpoint requests (t : trace) : list request_kind :=
  match t with
  | [] => []
  | ApiCall c _ :: t' => kind_of c :: requests t'
  | _ :: t' => requests t'
  end.

(** A record of an error: [logger.error] or [logger.exception]. *)
Definition is_error_record (e : event) : bool :=
  match e with
  | Log ERROR _ => true
  | LogException _ => true
  | _ => false
  end.


(** A result answer without errors whose status is "pending". *)
Definition pending_answer (e : event) : bool :=
  match e with
  | ApiCall (AskAnalysisResult _) (Returns envelope) =>
      negb (truthy (errors_of envelope))
      && match answer_of envelope with
         | PDict d => eq_str (dict_get d "status" PNone) "pending"
         | _ => false
         end
  | _ => false
  end.

(** A record of a warning: [logger.warning]. *)
Definition is_warning (e : event) : bool :=
  match e with
  | Log WARNING _ => true
  | _ => false
  end.

(** A pending answer is followed at once by the warning, which names the
    job of the request, the fingerprint [m] and the analyzers [l]. *)
Definition warns_when_pending (m : option string) (l : option (list string))
    (e : event) (post : trace) : Prop :=
  match e with
  | ApiCall (AskAnalysisResult job) _ =>
      pending_answer e = true ->
      exists rest, post = Log WARNING (PendingMaybeStuck job m l) :: rest
  | _ => True
  end.

(** An event that is neither a warning nor a pending answer. *)
Definition calm (e : event) : Prop :=
  pending_answer e = false /\ is_warning e = false.

(* ===================================================================== *)
(** ** Scenarios: scripted services and command lines *)
(* ===================================================================== *)

Definition envelope_of (errors : list pyval) (answer : dict) : dict :=
  [("errors", PList errors); ("answer", PDict answer)].

(** A client whose answers do not depend on the arguments of the
    requests; the polling answers follow the script [polls]. *)
Definition scripted (configs available sent : api_result)
    (polls : nat -> api_result) : IntelOwlClient :=
  {| get_analyzer_configs := configs;
     ask_analysis_availability := fun _ _ _ _ => available;
     send_file_analysis_request := fun _ _ _ _ _ _ _ _ => sent;
     send_observable_analysis_request := fun _ _ _ _ _ _ _ => sent;
     ask_analysis_result := fun chance _ => polls chance |}.

(** A world with one file, "/tmp/sample", of four bytes. *)
Definition world_of (c : IntelOwlClient) : World :=
  {| path_entry := fun path =>
       if String.eqb path "/tmp/sample" then Regular [x4d; x5a; x90; x00]%byte
       else Missing;
     appendable := fun _ => true;
     IntelOwl := fun _ _ _ _ => c;
     get_observable_classification := fun value =>
       if Str.contains "/" value then Classified "url"
       else Classified "domain" |}.

(** [-i https://owl.example -a Example_Analyzer <command>] *)
Definition cli (cmd : subcommand) : Args :=
  {| show_colors := false; api_key := None; certificate := None;
     instance := "https://owl.example"; debug := false; log_to_file := None;
     get_configuration := false;
     analyzers_list := Some ["Example_Analyzer"];
     run_all_available_analyzers := false;
     force_privacy := false; private_job := false;
     disable_external_analyzers := false;
     check_reported_analysis_too := false;
     skip_check_analysis_availability := false;
     command := cmd |}.

Definition with_colors (a : Args) : Args :=
  {| show_colors := true; api_key := api_key a;
     certificate := certificate a; instance := instance a; debug := debug a;
     log_to_file := log_to_file a; get_configuration := get_configuration a;
     analyzers_list := analyzers_list a;
     run_all_available_analyzers := run_all_available_analyzers a;
     force_privacy := force_privacy a; private_job := private_job a;
     disable_external_analyzers := disable_external_analyzers a;
     check_reported_analysis_too := check_reported_analysis_too a;
     skip_check_analysis_availability := skip_check_analysis_availability a;
     command := command a |}.

(** [-i https://owl.example <flags>] with the given selection of
    analyzers and no sub-command. *)
Definition cli_flags (gc : bool) (analyzers : option (list string))
    (run_all : bool) : Args :=
  {| show_colors := false; api_key := None; certificate := None;
     instance := "https://owl.example"; debug := false; log_to_file := None;
     get_configuration := gc;
     analyzers_list := analyzers;
     run_all_available_analyzers := run_all;
     force_privacy := false; private_job := false;
     disable_external_analyzers := false;
     check_reported_analysis_too := false;
     skip_check_analysis_availability := false;
     command := NoCommand |}.

Definition not_available : api_result :=
  Returns (envelope_of [] [("status", PStr "not_available")]).
Definition accepted (job : Z) : api_result :=
  Returns (envelope_of [] [("status", PStr "accepted"); ("job_id", PInt job);
                           ("analyzers_running", PList [PStr "Example_Analyzer"]);
                           ("warnings", PList [])]).
Definition in_status (s : string) : api_result :=
  Returns (envelope_of [] [("status", PStr s)]).
Definition report : pyval :=
  PList [PDict [("name", PStr "Example_Analyzer"); ("success", PBool true)]].
Definition reported (s : string) (results : pyval) : api_result :=
  Returns (envelope_of [] [("status", PStr s); ("results", results);
                           ("elapsed_time_in_seconds", PInt 3)]).
Definition failing : api_result :=
  Returns (envelope_of [PStr "503 Server Error"] []).
Definition no_configs : api_result := Returns (envelope_of [] []).

(** The service of the nominal run: nothing available, the submission is
    accepted as job 7, the job is running, running, pending, then reported
    without fails. *)
Definition nominal_polls (chance : nat) : api_result :=
  match chance with
  | 0%nat | 1%nat => in_status "running"
  | 2%nat => in_status "pending"
  | _ => reported "reported_without_fails" report
  end.

Definition nominal : World :=
  world_of (scripted no_configs not_available (accepted 7) nominal_polls).

(** A job that never leaves the status "running". *)
Definition stuck : World :=
  world_of (scripted no_configs not_available (accepted 7)
              (fun _ => in_status "running")).

(** A job that is running, then fails with no results. *)
Definition failed_job : World :=
  world_of (scripted no_configs not_available (accepted 7)
              (fun chance => match chance with
                             | O => in_status "running"
                             | _ => reported "failed" (PList [])
                             end)).

(** An analysis that already exists as job 42. *)
Definition already_available : World :=
  world_of (scripted no_configs
              (Returns (envelope_of [] [("status", PStr "running");
                                        ("job_id", PInt 42)]))
              (accepted 7)
              (fun _ => reported "reported_with_fails" report)).

(** A service that refuses the submission. *)
Definition refusing : World :=
  world_of (scripted no_configs not_available
              (Returns (envelope_of [] [("status", PStr "error")]))
              nominal_polls).

(** The world [w] with the classifier of the library on values that are
    neither an IP, a URL, a domain nor a hash, such as "localhost". *)
Definition with_strict_classifier (w : World) : World :=
  {| path_entry := path_entry w;
     appendable := appendable w;
     IntelOwl := IntelOwl w;
     get_observable_classification := fun value =>
       Unclassified (IntelOwlClientException (NotClassified value)) |}.



(** A service that answers every request with an error. *)
Definition broken : World :=
  world_of (scripted
              (Returns (envelope_of [PStr "503 Server Error"]
                          [("Example_Analyzer", PDict [("type", PStr "file")])]))
              failing failing (fun _ => failing)).

(** The world [w] where [dir] is a directory. *)
Definition with_directory (w : World) (dir : string) : World :=
  {| path_entry := fun path =>
       if String.eqb path dir then Unreadable else path_entry w path;
     appendable := appendable w;
     IntelOwl := IntelOwl w;
     get_observable_classification := get_observable_classification w |}.

(** A service whose job is running, then has an id that the service does
    not know any more. *)
Definition forgetful : World :=
  world_of (scripted no_configs not_available (accepted 7)
              (fun chance => match chance with
                             | O => in_status "running"
                             | _ => in_status "invalid_id"
                             end)).

(** A service whose second answer to the polling has no status. *)
Definition silent : World :=
  world_of (scripted no_configs not_available (accepted 7)
              (fun chance => match chance with
                             | O => in_status "running"
                             | _ => Returns (envelope_of [] [("job_id", PInt 7)])
                             end)).

(** A service that fails at the level of the transport during the
    polling. *)
Definition unreachable : World :=
  world_of (scripted no_configs not_available (accepted 7)
              (fun chance => match chance with
                             | O => in_status "pending"
                             | _ => Raises (HTTPError "502 Bad Gateway")
                             end)).

(** Services whose answer to the availability request breaks the
    contract: no status, a status without job id, an answer that is not a
    dict. *)
Definition without_status : World :=
  world_of (scripted no_configs (Returns (envelope_of [] []))
              (accepted 7) nominal_polls).

Definition without_job : World :=
  world_of (scripted no_configs
              (Returns (envelope_of [] [("status", PStr "running")]))
              (accepted 7) nominal_polls).

Definition null_answer : World :=
  world_of (scripted no_configs
              (Returns [("errors", PList []); ("answer", PNone)])
              (accepted 7) nominal_polls).

(** A service whose submission fails at the level of the transport. *)
Definition offline : World :=
  world_of (scripted no_configs not_available
              (Raises (HTTPError "503 Service Unavailable")) nominal_polls).

(* ===================================================================== *)
(** ** The library functions on known inputs *)
(* ===================================================================== *)

Example md5_empty :
  MD5.hexdigest (Str.encode_utf8 "") = "d41d8cd98f00b204e9800998ecf8427e".
Proof. vm_compute. reflexivity. Qed.

Example md5_abc :
  MD5.hexdigest (Str.encode_utf8 "abc") = "900150983cd24fb0d6963f7d28e17f72".
Proof. vm_compute. reflexivity. Qed.

Example md5_message_digest :
  MD5.hexdigest (Str.encode_utf8 "message digest")
  = "f96b697d7cb7938d525a2f31aaf161d0".
Proof. vm_compute. reflexivity. Qed.

Example md5_two_blocks :
  MD5.hexdigest (Str.encode_utf8
    "12345678901234567890123456789012345678901234567890123456789012345678901234567890")
  = "57edf4a22be3c955ac49da2e2107b67a".
Proof. vm_compute. reflexivity. Qed.

Example md5_raw_bytes :
  MD5.hexdigest [x00; xff; x0a; xc8]%byte = "348db600d2af378dc93f7f24dc4be332".
Proof. vm_compute. reflexivity. Qed.

Example md5_lowered_observable :
  MD5.hexdigest (Str.encode_utf8 (Str.lower "Example.COM"))
  = "5ababd603b22780302dd8d83498e5172".
Proof. vm_compute. reflexivity. Qed.

(* ===================================================================== *)
(** ** Proof tools: the [post] judgement and case analysis *)
(* ===================================================================== *)

Arguments MD5.hexdigest : simpl never.
Arguments dict_get : simpl never.
Arguments truthy : simpl never.
Arguments eq_str : simpl never.
Arguments in_strs : simpl never.
Arguments polling : simpl never.
Arguments Str.contains : simpl never.

Ltac unfold_m :=
  unfold post, trace_of, frame_of, flow_of,
    call, log, py_get, args_value, classify, open_file_handler,
    bind, ret, emit, raise, exit, gets, modify, try_except in *.

(** Case analysis on the innermost scrutinee of the goal. *)
Ltac break_inner :=
  match goal with
  | |- context [match ?x with _ => _ end] =>
      lazymatch x with
      | context [match _ with _ => _ end] => fail
      | _ => destruct x eqn:?
      end
  end.

Ltac by_cases := repeat (simpl; try break_inner).

Lemma post_elim {A} (m : M A) fr Q t fr' r :
  post m fr Q -> m fr = (t, fr', r) -> Q t fr' r.
Proof. unfold post. intros H E. rewrite E in H. exact H. Qed.

(* ===================================================================== *)
(** ** Strings *)
(* ===================================================================== *)

Lemma lower_char_idempotent c :
  Str.lower_char (Str.lower_char c) = Str.lower_char c.
Proof. destruct c as [[] [] [] [] [] [] [] []]; reflexivity. Qed.

Lemma lower_idempotent s : Str.lower (Str.lower s) = Str.lower s.
Proof.
  induction s as [|c s IH]; simpl.
  - reflexivity.
  - rewrite lower_char_idempotent, IH. reflexivity.
Qed.

(* ===================================================================== *)
(** ** The handlers and the presentation step *)
(* ===================================================================== *)

Lemma except_run e fr : except e fr = ([handled e (md5 fr)], fr, Normal tt).
Proof. destruct e; reflexivity. Qed.

Lemma present_run w fr :
  present w fr
  = (Log INFO (ElapsedTime (elapsed_time fr)) :: Log INFO ResultsHeader
       :: shown w (args fr) (results fr),
     fr, presented w (args fr)).
Proof.
  unfold present, shown, presented. unfold_m. by_cases; reflexivity.
Qed.

Lemma shown_no_api_call w a v e : In e (shown w a v) -> is_api_call e = false.
Proof.
  unfold shown. by_cases; simpl; intros H; try contradiction;
    destruct H as [H|H]; try contradiction; subst; reflexivity.
Qed.

(* ===================================================================== *)
(** ** Properties of every suffix of a trace *)
(* ===================================================================== *)

Lemma each_suffix_split P t :
  each_suffix P t <-> (forall pre e post, t = pre ++ e :: post -> P e post).
Proof.
  induction t as [|x t IH]; simpl.
  - split; [|trivial]. intros _ [|? ?] ? ? E; discriminate E.
  - rewrite IH. split.
    + intros [Hx Ht] [|y pre] e post E; simpl in E; inversion E; subst; eauto.
    + intros H. split.
      * apply (H [] x t). reflexivity.
      * intros pre e post E. apply (H (x :: pre)). simpl. congruence.
Qed.

Lemma each_suffix_app P t1 t2 :
  each_suffix P (t1 ++ t2)
  <-> each_suffix (fun e post => P e (post ++ t2)) t1 /\ each_suffix P t2.
Proof.
  induction t1 as [|x t1 IH]; simpl.
  - tauto.
  - rewrite IH. tauto.
Qed.

Lemma each_suffix_weaken (P Q : event -> trace -> Prop) t :
  (forall e post, P e post -> Q e post) -> each_suffix P t -> each_suffix Q t.
Proof.
  intros H. induction t as [|x t IH]; simpl; [trivial|].
  intros [Hx Ht]. auto.
Qed.

Lemma each_suffix_Forall (P : event -> Prop) t :
  Forall P t -> each_suffix (fun e _ => P e) t.
Proof. induction 1; simpl; auto. Qed.

(* ===================================================================== *)
(** ** The polling loop *)
(* ===================================================================== *)

Lemma for_in_loops {A} (body : A -> M loop_ctl) l :
  forall fr,
    loops body l fr (trace_of (for_in l body fr)) (frame_of (for_in l body fr))
      (flow_of (for_in l body fr)).
Proof.
  induction l as [|x l IH]; intros fr.
  - apply loops_exhausted.
  - simpl. unfold bind.
    destruct (body x fr) as [[t fr'] [[|]|e|code]] eqn:E.
    + specialize (IH fr').
      destruct (for_in l body fr') as [[t' fr''] r]. simpl in *.
      eapply loops_continue; eassumption.
    + simpl. rewrite app_nil_r. apply loops_break. exact E.
    + simpl. eapply loops_raise; eassumption.
    + simpl. eapply loops_exit; eassumption.
Qed.

Lemma for_in_run {A} (body : A -> M loop_ctl) l fr t fr' r :
  for_in l body fr = (t, fr', r) -> loops body l fr t fr' r.
Proof.
  intros E. pose proof (for_in_loops body l fr) as H.
  rewrite E in H. exact H.
Qed.

Lemma in_strs_cases v l :
  in_strs v l = true -> exists s, v = PStr s /\ In s l.
Proof.
  unfold in_strs. rewrite existsb_exists. intros [s [Hin He]].
  destruct v; simpl in He; try discriminate.
  apply String.eqb_eq in He. subst. eauto.
Qed.

(** One iteration, whatever the answer: the sleep, the request, then log
    records only; the iteration never exits the process, changes the
    frame only when it breaks out of the loop, and raises at once when
    the envelope carries errors. *)
Lemma poll_once_shape c job i fr :
  post (poll_once c job i) fr (fun t fr' r =>
    exists tail,
      t = Sleep polling_interval
            :: ApiCall (AskAnalysisResult job) (ask_analysis_result c i job)
            :: tail
      /\ Forall (fun e => is_api_call e = false /\ is_sleep e = false) tail
      /\ args fr' = args fr /\ md5 fr' = md5 fr
      /\ (forall code, r <> SysExit code)
      /\ (r <> Normal Break -> fr' = fr)
      /\ (forall envelope,
             ask_analysis_result c i job = Returns envelope ->
             truthy (errors_of envelope) = true ->
             tail = [] /\ fr' = fr
             /\ r = Raise (IntelOwlClientException (ResultFailed (errors_of envelope))))).
Proof.
  unfold poll_once, errors_of. unfold_m. by_cases;
    eexists; (split; [reflexivity|]);
    repeat split; try discriminate; try congruence;
    repeat constructor;
    try (intros ? [= <-] ?; congruence).
Qed.

Lemma polling_event_tail tail :
  Forall (fun e => is_api_call e = false /\ is_sleep e = false) tail ->
  Forall (fun e => is_poll e = false) tail.
Proof.
  intros H. eapply Forall_impl; [|exact H].
  intros [] [H1 H2]; simpl in *; try reflexivity; discriminate.
Qed.

Lemma filter_none {A} (f : A -> bool) l :
  Forall (fun e => f e = false) l -> filter f l = [].
Proof.
  induction 1 as [|x l Hx _ IH]; simpl; [reflexivity|].
  rewrite Hx. exact IH.
Qed.

Ltac iteration E :=
  let tail := fresh "tail" in
  let Htail := fresh "Htail" in
  let Ha := fresh "Ha" in
  let Hm := fresh "Hm" in
  let Hne := fresh "Hne" in
  let Hfr := fresh "Hfr" in
  let Herr := fresh "Herr" in
  pose proof (post_elim _ _ _ _ _ _ (poll_once_shape _ _ _ _) E)
    as (tail & -> & Htail & Ha & Hm & Hne & Hfr & Herr).

Lemma loop_counts c job l fr t fr' r :
  loops (poll_once c job) l fr t fr' r ->
  (List.length (filter is_poll t) <= List.length l)%nat
  /\ List.length (filter is_sleep t) = List.length (filter is_poll t).
Proof.
  assert (Hone : forall i fr t fr' r,
             poll_once c job i fr = (t, fr', r) ->
             List.length (filter is_poll t) = 1%nat
             /\ List.length (filter is_sleep t) = 1%nat).
  { intros i fr0 t0 fr0' r0 E. iteration E. simpl.
    rewrite (filter_none is_poll tail) by (apply polling_event_tail; exact Htail).
    rewrite (filter_none is_sleep tail)
      by (eapply Forall_impl; [|exact Htail]; intros ? [_ ?]; assumption).
    split; reflexivity. }
  induction 1 as [fr|i l fr t fr' t' fr'' r E _ IH|i l fr t fr' E
                  |i l fr t fr' e E|i l fr t fr' code E];
    try (destruct (Hone _ _ _ _ _ E) as [H1 H2]).
  - simpl. split; [lia|reflexivity].
  - rewrite !filter_app, !length_app, H1, H2. simpl. lia.
  - rewrite H1, H2. simpl. lia.
  - rewrite H1, H2. simpl. lia.
  - rewrite H1, H2. simpl. lia.
Qed.

Lemma loop_frame c job l fr t fr' r :
  loops (poll_once c job) l fr t fr' r ->
  args fr' = args fr /\ md5 fr' = md5 fr
  /\ (forall code, r <> SysExit code)
  /\ (r <> Normal tt -> fr' = fr).
Proof.
  induction 1 as [fr|i l fr t fr' t' fr'' r E _ IH|i l fr t fr' E
                  |i l fr t fr' e E|i l fr t fr' code E].
  - repeat split; auto; discriminate.
  - iteration E. assert (fr' = fr) by (apply Hfr; discriminate). subst fr'.
    exact IH.
  - iteration E. repeat split; auto; try discriminate; congruence.
  - iteration E. assert (fr' = fr) by (apply Hfr; discriminate).
    repeat split; auto; discriminate.
  - iteration E. destruct (Hne code). reflexivity.
Qed.

Lemma iteration_failures job (P : event -> trace -> Prop) r tail rest :
  Forall (fun e => is_api_call e = false /\ is_sleep e = false) tail ->
  (forall e post, is_api_call e = false -> P e post) ->
  P (ApiCall (AskAnalysisResult job) r) (tail ++ rest) ->
  each_suffix (fun e post => P e (post ++ rest))
    (Sleep polling_interval :: ApiCall (AskAnalysisResult job) r :: tail).
Proof.
  intros Htail Hother Hcall. simpl. split; [apply Hother; reflexivity|].
  split; [exact Hcall|].
  eapply each_suffix_weaken; [|apply each_suffix_Forall; exact Htail].
  intros e post [He _]. apply Hother. exact He.
Qed.

Lemma poll_failure_other job fr fr' r e post :
  is_api_call e = false -> poll_failure_aborts job fr fr' r e post.
Proof. intros He envelope ->. discriminate He. Qed.

Lemma loop_failures c job l fr t fr' r :
  loops (poll_once c job) l fr t fr' r ->
  each_suffix (poll_failure_aborts job fr fr' r) t.
Proof.
  induction 1 as [fr|i l fr t fr' t' fr'' r E H IH|i l fr t fr' E
                  |i l fr t fr' e E|i l fr t fr' code E].
  - exact I.
  - iteration E. assert (fr' = fr) by (apply Hfr; discriminate). subst fr'.
    apply each_suffix_app. split; [|exact IH].
    apply iteration_failures; [exact Htail|apply poll_failure_other|].
    intros envelope [= Hr] Ht. destruct (Herr envelope Hr Ht) as (_ & _ & ?).
    discriminate.
  - iteration E. rewrite <- (app_nil_r (_ :: _ :: tail)).
    apply each_suffix_app. split; [|exact I].
    apply iteration_failures; [exact Htail|apply poll_failure_other|].
    intros envelope [= Hr] Ht. destruct (Herr envelope Hr Ht) as (_ & _ & ?).
    discriminate.
  - iteration E. rewrite <- (app_nil_r (_ :: _ :: tail)).
    apply each_suffix_app. split; [|exact I].
    apply iteration_failures; [exact Htail|apply poll_failure_other|].
    intros envelope [= Hr] Ht. destruct (Herr envelope Hr Ht) as (-> & -> & Hr').
    injection Hr' as ->. auto.
  - iteration E. destruct (Hne code). reflexivity.
Qed.

Lemma loop_events c job l fr t fr' r :
  loops (poll_once c job) l fr t fr' r -> Forall (polling_event job) t.
Proof.
  assert (Hone : forall i fr t fr' r,
             poll_once c job i fr = (t, fr', r) -> Forall (polling_event job) t).
  { clear. intros i fr t fr' r E. revert E.
    unfold poll_once. unfold_m. by_cases; intros [= <- _ _];
      repeat constructor. }
  induction 1; eauto using Forall_nil.
  apply Forall_app. split; eauto.
Qed.

(** *** Iterations with a known answer *)

Lemma poll_once_non_terminal c job i fr :
  non_terminal (ask_analysis_result c i job) = true ->
  exists tail,
    poll_once c job i fr
    = (Sleep polling_interval
         :: ApiCall (AskAnalysisResult job) (ask_analysis_result c i job) :: tail,
       fr, Normal Continue).
Proof.
  unfold non_terminal, errors_of, answer_of.
  destruct (ask_analysis_result c i job) as [envelope|e] eqn:Hr; [|discriminate].
  intros H. apply andb_prop in H as [He H]. apply negb_true_iff in He.
  destruct (dict_get envelope "answer" (PDict [])) as [| | | | |d] eqn:Ha;
    try discriminate.
  apply andb_prop in H as [H Ht]. apply andb_prop in H as [Hs Hi].
  apply negb_true_iff in Ht, Hi.
  unfold poll_once. unfold_m. simpl. rewrite Hr. simpl. rewrite He, Ha. simpl.
  rewrite Hs. simpl. rewrite Hi, Ht.
  by_cases; eexists; reflexivity.
Qed.

Lemma poll_once_terminal c job i fr envelope d :
  ask_analysis_result c i job = Returns envelope ->
  truthy (errors_of envelope) = false ->
  answer_of envelope = PDict d ->
  in_strs (dict_get d "status" PNone) terminal_statuses = true ->
  poll_once c job i fr
  = ([Sleep polling_interval;
      ApiCall (AskAnalysisResult job) (Returns envelope);
      Log INFO (Finished job (md5 fr) (dict_get d "status" PNone)
                  (analyzers_list (args fr)))],
     set_elapsed_time (dict_get d "elapsed_time_in_seconds" (PList []))
       (set_results (dict_get d "results" (PList [])) fr),
     Normal Break).
Proof.
  unfold poll_once, errors_of, answer_of, terminal_statuses.
  intros Hr He Ha Hs. unfold_m. simpl. rewrite Hr. simpl. rewrite He, Ha. simpl.
  destruct (in_strs_cases _ _ Hs) as (s & Hv & Hin). rewrite Hv.
  simpl in Hin. destruct Hin as [<-|[<-|[<-|[]]]]; reflexivity.
Qed.

Lemma poll_once_running c job i fr :
  has_status (ask_analysis_result c i job) "running" ->
  poll_once c job i fr
  = ([Sleep polling_interval;
      ApiCall (AskAnalysisResult job) (ask_analysis_result c i job)],
     fr, Normal Continue).
Proof.
  intros (envelope & d & Hr & He & Ha & Hs).
  unfold poll_once, errors_of, answer_of in *.
  unfold_m. simpl. rewrite Hr. simpl. rewrite He, Ha. simpl. rewrite Hs.
  reflexivity.
Qed.

Lemma poll_once_pending c job i fr :
  has_status (ask_analysis_result c i job) "pending" ->
  poll_once c job i fr
  = ([Sleep polling_interval;
      ApiCall (AskAnalysisResult job) (ask_analysis_result c i job);
      Log WARNING (PendingMaybeStuck job (md5 fr) (analyzers_list (args fr)))],
     fr, Normal Continue).
Proof.
  intros (envelope & d & Hr & He & Ha & Hs).
  unfold poll_once, errors_of, answer_of in *.
  unfold_m. simpl. rewrite Hr. simpl. rewrite He, Ha. simpl. rewrite Hs.
  reflexivity.
Qed.

(** *** Runs of the loop *)

(** Over answers that are all non-terminal the loop uses every chance it
    has and leaves the frame as it found it. *)
Lemma loop_exhausts c job l :
  (forall i, In i l -> non_terminal (ask_analysis_result c i job) = true) ->
  forall fr, exists t,
    for_in l (poll_once c job) fr = (t, fr, Normal tt)
    /\ List.length (filter is_poll t) = List.length l
    /\ Forall (fun e => is_poll e = true -> exists r, e = ApiCall (AskAnalysisResult job) r
                                                    /\ non_terminal r = true) t.
Proof.
  induction l as [|i l IH]; intros H fr.
  - exists []. repeat split. constructor.
  - destruct (poll_once_non_terminal c job i fr (H i (or_introl eq_refl)))
      as [tail E].
    destruct (IH (fun j Hj => H j (or_intror Hj)) fr) as (t & Et & Hn & Hall).
    pose proof (post_elim _ _ _ _ _ _ (poll_once_shape c job i fr) E)
      as (tail0 & Heq & Htail & _).
    injection Heq as <-.
    eexists. simpl. unfold bind. rewrite E, Et. split; [reflexivity|].
    simpl. rewrite filter_app, length_app, Hn.
    rewrite (filter_none is_poll tail) by (apply polling_event_tail; exact Htail).
    split; [reflexivity|].
    constructor; [discriminate|].
    constructor; [intros _; eexists; split; [reflexivity|apply H; left; reflexivity]|].
    apply Forall_app. split; [|exact Hall].
    eapply Forall_impl; [|apply polling_event_tail; exact Htail].
    intros e He He'. congruence.
Qed.

(** A terminal answer at the chance [k], after non-terminal ones, ends the
    loop there with the results and the elapsed time of that answer. *)
Lemma loop_breaks c job l1 k l2 envelope d :
  (forall i, In i l1 -> non_terminal (ask_analysis_result c i job) = true) ->
  ask_analysis_result c k job = Returns envelope ->
  truthy (errors_of envelope) = false ->
  answer_of envelope = PDict d ->
  in_strs (dict_get d "status" PNone) terminal_statuses = true ->
  forall fr, exists t,
    for_in (l1 ++ k :: l2) (poll_once c job) fr
    = (t,
       set_elapsed_time (dict_get d "elapsed_time_in_seconds" (PList []))
         (set_results (dict_get d "results" (PList [])) fr),
       Normal tt)
    /\ List.length (filter is_poll t) = S (List.length l1).
Proof.
  intros H Hr He Ha Hs. induction l1 as [|i l1 IH]; intros fr.
  - eexists. simpl. unfold bind.
    rewrite (poll_once_terminal c job k fr envelope d Hr He Ha Hs).
    split; reflexivity.
  - destruct (poll_once_non_terminal c job i fr (H i (or_introl eq_refl)))
      as [tail E].
    destruct (IH (fun j Hj => H j (or_intror Hj)) fr) as (t & Et & Hn).
    pose proof (post_elim _ _ _ _ _ _ (poll_once_shape c job i fr) E)
      as (tail0 & Heq & Htail & _).
    injection Heq as <-.
    eexists. simpl. unfold bind. rewrite E, Et. split; [reflexivity|].
    simpl. rewrite filter_app, length_app, Hn.
    rewrite (filter_none is_poll tail) by (apply polling_event_tail; exact Htail).
    reflexivity.
Qed.

Lemma seq_split k n :
  (k < n)%nat -> seq 0 n = seq 0 k ++ k :: seq (S k) (n - S k).
Proof.
  intros H. replace n with (k + S (n - S k))%nat at 1 by lia.
  rewrite seq_app. reflexivity.
Qed.

(** *** The polling step *)

Lemma polling_run c job fr :
  polling c job fr
  = match for_in (seq 0 polling_max_tries) (poll_once c job) fr with
    | (t, fr', Normal _) =>
        (Log INFO StartedPolling :: t, fr',
         if truthy (results fr') then Normal tt
         else Raise (IntelOwlClientException (PollingTimeout job)))
    | (t, fr', Raise e) => (Log INFO StartedPolling :: t, fr', Raise e)
    | (t, fr', SysExit code) => (Log INFO StartedPolling :: t, fr', SysExit code)
    end.
Proof.
  unfold polling. generalize (seq 0 polling_max_tries) as l. intros l.
  unfold_m. simpl.
  destruct (for_in l (poll_once c job) fr) as [[t fr'] [[]|e|code]]; simpl;
    try reflexivity.
  destruct (truthy (results fr')); simpl; rewrite ?app_nil_r; reflexivity.
Qed.

Lemma polling_shape c job fr :
  post (polling c job) fr (fun t fr' r =>
    exists tp,
      t = Log INFO StartedPolling :: tp
      /\ (List.length (filter is_poll tp) <= polling_max_tries)%nat
      /\ List.length (filter is_sleep tp) = List.length (filter is_poll tp)
      /\ Forall (polling_event job) tp
      /\ args fr' = args fr /\ md5 fr' = md5 fr
      /\ (forall code, r <> SysExit code)
      /\ each_suffix (poll_failure_aborts job fr fr' r) tp).
Proof.
  unfold post. rewrite polling_run.
  destruct (for_in (seq 0 polling_max_tries) (poll_once c job) fr)
    as [[t fr'] r] eqn:E.
  apply for_in_run in E.
  destruct (loop_counts _ _ _ _ _ _ _ E) as [Hc Hs].
  destruct (loop_frame _ _ _ _ _ _ _ E) as (Ha & Hm & Hne & Hfr).
  pose proof (loop_failures _ _ _ _ _ _ _ E) as Hf.
  pose proof (loop_events _ _ _ _ _ _ _ E) as He.
  rewrite length_seq in Hc.
  destruct r as [[]|e|code].
  - exists t. repeat (split; [assumption || reflexivity|]).
    split; [destruct (truthy (results fr')); discriminate|].
    eapply each_suffix_weaken; [|exact Hf].
    intros ev post0 H envelope Hev Ht.
    destruct (H envelope Hev Ht) as (_ & _ & ?). discriminate.
  - exists t. repeat (split; [assumption || reflexivity|]). exact Hf.
  - destruct (Hne code). reflexivity.
Qed.

(** Over 1200 non-terminal answers the polling step times out. *)
Lemma polling_timeout c job fr :
  truthy (results fr) = false ->
  (forall i, (i < polling_max_tries)%nat ->
             non_terminal (ask_analysis_result c i job) = true) ->
  exists tp,
    polling c job fr
    = (Log INFO StartedPolling :: tp, fr,
       Raise (IntelOwlClientException (PollingTimeout job)))
    /\ List.length (filter is_poll tp) = polling_max_tries
    /\ Forall (fun e => is_poll e = true ->
                 exists r, e = ApiCall (AskAnalysisResult job) r
                           /\ non_terminal r = true) tp.
Proof.
  intros Hres H.
  destruct (loop_exhausts c job (seq 0 polling_max_tries)) with (fr := fr)
    as (t & E & Hn & Hall).
  { intros i Hi. apply H. apply in_seq in Hi. lia. }
  exists t. split; [rewrite polling_run, E, Hres; reflexivity|].
  split; [rewrite Hn; apply length_seq|exact Hall].
Qed.

(** A terminal answer at the chance [k], after non-terminal ones: the
    polling step ends there, and succeeds only when the results of that
    answer are not empty. *)
Lemma polling_terminal c job fr k envelope d :
  (k < polling_max_tries)%nat ->
  (forall i, (i < k)%nat -> non_terminal (ask_analysis_result c i job) = true) ->
  ask_analysis_result c k job = Returns envelope ->
  truthy (errors_of envelope) = false ->
  answer_of envelope = PDict d ->
  in_strs (dict_get d "status" PNone) terminal_statuses = true ->
  exists tp,
    polling c job fr
    = (Log INFO StartedPolling :: tp,
       set_elapsed_time (dict_get d "elapsed_time_in_seconds" (PList []))
         (set_results (dict_get d "results" (PList [])) fr),
       if truthy (dict_get d "results" (PList [])) then Normal tt
       else Raise (IntelOwlClientException (PollingTimeout job)))
    /\ List.length (filter is_poll tp) = S k.
Proof.
  intros Hk H Hr He Ha Hs.
  destruct (loop_breaks c job (seq 0 k) k (seq (S k) (polling_max_tries - S k))
              envelope d) with (fr := fr) as (t & E & Hn); auto.
  { intros i Hi. apply H. apply in_seq in Hi. lia. }
  exists t. split; [|rewrite Hn, length_seq; reflexivity].
  rewrite polling_run, (seq_split k polling_max_tries Hk), E. reflexivity.
Qed.

(* ===================================================================== *)
(** ** The steps before the polling loop *)
(* ===================================================================== *)

Ltac unfold_before :=
  unfold before_polling, prepare_input, configuration_only,
    check_availability, submit.

Lemma before_polling_frame w fr :
  post (before_polling w) fr (fun t fr' r =>
    results fr' = results fr /\ elapsed_time fr' = elapsed_time fr
    /\ args fr' = normalized (args fr)
    /\ (forall c j, r = Normal (c, j) ->
          c = client_of w (args fr) /\ truthy j = true)
    /\ (forall code, r = SysExit code ->
          code = 0 /\ command (args fr) = NoCommand)).
Proof.
  unfold_before. unfold_m. unfold normalized, client_of.
  by_cases; repeat split; try congruence; try discriminate;
    try (intros ? ? [= <- <-]); try (intros ? [= <-]);
    try reflexivity; try assumption; try congruence.
Qed.

(** The fingerprint that the preparation of the input computes. *)
Lemma before_polling_fingerprint w fr :
  post (before_polling w) fr (fun t fr' r =>
    match command (args fr) with
    | CmdFile file =>
        match path_entry w file with
        | Regular binary => md5 fr' = Some (MD5.hexdigest binary)
        | _ => md5 fr' = md5 fr
        end
    | CmdObservable value =>
        md5 fr' = Some (MD5.hexdigest (Str.encode_utf8 (Str.lower value)))
    | NoCommand => md5 fr' = md5 fr
    end).
Proof.
  unfold_before. unfold_m. by_cases; congruence.
Qed.

Lemma before_polling_events w fr :
  post (before_polling w) fr (fun t fr' r =>
    Forall (fun e => is_poll e = false /\ is_sleep e = false) t).
Proof.
  unfold_before. unfold_m. by_cases; repeat constructor.
Qed.

Ltac split_suffixes :=
  repeat match goal with
         | |- _ /\ _ => split
         | |- True => exact I
         end.

Lemma before_polling_failures w fr :
  post (before_polling w) fr (fun t fr' r => each_suffix (early_failure r) t).
Proof.
  unfold_before. unfold_m.
  by_cases; split_suffixes;
    intros qc qenv Heq Ht; try discriminate Heq;
    injection Heq as <- <-; unfold errors_of, answer_of in *;
    simpl; try congruence; auto.
Qed.

(** An availability answer whose status is not "not_available": no
    submission, and the job to poll is the one of the answer. *)
Lemma before_polling_available w fr :
  post (before_polling w) fr (fun t fr' r =>
    forall m al ra cr envelope d,
      In (ApiCall (AskAnalysisAvailability m al ra cr) (Returns envelope)) t ->
      answer_of envelope = PDict d ->
      eq_str (dict_get d "status" PNone) "not_available" = false ->
      Forall (fun e => is_submission e = false) t
      /\ (forall c j, r = Normal (c, j) -> j = dict_get d "job_id" (PStr ""))
      /\ (truthy (errors_of envelope) = false ->
          truthy (dict_get d "status" PNone) = true ->
          truthy (dict_get d "job_id" (PStr "")) = true ->
          r = Normal (client_of w (args fr), dict_get d "job_id" (PStr "")))).
Proof.
  unfold_before. unfold_m. unfold client_of.
  by_cases; intros qm qal qra qcr qenv qd Hin Ha Hs;
    simpl in Hin;
    repeat match goal with
           | H : _ \/ _ |- _ => destruct H as [H|H]
           | H : False |- _ => destruct H
           | H : _ = ApiCall _ _ |- _ =>
               first [discriminate H | injection H as <- <- <- <- <-]
           end;
    unfold errors_of, answer_of in *;
    repeat match goal with
           | H : negb _ = false |- _ => apply negb_false_iff in H
           | H : negb _ = true |- _ => apply negb_true_iff in H
           end;
    try congruence;
    try (assert (qd = d) by congruence; subst qd);
    try congruence.
  all: split; [repeat constructor|].
  all: split; [intros ? ? [= <- <-]; congruence || (try congruence)|].
  all: try congruence.
  all: intros; try congruence.
Qed.

(** A submission whose answer does not say "accepted" raises. *)
Lemma before_polling_rejected w fr :
  post (before_polling w) fr (fun t fr' r =>
    forall c envelope d,
      In (ApiCall c (Returns envelope)) t ->
      is_submission (ApiCall c (Returns envelope)) = true ->
      answer_of envelope = PDict d ->
      eq_str (dict_get d "status" PNone) "accepted" = false ->
      raised r = Some (IntelOwlClientException (SendFailed (errors_of envelope)))
      \/ raised r = Some (IntelOwlClientException (SendNoStatus (PDict d)))
      \/ raised r
         = Some (IntelOwlClientException
                   (SendUnexpectedStatus (dict_get d "status" PNone)))).
Proof.
  unfold_before. unfold_m.
  by_cases; intros qc qenv qd Hin Hsub Ha Hs;
    simpl in Hin;
    repeat match goal with
           | H : _ \/ _ |- _ => destruct H as [H|H]
           | H : False |- _ => destruct H
           | H : _ = ApiCall _ _ |- _ =>
               first [discriminate H | injection H as <- <-]
           end;
    try discriminate Hsub;
    unfold errors_of, answer_of in *;
    repeat match goal with
           | H : negb _ = false |- _ => apply negb_false_iff in H
           | H : negb _ = true |- _ => apply negb_true_iff in H
           end;
    try congruence;
    repeat match goal with
           | H1 : ?x = PDict ?d1, H2 : ?x = PDict ?d2 |- _ =>
               assert (d2 = d1) by congruence; subst d2
           end;
    try congruence; simpl; auto.
Qed.

(* ===================================================================== *)
(** ** The whole run *)
(* ===================================================================== *)

Arguments try_block : simpl never.
Arguments before_polling : simpl never.
Arguments present : simpl never.
Arguments except : simpl never.

Lemma try_block_run w fr :
  try_block w fr
  = match before_polling w fr with
    | (t0, fr1, Normal (c, j)) =>
        match polling c j fr1 with
        | (tp, fr2, r) => (t0 ++ tp, fr2, r)
        end
    | (t0, fr1, Raise e) => (t0, fr1, Raise e)
    | (t0, fr1, SysExit code) => (t0, fr1, SysExit code)
    end.
Proof.
  unfold try_block, bind.
  destruct (before_polling w fr) as [[t0 fr1] [[c j]|e|code]]; reflexivity.
Qed.

Lemma logic_run w a :
  run (_pyintelowl_logic w) a
  = match try_block w (start a) with
    | (t, fr, Normal _) =>
        (t ++ final w fr, outcome_of (presented w (args fr)))
    | (t, fr, Raise e) =>
        (t ++ handled e (md5 fr) :: final w fr,
         outcome_of (presented w (args fr)))
    | (t, fr, SysExit code) => (t, Exited code)
    end.
Proof.
  unfold run, _pyintelowl_logic, bind, modify, try_except. simpl.
  change (set_elapsed_time PNone (set_results (PList []) (set_md5 None (start a))))
    with (start a).
  destruct (try_block w (start a)) as [[t fr] [[]|e|code]]; simpl.
  - rewrite present_run. unfold final.
    destruct (presented w (args fr)) as [[]| |]; reflexivity.
  - rewrite except_run, present_run. unfold final.
    destruct (presented w (args fr)) as [[]| |]; simpl; rewrite <- ?app_assoc;
      reflexivity.
  - reflexivity.
Qed.

Lemma show_colors_normalized a : show_colors (normalized a) = show_colors a.
Proof. unfold normalized. destruct (command a); reflexivity. Qed.

Lemma final_no_api_call w fr : Forall (fun e => is_api_call e = false) (final w fr).
Proof.
  unfold final. repeat constructor.
  apply Forall_forall. intros e. apply shown_no_api_call.
Qed.

Lemma handled_no_api_call e m : is_api_call (handled e m) = false.
Proof. destruct e; reflexivity. Qed.

Lemma polling_event_no_submission job t :
  Forall (polling_event job) t -> Forall (fun e => is_submission e = false) t.
Proof.
  intros H. eapply Forall_impl; [|exact H].
  intros [] He; simpl in *; try reflexivity. subst. reflexivity.
Qed.

Lemma each_suffix_with (P : event -> trace -> Prop) (Q : event -> Prop) t :
  each_suffix P t -> Forall Q t -> each_suffix (fun e post => P e post /\ Q e) t.
Proof.
  intros HP HQ. induction HQ as [|x t Hx _ IH]; simpl in *; [trivial|].
  destruct HP as [H1 H2]. auto.
Qed.

Lemma closing_no_api_call w r fr :
  Forall (fun e => is_api_call e = false) (closing w r fr).
Proof.
  destruct r; simpl; try apply final_no_api_call.
  constructor; [apply handled_no_api_call|apply final_no_api_call].
Qed.

Lemma logic_cases w a : run_case w a.
Proof.
  destruct (before_polling w (start a)) as [[t0 fr1] r0] eqn:E0.
  pose proof (post_elim _ _ _ _ _ _ (before_polling_frame w (start a)) E0)
    as (_ & _ & Ha & _ & Hexit).
  simpl in Ha.
  destruct r0 as [[c j]|e|code].
  - destruct (polling c j fr1) as [[tp fr2] r] eqn:Ep.
    pose proof (post_elim _ _ _ _ _ _ (polling_shape c j fr1) Ep)
      as (tp' & _ & _ & _ & _ & Ha2 & _ & Hne & _).
    eapply run_polls; [exact E0|exact Ep|].
    rewrite logic_run, try_block_run, E0, Ep, Ha2, Ha.
    destruct r as [[]|e|code]; simpl; rewrite <- ?app_assoc; try reflexivity.
    destruct (Hne code). reflexivity.
  - eapply run_raises_early; [exact E0|].
    rewrite logic_run, try_block_run, E0, Ha. reflexivity.
  - destruct (Hexit code eq_refl) as [-> Hc]. simpl in Hc.
    eapply run_exits; [exact E0|exact Hc|].
    rewrite logic_run, try_block_run, E0. reflexivity.
Qed.

(** The frame that the steps before the polling loop leave, from the
    start of a run. *)
Lemma before_polling_start w a t0 fr1 r :
  before_polling w (start a) = (t0, fr1, r) ->
  results fr1 = PList [] /\ elapsed_time fr1 = PNone
  /\ args fr1 = normalized a
  /\ (forall c j, r = Normal (c, j) -> c = client_of w a /\ truthy j = true).
Proof.
  intros E.
  pose proof (post_elim _ _ _ _ _ _ (before_polling_frame w (start a)) E)
    as (Hr & He & Ha & Hn & _).
  auto.
Qed.

Lemma polling_first c j fr :
  exists rest,
    trace_of (polling c j fr)
    = Log INFO StartedPolling :: Sleep polling_interval
        :: ApiCall (AskAnalysisResult j) (ask_analysis_result c 0 j) :: rest.
Proof.
  rewrite polling_run.
  change (seq 0 polling_max_tries) with (O :: seq 1 (polling_max_tries - 1)).
  generalize (seq 1 (polling_max_tries - 1)) as l. intros l.
  simpl. unfold bind.
  destruct (poll_once c j 0 fr) as [[t fr'] r] eqn:E.
  pose proof (post_elim _ _ _ _ _ _ (poll_once_shape c j 0 fr) E)
    as (tail & -> & _).
  destruct r as [[|]|e|code]; simpl.
  - destruct (for_in l (poll_once c j) fr') as [[t' fr''] [[]|e|code]];
      eexists; reflexivity.
  - eexists; reflexivity.
  - eexists; reflexivity.
  - eexists; reflexivity.
Qed.

(* ===================================================================== *)
(** ** The claims *)
(* ===================================================================== *)

(** *** Validation of the command line *)

(** C3. Without [--get-configuration]: when neither [--analyzers-list] nor
    [--run-all-available-analyzers] is given the process prints the
    message and exits with code 2; when both are given it exits with code
    3. In both cases the message is the whole trace: no logger is created
    and no request is sent. *)
Theorem validation_exit_codes (w : World) (a : Args) :
  get_configuration a = false ->
  (some_analyzers (analyzers_list a) = false ->
   run_all_available_analyzers a = false ->
   run (intel_owl_client w) a = ([Print no_analyzer_message], Exited 2))
  /\ (some_analyzers (analyzers_list a) = true ->
      run_all_available_analyzers a = true ->
      run (intel_owl_client w) a = ([Print both_message], Exited 3)).
Proof.
  intros Hg. unfold run, intel_owl_client, bind, gets. simpl.
  rewrite Hg. simpl.
  split; intros Ha Hr; rewrite Ha, Hr; reflexivity.
Qed.

Lemma validation_exit_codes_witness :
  run (intel_owl_client nominal) (cli_flags false None false)
  = ([Print no_analyzer_message], Exited 2)
  /\ run (intel_owl_client nominal)
       (cli_flags false (Some ["Example_Analyzer"]) true)
     = ([Print both_message], Exited 3).
Proof.
  split.
  - apply (proj1 (validation_exit_codes nominal (cli_flags false None false)
                    eq_refl)); reflexivity.
  - apply (proj2 (validation_exit_codes nominal
                    (cli_flags false (Some ["Example_Analyzer"]) true)
                    eq_refl)); reflexivity.
Defined.

(** *** The fingerprint *)

Lemma try_block_frame w fr :
  args (frame_of (try_block w fr)) = normalized (args fr)
  /\ match command (args fr) with
     | CmdFile file =>
         match path_entry w file with
         | Regular binary =>
             md5 (frame_of (try_block w fr)) = Some (MD5.hexdigest binary)
         | _ => md5 (frame_of (try_block w fr)) = md5 fr
         end
     | CmdObservable value =>
         md5 (frame_of (try_block w fr))
         = Some (MD5.hexdigest (Str.encode_utf8 (Str.lower value)))
     | NoCommand => md5 (frame_of (try_block w fr)) = md5 fr
     end.
Proof.
  rewrite try_block_run.
  destruct (before_polling w fr) as [[t0 fr1] r0] eqn:E0.
  pose proof (post_elim _ _ _ _ _ _ (before_polling_frame w fr) E0)
    as (_ & _ & Ha & _).
  pose proof (post_elim _ _ _ _ _ _ (before_polling_fingerprint w fr) E0) as Hm.
  destruct r0 as [[c j]|e|code]; try (split; assumption).
  destruct (polling c j fr1) as [[tp fr2] r] eqn:Ep.
  pose proof (post_elim _ _ _ _ _ _ (polling_shape c j fr1) Ep)
    as (tp' & _ & _ & _ & _ & Ha2 & Hm2 & _).
  unfold frame_of. simpl. rewrite Ha2, Hm2. split; assumption.
Qed.

(** C8. In file mode the fingerprint is the MD5 digest of the bytes read
    from the file; in observable mode it is the MD5 digest of the UTF-8
    encoding of the lower-cased observable, the observable kept in the
    namespace is the lower-cased one and nothing else of the namespace
    changes; lower-casing twice is lower-casing once. The fingerprint
    computed by the preparation of the input is the one that the [try]
    block ends with. *)
Theorem fingerprint_is_md5_of_input (w : World) (a : Args) :
  (forall file binary,
      command a = CmdFile file -> path_entry w file = Regular binary ->
      prepare_input w (start a)
      = ([], set_md5 (Some (MD5.hexdigest binary)) (start a),
         Normal (Some (Str.basename file), Some binary, false))
      /\ md5 (frame_of (try_block w (start a))) = Some (MD5.hexdigest binary))
  /\ (forall value,
         command a = CmdObservable value ->
         prepare_input w (start a)
         = ([],
            set_md5 (Some (MD5.hexdigest (Str.encode_utf8 (Str.lower value))))
              (set_args (set_value a (Str.lower value)) (start a)),
            Normal (None, None, false))
         /\ md5 (frame_of (try_block w (start a)))
            = Some (MD5.hexdigest (Str.encode_utf8 (Str.lower value)))
         /\ args (frame_of (try_block w (start a)))
            = set_value a (Str.lower value)
         /\ Str.lower (Str.lower value) = Str.lower value
         /\ normalized (normalized a) = normalized a).
Proof.
  destruct (try_block_frame w (start a)) as [Ha Hm]. simpl in Ha, Hm.
  split.
  - intros file binary Hc Hf. rewrite Hc, Hf in Hm. split; [|exact Hm].
    unfold prepare_input. unfold_m. simpl. rewrite Hc, Hf. reflexivity.
  - intros value Hc. rewrite Hc in Hm.
    split; [|split; [exact Hm|split; [|split]]].
    + unfold prepare_input. unfold_m. simpl. rewrite Hc. reflexivity.
    + rewrite Ha. unfold normalized. rewrite Hc. reflexivity.
    + apply lower_idempotent.
    + assert (Hn : normalized a = set_value a (Str.lower value))
        by (unfold normalized; rewrite Hc; reflexivity).
      rewrite Hn. unfold normalized. simpl. rewrite Hc, lower_idempotent.
      unfold set_value. simpl. rewrite Hc. reflexivity.
Qed.

Lemma fingerprint_is_md5_of_input_witness :
  md5 (frame_of (try_block nominal (start (cli (CmdFile "/tmp/sample")))))
  = Some (MD5.hexdigest [x4d; x5a; x90; x00]%byte)
  /\ md5 (frame_of (try_block nominal (start (cli (CmdObservable "Example.COM")))))
     = Some (MD5.hexdigest (Str.encode_utf8 (Str.lower "Example.COM"))).
Proof.
  split.
  - apply (proj1 (fingerprint_is_md5_of_input nominal
                    (cli (CmdFile "/tmp/sample")))
             "/tmp/sample" [x4d; x5a; x90; x00]%byte eq_refl eq_refl).
  - apply (proj2 (fingerprint_is_md5_of_input nominal
                    (cli (CmdObservable "Example.COM")))
             "Example.COM" eq_refl).
Defined.

(** *** A file that does not exist *)

(** [get_logger] either returns the logger it has set up, or raises the
    [OSError] of the log file and leaves no trace. *)
Lemma get_logger_run w d f fr :
  (exists l,
      get_logger w d f fr = ([NewLogger l], fr, Normal l)
      /\ log_level l = (if d then DEBUG else INFO)
      /\ match f with
         | Some path =>
             if String.eqb path "" then handler l = StreamHandler
             else handler l = FileHandler path /\ appendable w path = true
         | None => handler l = StreamHandler
         end)
  \/ (exists path,
         get_logger w d f fr = ([], fr, Raise (OSError path))
         /\ f = Some path /\ path <> "" /\ appendable w path = false).
Proof.
  unfold get_logger. unfold_m.
  destruct f as [path|]; simpl.
  - destruct (String.eqb path "") eqn:E; simpl.
    + left. eexists. split; [reflexivity|]. split; reflexivity.
    + destruct (appendable w path) eqn:Ea; simpl.
      * left. eexists. repeat split; reflexivity.
      * right. exists path. split; [reflexivity|]. split; [reflexivity|].
        split; [intros ->; discriminate E|exact Ea].
  - left. eexists. split; [reflexivity|]. split; reflexivity.
Qed.

Lemma client_run_from w a t fr r :
  cli_valid a = true ->
  get_logger w (debug a) (log_to_file a) (start a) = (t, fr, r) ->
  fr = start a ->
  run (intel_owl_client w) a
  = match r with
    | Normal _ =>
        (t ++ fst (run (_pyintelowl_logic w) a),
         snd (run (_pyintelowl_logic w) a))
    | Raise e => (t, Uncaught e)
    | SysExit code => (t, Exited code)
    end.
Proof.
  unfold cli_valid, run, intel_owl_client, bind, gets, emit, ret. simpl.
  intros Hv E ->.
  destruct (get_configuration a), (some_analyzers (analyzers_list a)),
    (run_all_available_analyzers a); try discriminate Hv; simpl;
    rewrite E; destruct r as [l|e|code]; try reflexivity;
    destruct (_pyintelowl_logic w (start a)) as [[t' fr'] [[]|e|code]];
    reflexivity.
Qed.

(** With a command line that passes the validation and a logger that can
    be set up, the script creates the logger and runs
    [_pyintelowl_logic]. *)
Lemma client_run w a :
  cli_valid a = true ->
  logger_opens w a = true ->
  exists l,
    get_logger w (debug a) (log_to_file a) (start a)
    = ([NewLogger l], start a, Normal l)
    /\ run (intel_owl_client w) a
       = (NewLogger l :: fst (run (_pyintelowl_logic w) a),
          snd (run (_pyintelowl_logic w) a)).
Proof.
  intros Hv Ho.
  destruct (get_logger_run w (debug a) (log_to_file a) (start a))
    as [(l & E & _)|(path & E & Hf & Hp & Ha)].
  - exists l. split; [exact E|].
    rewrite (client_run_from w a _ _ _ Hv E eq_refl). reflexivity.
  - unfold logger_opens in Ho. rewrite Hf, Ha in Ho.
    apply String.eqb_neq in Hp. rewrite Hp in Ho. discriminate Ho.
Qed.

(** With a log file that cannot be opened, the script ends in
    [get_logger]: nothing is logged and nothing is requested. *)
Lemma client_fails w a :
  cli_valid a = true ->
  logger_opens w a = false ->
  exists path,
    log_to_file a = Some path /\ path <> "" /\ appendable w path = false
    /\ run (intel_owl_client w) a = ([], Uncaught (OSError path)).
Proof.
  intros Hv Ho.
  destruct (get_logger_run w (debug a) (log_to_file a) (start a))
    as [(l & E & _ & Hh)|(path & E & Hf & Hp & Ha)].
  - unfold logger_opens in Ho. destruct (log_to_file a) as [path|];
      [|discriminate Ho].
    destruct (String.eqb path ""); [discriminate Ho|].
    destruct Hh as [_ Hh]. simpl in Ho. congruence.
  - exists path. repeat (split; [assumption|]).
    rewrite (client_run_from w a _ _ _ Hv E eq_refl). reflexivity.
Qed.




(** *** Colours in file mode *)

(** C10. With [--show-colors] the presentation step reads [args.value].
    In file mode the attribute does not exist: the run ends, after the
    header of the results, with an [AttributeError] that no handler
    catches, and shows nothing. In observable mode the step asks the
    classifier for the type of the lower-cased observable: when the
    classifier answers, the step calls one of the four checkers on that
    observable and returns; when the classifier raises, its exception
    leaves the script in the same way and nothing is shown. Without a
    sub-command the run either is the configuration-only mode and exits
    with 0, or ends with the same [AttributeError]. *)
Theorem show_colors_needs_an_observable (w : World) (a : Args) :
  show_colors a = true ->
  match command a with
  | CmdFile _ =>
      exists t elapsed,
        run (_pyintelowl_logic w) a
        = (t ++ [Log INFO (ElapsedTime elapsed); Log INFO ResultsHeader],
           Uncaught (AttributeError "value"))
  | CmdObservable value =>
      match get_observable_classification w (Str.lower value) with
      | Classified _ =>
          exists t k results,
            run (_pyintelowl_logic w) a
            = (t ++ [CheckersCall k results (Str.lower value)], Returned)
      | Unclassified e =>
          exists t elapsed,
            run (_pyintelowl_logic w) a
            = (t ++ [Log INFO (ElapsedTime elapsed); Log INFO ResultsHeader],
               Uncaught e)
      end
  | NoCommand =>
      snd (run (_pyintelowl_logic w) a) = Exited 0
      \/ snd (run (_pyintelowl_logic w) a) = Uncaught (AttributeError "value")
  end.
Proof.
  intros Hs.
  assert (Hfinal : forall fr, args fr = normalized a ->
            match command a with
            | CmdFile _ | NoCommand =>
                final w fr = [Log INFO (ElapsedTime (elapsed_time fr));
                              Log INFO ResultsHeader]
            | CmdObservable value =>
                match get_observable_classification w (Str.lower value) with
                | Classified _ =>
                    exists k,
                      final w fr
                      = [Log INFO (ElapsedTime (elapsed_time fr));
                         Log INFO ResultsHeader;
                         CheckersCall k (results fr) (Str.lower value)]
                | Unclassified _ =>
                    final w fr = [Log INFO (ElapsedTime (elapsed_time fr));
                                  Log INFO ResultsHeader]
                end
            end).
  { intros fr Ha. unfold final, shown. rewrite Ha, show_colors_normalized, Hs.
    unfold normalized. destruct (command a) as [|file|value] eqn:Hc;
      rewrite ?Hc; try reflexivity.
    simpl. rewrite Hc.
    destruct (get_observable_classification w (Str.lower value))
      as [observable|e]; [|reflexivity].
    destruct (Str.contains "domain" _); [eexists; reflexivity|].
    destruct (Str.contains "hash" _); [eexists; reflexivity|].
    destruct (Str.contains "url" _); eexists; reflexivity. }
  assert (Hout : outcome_of (presented w (normalized a))
                 = match command a with
                   | CmdObservable value =>
                       match get_observable_classification w (Str.lower value) with
                       | Classified _ => Returned
                       | Unclassified e => Uncaught e
                       end
                   | _ => Uncaught (AttributeError "value")
                   end).
  { unfold presented. rewrite show_colors_normalized, Hs. unfold normalized.
    destruct (command a) as [|file|value] eqn:Hc; rewrite ?Hc; try reflexivity.
    simpl. rewrite Hc.
    destruct (get_observable_classification w (Str.lower value)); reflexivity. }
  destruct (logic_cases w a)
    as [t0 fr1 c j tp fr2 r E0 Ep Erun|t0 fr1 e E0 Erun|t0 fr1 E0 Hc Erun].
  - destruct (before_polling_start w a t0 fr1 _ E0) as (_ & _ & Ha & _).
    pose proof (post_elim _ _ _ _ _ _ (polling_shape c j fr1) Ep)
      as (tp' & _ & _ & _ & _ & Ha2 & _).
    rewrite Ha in Ha2. specialize (Hfinal fr2 Ha2).
    rewrite Erun, Hout.
    assert (Hplain :
              final w fr2 = [Log INFO (ElapsedTime (elapsed_time fr2));
                             Log INFO ResultsHeader] ->
              forall o : outcome,
              exists t elapsed,
                (t0 ++ tp ++ closing w r fr2, o)
                = (t ++ [Log INFO (ElapsedTime elapsed); Log INFO ResultsHeader],
                   o)).
    { intros Hf o.
      exists (t0 ++ tp ++ match r with
                          | Raise e => [handled e (md5 fr2)]
                          | _ => []
                          end), (elapsed_time fr2).
      rewrite <- !app_assoc. destruct r; simpl; rewrite Hf;
        rewrite ?app_nil_r; reflexivity. }
    destruct (command a) as [|file|value].
    + right. reflexivity.
    + apply Hplain. exact Hfinal.
    + destruct (get_observable_classification w (Str.lower value))
        as [observable|e'].
      * destruct Hfinal as [k Hfinal].
        exists (t0 ++ tp ++ match r with
                            | Raise e => [handled e (md5 fr2)]
                            | _ => []
                            end
                   ++ [Log INFO (ElapsedTime (elapsed_time fr2));
                       Log INFO ResultsHeader]), k, (results fr2).
        rewrite <- !app_assoc. destruct r; simpl; rewrite Hfinal; reflexivity.
      * apply Hplain. exact Hfinal.
  - destruct (before_polling_start w a t0 fr1 _ E0) as (_ & _ & Ha & _).
    specialize (Hfinal fr1 Ha). rewrite Erun, Hout.
    assert (Hplain :
              final w fr1 = [Log INFO (ElapsedTime (elapsed_time fr1));
                             Log INFO ResultsHeader] ->
              forall o : outcome,
              exists t elapsed,
                (t0 ++ handled e (md5 fr1) :: final w fr1, o)
                = (t ++ [Log INFO (ElapsedTime elapsed); Log INFO ResultsHeader],
                   o)).
    { intros Hf o. exists (t0 ++ [handled e (md5 fr1)]), (elapsed_time fr1).
      rewrite <- app_assoc. simpl. rewrite Hf. reflexivity. }
    destruct (command a) as [|file|value].
    + right. reflexivity.
    + apply Hplain. exact Hfinal.
    + destruct (get_observable_classification w (Str.lower value))
        as [observable|e'].
      * destruct Hfinal as [k Hfinal].
        exists (t0 ++ [handled e (md5 fr1);
                       Log INFO (ElapsedTime (elapsed_time fr1));
                       Log INFO ResultsHeader]), k, (results fr1).
        rewrite <- app_assoc. simpl. rewrite Hfinal. reflexivity.
      * apply Hplain. exact Hfinal.
  - rewrite Hc, Erun. left. reflexivity.
Qed.

Lemma show_colors_needs_an_observable_witness :
  (exists t elapsed,
      run (_pyintelowl_logic nominal) (with_colors (cli (CmdFile "/tmp/sample")))
      = (t ++ [Log INFO (ElapsedTime elapsed); Log INFO ResultsHeader],
         Uncaught (AttributeError "value")))
  /\ (exists t elapsed,
         run (_pyintelowl_logic (with_strict_classifier nominal))
           (with_colors (cli (CmdObservable "LocalHost")))
         = (t ++ [Log INFO (ElapsedTime elapsed); Log INFO ResultsHeader],
            Uncaught (IntelOwlClientException (NotClassified "localhost")))).
Proof.
  split.
  - apply (show_colors_needs_an_observable nominal
             (with_colors (cli (CmdFile "/tmp/sample"))) eq_refl).
  - apply (show_colors_needs_an_observable (with_strict_classifier nominal)
             (with_colors (cli (CmdObservable "LocalHost"))) eq_refl).
Defined.

(** *** The polling loop *)

(** The requests for the result and the sleeps of a run are those of its
    polling step. *)
Lemma logic_polls w a :
  (List.length (filter is_poll (fst (run (_pyintelowl_logic w) a)))
   <= polling_max_tries)%nat
  /\ List.length (filter is_sleep (fst (run (_pyintelowl_logic w) a)))
     = List.length (filter is_poll (fst (run (_pyintelowl_logic w) a)))
  /\ Forall (fun e => is_sleep e = true -> e = Sleep 1)
       (fst (run (_pyintelowl_logic w) a)).
Proof.
  assert (Hquiet : forall t,
             Forall (fun e => is_poll e = false /\ is_sleep e = false) t ->
             filter is_poll t = [] /\ filter is_sleep t = []
             /\ Forall (fun e => is_sleep e = true -> e = Sleep 1) t).
  { intros t H. repeat split.
    - apply filter_none. eapply Forall_impl; [|exact H]. intros e [? ?]; assumption.
    - apply filter_none. eapply Forall_impl; [|exact H]. intros e [? ?]; assumption.
    - eapply Forall_impl; [|exact H]. intros e [_ H1] H2. congruence. }
  assert (Hclosing : forall r fr,
             Forall (fun e => is_poll e = false /\ is_sleep e = false)
               (closing w r fr)).
  { intros r fr.
    assert (Hs : Forall (fun e => is_poll e = false /\ is_sleep e = false)
                   (final w fr)).
    { unfold final, shown. by_cases; repeat constructor. }
    destruct r as [[]|e|code]; simpl; try exact Hs.
    constructor; [|exact Hs]. destruct e; split; reflexivity. }
  destruct (logic_cases w a)
    as [t0 fr1 c j tp fr2 r E0 Ep Erun|t0 fr1 e E0 Erun|t0 fr1 E0 Hc Erun];
    rewrite Erun; simpl;
    pose proof (post_elim _ _ _ _ _ _ (before_polling_events w (start a)) E0)
      as H0;
    destruct (Hquiet _ H0) as (Hp0 & Hs0 & Hi0).
  - pose proof (post_elim _ _ _ _ _ _ (polling_shape c j fr1) Ep)
      as (tp' & -> & Hn & Hsl & Hev & _).
    destruct (Hquiet _ (Hclosing r fr2)) as (Hp2 & Hs2 & Hi2).
    rewrite !filter_app, Hp0, Hs0, Hp2, Hs2. simpl. rewrite !app_nil_r.
    split; [exact Hn|]. split; [exact Hsl|].
    apply Forall_app. split; [exact Hi0|].
    constructor; [discriminate|].
    apply Forall_app. split; [|exact Hi2].
    eapply Forall_impl; [|exact Hev].
    intros [] He Hsleep; simpl in *; try discriminate. subst. reflexivity.
  - assert (H1 : Forall (fun e => is_poll e = false /\ is_sleep e = false)
                   (handled e (md5 fr1) :: final w fr1))
      by apply (Hclosing (Raise e) fr1).
    destruct (Hquiet _ H1) as (Hp2 & Hs2 & Hi2).
    rewrite !filter_app, Hp0, Hs0, Hp2, Hs2. simpl.
    split; [lia|]. split; [reflexivity|].
    apply Forall_app. split; assumption.
  - rewrite Hp0, Hs0. simpl. split; [lia|]. split; [reflexivity|assumption].
Qed.

(** C6. A run sends at most 1200 requests for the result, each after a
    sleep of one second. When the first four answers are running,
    running, pending and reported_without_fails, the last one with results
    that are not empty, the polling step ends with the fourth request: it
    logs the warning about the pending job, takes the results and the
    elapsed time of the fourth answer and completes. *)
Theorem polling_is_bounded_and_stops_at_the_report
    (w : World) (a : Args) (c : IntelOwlClient) (job : pyval) (fr : frame)
    (envelope : dict) (d : dict) :
  ((List.length (filter is_poll (fst (run (_pyintelowl_logic w) a))) <= 1200)%nat
   /\ List.length (filter is_sleep (fst (run (_pyintelowl_logic w) a)))
      = List.length (filter is_poll (fst (run (_pyintelowl_logic w) a)))
   /\ Forall (fun e => is_sleep e = true -> e = Sleep 1)
        (fst (run (_pyintelowl_logic w) a)))
  /\ (has_status (ask_analysis_result c 0 job) "running" ->
      has_status (ask_analysis_result c 1 job) "running" ->
      has_status (ask_analysis_result c 2 job) "pending" ->
      ask_analysis_result c 3 job = Returns envelope ->
      truthy (errors_of envelope) = false ->
      answer_of envelope = PDict d ->
      dict_get d "status" PNone = PStr "reported_without_fails" ->
      truthy (dict_get d "results" (PList [])) = true ->
      polling c job fr
      = ([Log INFO StartedPolling;
          Sleep 1; ApiCall (AskAnalysisResult job) (ask_analysis_result c 0 job);
          Sleep 1; ApiCall (AskAnalysisResult job) (ask_analysis_result c 1 job);
          Sleep 1; ApiCall (AskAnalysisResult job) (ask_analysis_result c 2 job);
          Log WARNING (PendingMaybeStuck job (md5 fr) (analyzers_list (args fr)));
          Sleep 1; ApiCall (AskAnalysisResult job) (Returns envelope);
          Log INFO (Finished job (md5 fr) (PStr "reported_without_fails")
                      (analyzers_list (args fr)))],
         set_elapsed_time (dict_get d "elapsed_time_in_seconds" (PList []))
           (set_results (dict_get d "results" (PList [])) fr),
         Normal tt)).
Proof.
  split; [exact (logic_polls w a)|].
  intros H0 H1 H2 H3 He Ha Hs Hres.
  rewrite polling_run.
  change (seq 0 polling_max_tries)
    with (0 :: 1 :: 2 :: 3 :: seq 4 (polling_max_tries - 4))%nat.
  generalize (seq 4 (polling_max_tries - 4)) as l. intros l.
  simpl. unfold bind.
  rewrite (poll_once_running c job 0 fr H0).
  rewrite (poll_once_running c job 1 fr H1).
  rewrite (poll_once_pending c job 2 fr H2).
  rewrite (poll_once_terminal c job 3 fr envelope d H3 He Ha)
    by (rewrite Hs; reflexivity).
  simpl. rewrite Hres, Hs. reflexivity.
Qed.

Lemma polled_run w a t0 fr1 c j tp fr2 r :
  before_polling w (start a) = (t0, fr1, Normal (c, j)) ->
  polling c j fr1 = (tp, fr2, r) ->
  try_block w (start a) = (t0 ++ tp, fr2, r)
  /\ run (_pyintelowl_logic w) a
     = (t0 ++ tp ++ closing w r fr2, outcome_of (presented w (normalized a))).
Proof.
  intros E0 Ep.
  assert (Et : try_block w (start a) = (t0 ++ tp, fr2, r))
    by (rewrite try_block_run, E0, Ep; reflexivity).
  split; [exact Et|].
  destruct (logic_cases w a)
    as [t0' fr1' c' j' tp' fr2' r' E0' Ep' Erun|? ? ? E0' _|? ? E0' _ _];
    rewrite E0 in E0'; try discriminate E0'.
  injection E0' as <- <- <- <-. rewrite Ep in Ep'. injection Ep' as <- <- <-.
  exact Erun.
Qed.

(** Whatever the [try] block did, a run ends as its presentation step
    does, unless it is the configuration-only mode, which exits with 0. *)
Lemma logic_outcome w a :
  snd (run (_pyintelowl_logic w) a) = Exited 0
  \/ snd (run (_pyintelowl_logic w) a)
     = outcome_of (presented w (normalized a)).
Proof.
  destruct (logic_cases w a) as [? ? ? ? ? ? ? _ _ E|? ? ? _ E|? ? _ _ E];
    rewrite E; simpl; auto.
Qed.

(** C7. When the run reaches the polling loop and none of the 1200
    answers is terminal, the loop uses its 1200 chances and the [try]
    block ends with the timeout error, the results still empty; the
    handler logs the error and the run goes on to the presentation step,
    on the empty results. Without [--show-colors] it prints [[]] and
    returns. As in every run, the process ends the way the presentation
    step ends (it returns, or the exception of [args.value] or of the
    classifier leaves the script), or with [exit(0)] in the
    configuration-only mode: no error path has an exit code of its
    own. *)
Theorem polling_timeout_falls_through
    (w : World) (a : Args) (t0 : trace) (fr1 : frame)
    (c : IntelOwlClient) (j : pyval) :
  before_polling w (start a) = (t0, fr1, Normal (c, j)) ->
  (forall i, (i < 1200)%nat ->
             non_terminal (ask_analysis_result c i j) = true) ->
  (exists tp,
      List.length (filter is_poll tp) = 1200%nat
      /\ try_block w (start a)
         = (t0 ++ Log INFO StartedPolling :: tp, fr1,
            Raise (IntelOwlClientException (PollingTimeout j)))
      /\ results fr1 = PList []
      /\ run (_pyintelowl_logic w) a
         = (t0 ++ Log INFO StartedPolling :: tp
               ++ Log ERROR (ErrorMd5 (PollingTimeout j) (md5 fr1))
               :: Log INFO (ElapsedTime PNone)
               :: Log INFO ResultsHeader
               :: shown w (normalized a) (PList []),
            outcome_of (presented w (normalized a))))
  /\ (show_colors a = false ->
      shown w (normalized a) (PList []) = [PPrint (PList [])]
      /\ outcome_of (presented w (normalized a)) = Returned)
  /\ (forall w' a',
         snd (run (_pyintelowl_logic w') a') = Exited 0
         \/ snd (run (_pyintelowl_logic w') a')
            = outcome_of (presented w' (normalized a'))).
Proof.
  intros E0 Hall.
  destruct (before_polling_start w a t0 fr1 _ E0) as (Hres & Hel & Ha & _).
  split; [|split].
  - destruct (polling_timeout c j fr1) as (tp & Ep & Hn & _).
    { rewrite Hres. reflexivity. }
    { exact Hall. }
    destruct (polled_run w a _ _ _ _ _ _ _ E0 Ep) as [Et Erun].
    exists tp. split; [exact Hn|]. split; [exact Et|]. split; [exact Hres|].
    rewrite Erun. unfold closing, final. simpl.
    rewrite Hres, Hel, Ha. reflexivity.
  - intros Hs. unfold shown, presented.
    rewrite show_colors_normalized, Hs. split; reflexivity.
  - intros w' a'. apply logic_outcome.
Qed.

(** C9. When the run reaches the polling loop and the first terminal
    answer (reported without fails, reported with fails, or failed) has
    empty or missing results, the [try] block ends with the error of the
    polling timeout, the one it raises when the 1200 chances are used up;
    the handler logs it in the same record, and the run goes on to the
    presentation step with the elapsed time and the empty results of that
    answer. *)
Theorem empty_report_raises_the_timeout_error
    (w : World) (a : Args) (t0 : trace) (fr1 : frame)
    (c : IntelOwlClient) (j : pyval) (k : nat) (envelope d : dict) :
  before_polling w (start a) = (t0, fr1, Normal (c, j)) ->
  (k < 1200)%nat ->
  (forall i, (i < k)%nat -> non_terminal (ask_analysis_result c i j) = true) ->
  ask_analysis_result c k j = Returns envelope ->
  truthy (errors_of envelope) = false ->
  answer_of envelope = PDict d ->
  in_strs (dict_get d "status" PNone) terminal_statuses = true ->
  truthy (dict_get d "results" (PList [])) = false ->
  exists tp fr2,
    List.length (filter is_poll tp) = S k
    /\ try_block w (start a)
       = (t0 ++ Log INFO StartedPolling :: tp, fr2,
          Raise (IntelOwlClientException (PollingTimeout j)))
    /\ results fr2 = dict_get d "results" (PList [])
    /\ run (_pyintelowl_logic w) a
       = (t0 ++ Log INFO StartedPolling :: tp
             ++ Log ERROR (ErrorMd5 (PollingTimeout j) (md5 fr1))
             :: Log INFO (ElapsedTime
                            (dict_get d "elapsed_time_in_seconds" (PList [])))
             :: Log INFO ResultsHeader
             :: shown w (normalized a) (dict_get d "results" (PList [])),
          outcome_of (presented w (normalized a))).
Proof.
  intros E0 Hk Hall Hr He Hans Hs Hres.
  destruct (before_polling_start w a t0 fr1 _ E0) as (_ & _ & Ha & _).
  destruct (polling_terminal c j fr1 k envelope d Hk Hall Hr He Hans Hs)
    as (tp & Ep & Hn).
  rewrite Hres in Ep.
  destruct (polled_run w a _ _ _ _ _ _ _ E0 Ep) as [Et Erun].
  exists tp. eexists. split; [exact Hn|]. split; [exact Et|].
  split; [reflexivity|].
  rewrite Erun. unfold closing, final. simpl. rewrite Ha. reflexivity.
Qed.

(** *** Availability and submission *)

Lemma before_polling_not_started w fr :
  post (before_polling w) fr (fun t fr' r =>
    Forall (fun e => e <> Log INFO StartedPolling) t).
Proof.
  unfold_before. unfold_m. by_cases; repeat constructor; discriminate.
Qed.

Lemma closing_not_started w r fr :
  Forall (fun e => e <> Log INFO StartedPolling) (closing w r fr).
Proof.
  assert (Hs : Forall (fun e => e <> Log INFO StartedPolling) (final w fr)).
  { unfold final, shown. by_cases; repeat constructor; discriminate. }
  destruct r as [[]|e|code]; simpl; try exact Hs.
  constructor; [|exact Hs]. destruct e; discriminate.
Qed.

(** The requests of a run other than those for the result are sent
    before the polling loop. *)
Lemma early_call_in_prefix t0 job tp rest c r :
  Forall (polling_event job) tp ->
  Forall (fun e => is_api_call e = false) rest ->
  is_poll (ApiCall c r) = false ->
  In (ApiCall c r) (t0 ++ tp ++ rest) -> In (ApiCall c r) t0.
Proof.
  intros Hp Hr Hc Hin.
  apply in_app_or in Hin as [Hin|Hin]; [exact Hin|].
  apply in_app_or in Hin as [Hin|Hin].
  - rewrite Forall_forall in Hp. specialize (Hp _ Hin). simpl in Hp.
    subst c. discriminate Hc.
  - rewrite Forall_forall in Hr. specialize (Hr _ Hin). discriminate Hr.
Qed.

Lemma no_api_call_no_submission t :
  Forall (fun e => is_api_call e = false) t ->
  Forall (fun e => is_submission e = false) t.
Proof.
  intros H. eapply Forall_impl; [|exact H].
  intros [] He; simpl in *; try reflexivity; discriminate.
Qed.

(** C4. When the availability request is answered with a status other
    than "not_available" and the job [J]: the run sends no submission,
    and every request for a result asks for the job [J]. When moreover
    the envelope has no errors and the status and [J] are not empty, the
    polling loop starts, and its first request asks for [J]. *)
Theorem available_job_is_polled
    (w : World) (a : Args) (m : option string) (al : option (list string))
    (ra cr : bool) (envelope d : dict) :
  In (ApiCall (AskAnalysisAvailability m al ra cr) (Returns envelope))
     (fst (run (_pyintelowl_logic w) a)) ->
  answer_of envelope = PDict d ->
  eq_str (dict_get d "status" PNone) "not_available" = false ->
  Forall (fun e => is_submission e = false) (fst (run (_pyintelowl_logic w) a))
  /\ (forall j r,
         In (ApiCall (AskAnalysisResult j) r) (fst (run (_pyintelowl_logic w) a)) ->
         j = dict_get d "job_id" (PStr ""))
  /\ (truthy (errors_of envelope) = false ->
      truthy (dict_get d "status" PNone) = true ->
      truthy (dict_get d "job_id" (PStr "")) = true ->
      exists pre post,
        fst (run (_pyintelowl_logic w) a)
        = pre ++ Log INFO StartedPolling :: Sleep 1
              :: ApiCall (AskAnalysisResult (dict_get d "job_id" (PStr "")))
                   (ask_analysis_result (client_of w a) 0
                      (dict_get d "job_id" (PStr "")))
              :: post
        /\ Forall (fun e => is_submission e = false /\ is_poll e = false) pre).
Proof.
  intros Hin Ha Hs.
  destruct (logic_cases w a)
    as [t0 fr1 c j tp fr2 r E0 Ep Erun|t0 fr1 e E0 Erun|t0 fr1 E0 Hc Erun];
    rewrite Erun in *; simpl in *;
    pose proof (post_elim _ _ _ _ _ _ (before_polling_available w (start a)) E0)
      as Hav;
    pose proof (post_elim _ _ _ _ _ _ (before_polling_events w (start a)) E0)
      as Hev0.
  - pose proof (post_elim _ _ _ _ _ _ (polling_shape c j fr1) Ep)
      as (tp' & Htp & _ & _ & Hev & _).
    assert (Hevp : Forall (polling_event j) tp)
      by (rewrite Htp; constructor; [exact I|exact Hev]).
    apply (early_call_in_prefix t0 j tp (closing w r fr2)) in Hin;
      [|exact Hevp|apply closing_no_api_call|reflexivity].
    destruct (Hav _ _ _ _ _ _ Hin Ha Hs) as (Hsub & Hjob & Hok).
    specialize (Hjob c j eq_refl). subst j.
    destruct (before_polling_start w a t0 fr1 _ E0) as (_ & _ & _ & Hc).
    destruct (Hc c _ eq_refl) as [-> _].
    split; [|split].
    + apply Forall_app. split; [exact Hsub|].
      apply Forall_app. split.
      * apply (polling_event_no_submission _ _ Hevp).
      * apply no_api_call_no_submission, closing_no_api_call.
    + intros j' r' Hin'.
      apply in_app_or in Hin' as [Hin'|Hin'].
      { rewrite Forall_forall in Hev0. destruct (Hev0 _ Hin') as [Hp _].
        discriminate Hp. }
      apply in_app_or in Hin' as [Hin'|Hin'].
      { rewrite Forall_forall in Hevp. specialize (Hevp _ Hin'). simpl in Hevp.
        congruence. }
      { pose proof (closing_no_api_call w r fr2) as Hcl.
        rewrite Forall_forall in Hcl. specialize (Hcl _ Hin'). discriminate Hcl. }
    + intros _ _ _.
      destruct (polling_first (client_of w a) (dict_get d "job_id" (PStr "")) fr1)
        as [rest Hfirst].
      rewrite Ep in Hfirst. unfold trace_of in Hfirst. simpl in Hfirst.
      exists t0, (rest ++ closing w r fr2). rewrite Hfirst. split.
      * simpl. reflexivity.
      * rewrite Forall_forall in Hsub, Hev0 |- *. intros ev Hev1.
        split; [apply Hsub; exact Hev1|apply (Hev0 _ Hev1)].
  - assert (Hin0 : In (ApiCall (AskAnalysisAvailability m al ra cr)
                         (Returns envelope)) t0).
    { apply in_app_or in Hin as [Hin|Hin]; [exact Hin|].
      pose proof (closing_no_api_call w (Raise e) fr1) as Hcl.
      rewrite Forall_forall in Hcl. specialize (Hcl _ Hin). discriminate Hcl. }
    destruct (Hav _ _ _ _ _ _ Hin0 Ha Hs) as (Hsub & _ & Hok).
    split; [|split].
    + apply Forall_app. split; [exact Hsub|].
      apply no_api_call_no_submission, (closing_no_api_call w (Raise e) fr1).
    + intros j' r' Hin'.
      apply in_app_or in Hin' as [Hin'|Hin'].
      { rewrite Forall_forall in Hev0. destruct (Hev0 _ Hin') as [Hp _].
        discriminate Hp. }
      { pose proof (closing_no_api_call w (Raise e) fr1) as Hcl.
        rewrite Forall_forall in Hcl. specialize (Hcl _ Hin'). discriminate Hcl. }
    + intros H1 H2 H3. discriminate (Hok H1 H2 H3).
  - destruct (Hav _ _ _ _ _ _ Hin Ha Hs) as (Hsub & _ & Hok).
    split; [exact Hsub|split].
    + intros j' r' Hin'.
      rewrite Forall_forall in Hev0. destruct (Hev0 _ Hin') as [Hp _].
      discriminate Hp.
    + intros H1 H2 H3. discriminate (Hok H1 H2 H3).
Qed.

(** C5. When a submission is answered with a status other than
    "accepted", the [try] block ends with the client exception (the one
    of the failed request when the envelope has errors, of the missing
    status when the status is empty, of the unexpected status otherwise);
    the handler logs it; the polling loop is not entered and no request
    for a result is sent. *)
Theorem rejected_submission_aborts
    (w : World) (a : Args) (c : api_call) (envelope d : dict) :
  In (ApiCall c (Returns envelope)) (fst (run (_pyintelowl_logic w) a)) ->
  is_submission (ApiCall c (Returns envelope)) = true ->
  answer_of envelope = PDict d ->
  eq_str (dict_get d "status" PNone) "accepted" = false ->
  (exists m,
      flow_of (try_block w (start a)) = Raise (IntelOwlClientException m)
      /\ (m = SendFailed (errors_of envelope)
          \/ m = SendNoStatus (PDict d)
          \/ m = SendUnexpectedStatus (dict_get d "status" PNone))
      /\ In (Log ERROR (ErrorMd5 m (md5 (frame_of (try_block w (start a))))))
            (fst (run (_pyintelowl_logic w) a)))
  /\ Forall (fun e => is_poll e = false) (fst (run (_pyintelowl_logic w) a))
  /\ ~ In (Log INFO StartedPolling) (fst (run (_pyintelowl_logic w) a)).
Proof.
  intros Hin Hsub Ha Hs.
  assert (Hnp : is_poll (ApiCall c (Returns envelope)) = false)
    by (destruct c; try reflexivity; discriminate Hsub).
  destruct (logic_cases w a)
    as [t0 fr1 c' j tp fr2 r E0 Ep Erun|t0 fr1 e E0 Erun|t0 fr1 E0 Hc Erun];
    rewrite Erun in *; simpl in *;
    pose proof (post_elim _ _ _ _ _ _ (before_polling_rejected w (start a)) E0)
      as Hrej.
  - pose proof (post_elim _ _ _ _ _ _ (polling_shape c' j fr1) Ep)
      as (tp' & Htp & _ & _ & Hev & _).
    assert (Hevp : Forall (polling_event j) tp)
      by (rewrite Htp; constructor; [exact I|exact Hev]).
    apply (early_call_in_prefix t0 j tp (closing w r fr2)) in Hin;
      [|exact Hevp|apply closing_no_api_call|exact Hnp].
    destruct (Hrej _ _ _ Hin Hsub Ha Hs) as [H|[H|H]]; discriminate H.
  - assert (Hin0 : In (ApiCall c (Returns envelope)) t0).
    { apply in_app_or in Hin as [Hin|Hin]; [exact Hin|].
      pose proof (closing_no_api_call w (Raise e) fr1) as Hcl.
      rewrite Forall_forall in Hcl. specialize (Hcl _ Hin). discriminate Hcl. }
    assert (Et : try_block w (start a) = (t0, fr1, Raise e))
      by (rewrite try_block_run, E0; reflexivity).
    rewrite Et. unfold flow_of, frame_of. simpl.
    pose proof (post_elim _ _ _ _ _ _ (before_polling_events w (start a)) E0)
      as Hev0.
    pose proof (post_elim _ _ _ _ _ _ (before_polling_not_started w (start a)) E0)
      as Hns0.
    split; [|split].
    + assert (Hm : exists m, e = IntelOwlClientException m
                   /\ (m = SendFailed (errors_of envelope)
                       \/ m = SendNoStatus (PDict d)
                       \/ m = SendUnexpectedStatus (dict_get d "status" PNone))).
      { destruct (Hrej _ _ _ Hin0 Hsub Ha Hs) as [H|[H|H]];
          simpl in H; injection H as ->; eexists; split; eauto. }
      destruct Hm as (m0 & -> & Hm). exists m0.
      split; [reflexivity|]. split; [exact Hm|].
      apply in_or_app. right. left. reflexivity.
    + apply Forall_app. split.
      * eapply Forall_impl; [|exact Hev0]. intros ev [Hp _]. exact Hp.
      * pose proof (closing_no_api_call w (Raise e) fr1) as Hcl.
        eapply Forall_impl; [|exact Hcl].
        intros [] Hc'; simpl in *; try reflexivity; discriminate.
    + intros Hst. apply in_app_or in Hst as [Hst|Hst].
      * rewrite Forall_forall in Hns0. apply (Hns0 _ Hst). reflexivity.
      * pose proof (closing_not_started w (Raise e) fr1) as Hcl.
        rewrite Forall_forall in Hcl. apply (Hcl _ Hst). reflexivity.
  - destruct (Hrej _ _ _ Hin Hsub Ha Hs) as [H|[H|H]]; discriminate H.
Qed.

(** *** Envelopes with errors *)

Lemma errors_handled_other w a o e post :
  is_api_call e = false -> errors_handled w a o e post.
Proof. intros He c envelope ->. discriminate He. Qed.

Lemma aborts_run_closing w a fr m :
  results fr = PList [] -> elapsed_time fr = PNone -> args fr = normalized a ->
  Forall (fun e => is_api_call e = false)
    (closing w (Raise (IntelOwlClientException m)) fr)
  /\ aborts_run w a m (closing w (Raise (IntelOwlClientException m)) fr)
       (outcome_of (presented w (normalized a))).
Proof.
  intros Hr He Ha. split; [apply closing_no_api_call|].
  exists (md5 fr). unfold closing, final. simpl. rewrite Hr, He, Ha.
  split; reflexivity.
Qed.

Lemma logic_errors_handled w a :
  each_suffix (errors_handled w a (snd (run (_pyintelowl_logic w) a)))
    (fst (run (_pyintelowl_logic w) a)).
Proof.
  destruct (logic_cases w a)
    as [t0 fr1 c j tp fr2 r E0 Ep Erun|t0 fr1 e E0 Erun|t0 fr1 E0 Hc Erun];
    rewrite Erun; simpl;
    pose proof (post_elim _ _ _ _ _ _ (before_polling_failures w (start a)) E0)
      as Hearly;
    destruct (before_polling_start w a t0 fr1 _ E0) as (Hres & Hel & Ha & _).
  - apply each_suffix_app. split.
    { eapply each_suffix_weaken; [|exact Hearly].
      intros ev post0 H c0 envelope0 Hev Ht.
      specialize (H c0 envelope0 Hev Ht).
      destruct c0; simpl in H; try contradiction; destruct H as [_ H];
        discriminate H. }
    pose proof (post_elim _ _ _ _ _ _ (polling_shape c j fr1) Ep)
      as (tp' & -> & _ & _ & Hev & _ & _ & _ & Hfail).
    apply each_suffix_app. split.
    + simpl. split; [apply errors_handled_other; reflexivity|].
      eapply each_suffix_weaken;
        [|exact (each_suffix_with _ _ _ Hfail Hev)].
      intros ev post0 [H Hpe] c0 envelope0 -> Ht. simpl in Hpe. subst c0.
      destruct (H envelope0 eq_refl Ht) as (-> & -> & ->). simpl app.
      destruct (aborts_run_closing w a fr1 (ResultFailed (errors_of envelope0))
                  Hres Hel Ha) as [H1 H2].
      split; assumption.
    + eapply each_suffix_weaken;
        [|apply each_suffix_Forall, (closing_no_api_call w r fr2)].
      intros ev post0 H. apply errors_handled_other. exact H.
  - apply each_suffix_app. split.
    { eapply each_suffix_weaken; [|exact Hearly].
      intros ev post0 H c0 envelope0 Hev Ht.
      specialize (H c0 envelope0 Hev Ht).
      destruct c0; simpl in H; try contradiction; destruct H as [-> H];
        try discriminate H; injection H as ->;
        first [ destruct (aborts_run_closing w a fr1
                            (AvailabilityFailed (errors_of envelope0))
                            Hres Hel Ha) as [H1 H2];
                split; [exact H1|exact H2]
              | destruct (aborts_run_closing w a fr1
                            (SendFailed (errors_of envelope0))
                            Hres Hel Ha) as [H1 H2];
                split; [exact H1|exact H2] ]. }
    eapply each_suffix_weaken;
      [|apply each_suffix_Forall, (closing_no_api_call w (Raise e) fr1)].
    intros ev post0 H. apply errors_handled_other. exact H.
  - eapply each_suffix_weaken; [|exact Hearly].
    intros ev post0 H c0 envelope0 Hev Ht.
    specialize (H c0 envelope0 Hev Ht).
    destruct c0; simpl in H; try contradiction; destruct H as [-> H];
      try discriminate H.
    split; [repeat constructor|]. split; reflexivity.
Qed.

(** C1, counterexample. The configuration request is answered with
    errors: the script logs them, prints the answer all the same and
    exits with 0. *)
Lemma errors_are_hard_failures_counterexample :
  ~ errors_are_hard_failures broken (cli_flags true None false).
Proof.
  intros H.
  destruct (H [] GetAnalyzerConfigs
              (envelope_of [PStr "503 Server Error"]
                 [("Example_Analyzer", PDict [("type", PStr "file")])])
              [Log ERROR (ConfigsFailed (PList [PStr "503 Server Error"]));
               Log INFO (ExtractedConfiguration
                           (PDict [("Example_Analyzer",
                                    PDict [("type", PStr "file")])]));
               PPrint (PDict [("Example_Analyzer",
                               PDict [("type", PStr "file")])])]
              (Exited 0))
    as (_ & m & md5 & Hpost & _).
  - vm_compute. reflexivity.
  - reflexivity.
  - discriminate Hpost.
Qed.

(** C1, amended. An envelope with errors in answer to the availability
    request, to the submission or to a request for the result aborts the
    run: the client exception is raised, the handler logs it, no request
    follows and the run ends with the presentation step, on the empty
    results, and as that step ends. In answer to the configuration request the errors are logged only: the
    answer is printed and the process exits with 0; no request follows. *)
Theorem errors_abort_the_analysis
    (w : World) (a : Args) (pre : trace) (c : api_call) (envelope : dict)
    (post : trace) (o : outcome) :
  run (_pyintelowl_logic w) a
  = (pre ++ ApiCall c (Returns envelope) :: post, o) ->
  truthy (errors_of envelope) = true ->
  after_errors w a o c envelope post.
Proof.
  intros Erun Ht.
  pose proof (logic_errors_handled w a) as H. rewrite Erun in H. simpl in H.
  rewrite each_suffix_split in H.
  exact (H pre _ post eq_refl c envelope eq_refl Ht).
Qed.

(** *** The claims on the scenarios *)

Lemma errors_abort_the_analysis_witness :
  aborts_run broken (cli (CmdObservable "Example.COM"))
    (AvailabilityFailed (PList [PStr "503 Server Error"]))
    [Log ERROR (ErrorMd5 (AvailabilityFailed (PList [PStr "503 Server Error"]))
                  (Some "5ababd603b22780302dd8d83498e5172"));
     Log INFO (ElapsedTime PNone); Log INFO ResultsHeader; PPrint (PList [])]
    Returned.
Proof.
  refine (proj2 (errors_abort_the_analysis broken
                   (cli (CmdObservable "Example.COM"))
                   [Log INFO (StartedAvailability
                                (Some "5ababd603b22780302dd8d83498e5172")
                                (Some ["Example_Analyzer"]))]
                   (AskAnalysisAvailability
                      (Some "5ababd603b22780302dd8d83498e5172")
                      (Some ["Example_Analyzer"]) false false)
                   (envelope_of [PStr "503 Server Error"] [])
                   _ _ _ _)).
  - vm_compute. reflexivity.
  - reflexivity.
Defined.

Lemma available_job_is_polled_witness :
  Forall (fun e => is_submission e = false)
    (fst (run (_pyintelowl_logic already_available)
            (cli (CmdObservable "Example.COM"))))
  /\ (forall j r,
         In (ApiCall (AskAnalysisResult j) r)
            (fst (run (_pyintelowl_logic already_available)
                    (cli (CmdObservable "Example.COM")))) ->
         j = PInt 42).
Proof.
  destruct (available_job_is_polled already_available
              (cli (CmdObservable "Example.COM"))
              (Some "5ababd603b22780302dd8d83498e5172")
              (Some ["Example_Analyzer"]) false false
              (envelope_of [] [("status", PStr "running"); ("job_id", PInt 42)])
              [("status", PStr "running"); ("job_id", PInt 42)])
    as (H1 & H2 & _).
  - vm_compute. right. left. reflexivity.
  - reflexivity.
  - reflexivity.
  - split; [exact H1|exact H2].
Defined.

Lemma rejected_submission_aborts_witness :
  Forall (fun e => is_poll e = false)
    (fst (run (_pyintelowl_logic refusing) (cli (CmdFile "/tmp/sample"))))
  /\ ~ In (Log INFO StartedPolling)
         (fst (run (_pyintelowl_logic refusing) (cli (CmdFile "/tmp/sample")))).
Proof.
  destruct (rejected_submission_aborts refusing (cli (CmdFile "/tmp/sample"))
              (SendFileAnalysisRequest
                 (Some "20879c987e2f9a916e578386d499f629")
                 (Some ["Example_Analyzer"]) (Some "sample")
                 (Some [x4d; x5a; x90; x00]%byte) false false false false)
              (envelope_of [] [("status", PStr "error")])
              [("status", PStr "error")])
    as (_ & H1 & H2).
  - vm_compute. right. right. left. reflexivity.
  - reflexivity.
  - reflexivity.
  - reflexivity.
  - split; [exact H1|exact H2].
Defined.

Lemma polling_is_bounded_and_stops_at_the_report_witness :
  results (frame_of (polling (client_of nominal (cli (CmdObservable "Example.COM")))
                       (PInt 7) (start (cli (CmdObservable "Example.COM")))))
  = report
  /\ List.length
       (filter is_poll
          (trace_of (polling (client_of nominal (cli (CmdObservable "Example.COM")))
                       (PInt 7) (start (cli (CmdObservable "Example.COM"))))))
     = 4%nat.
Proof.
  rewrite (proj2 (polling_is_bounded_and_stops_at_the_report nominal
                    (cli (CmdObservable "Example.COM"))
                    (client_of nominal (cli (CmdObservable "Example.COM")))
                    (PInt 7) (start (cli (CmdObservable "Example.COM")))
                    (envelope_of [] [("status", PStr "reported_without_fails");
                                     ("results", report);
                                     ("elapsed_time_in_seconds", PInt 3)])
                    [("status", PStr "reported_without_fails");
                     ("results", report);
                     ("elapsed_time_in_seconds", PInt 3)])).
  - split; reflexivity.
  - exists (envelope_of [] [("status", PStr "running")]),
      [("status", PStr "running")]. repeat split; reflexivity.
  - exists (envelope_of [] [("status", PStr "running")]),
      [("status", PStr "running")]. repeat split; reflexivity.
  - exists (envelope_of [] [("status", PStr "pending")]),
      [("status", PStr "pending")]. repeat split; reflexivity.
  - reflexivity.
  - reflexivity.
  - reflexivity.
  - reflexivity.
  - reflexivity.
Defined.

Lemma polling_timeout_falls_through_witness :
  exists tp,
    List.length (filter is_poll tp) = 1200%nat
    /\ flow_of (try_block stuck (start (cli (CmdObservable "Example.COM"))))
       = Raise (IntelOwlClientException (PollingTimeout (PInt 7)))
    /\ snd (run (_pyintelowl_logic stuck) (cli (CmdObservable "Example.COM")))
       = Returned.
Proof.
  destruct (polling_timeout_falls_through stuck
              (cli (CmdObservable "Example.COM"))
              (trace_of (before_polling stuck
                           (start (cli (CmdObservable "Example.COM")))))
              (frame_of (before_polling stuck
                           (start (cli (CmdObservable "Example.COM")))))
              (client_of stuck (cli (CmdObservable "Example.COM")))
              (PInt 7))
    as ((tp & Hn & Et & _ & Erun) & _ & _).
  - vm_compute. reflexivity.
  - intros i _. reflexivity.
  - exists tp. rewrite Et, Erun. repeat split. exact Hn.
Defined.

Lemma empty_report_raises_the_timeout_error_witness :
  flow_of (try_block failed_job (start (cli (CmdObservable "Example.COM"))))
  = Raise (IntelOwlClientException (PollingTimeout (PInt 7))).
Proof.
  destruct (empty_report_raises_the_timeout_error failed_job
              (cli (CmdObservable "Example.COM"))
              (trace_of (before_polling failed_job
                           (start (cli (CmdObservable "Example.COM")))))
              (frame_of (before_polling failed_job
                           (start (cli (CmdObservable "Example.COM")))))
              (client_of failed_job (cli (CmdObservable "Example.COM")))
              (PInt 7) 1%nat
              (envelope_of [] [("status", PStr "failed"); ("results", PList []);
                               ("elapsed_time_in_seconds", PInt 3)])
              [("status", PStr "failed"); ("results", PList []);
               ("elapsed_time_in_seconds", PInt 3)])
    as (tp & fr2 & _ & Et & _).
  - vm_compute. reflexivity.
  - lia.
  - intros i Hi. assert (i = 0%nat) as -> by lia. reflexivity.
  - reflexivity.
  - reflexivity.
  - reflexivity.
  - reflexivity.
  - reflexivity.
  - rewrite Et. reflexivity.
Defined.

(* ===================================================================== *)
(** ** Further properties of the script *)
(* ===================================================================== *)

(** *** The requests of a run *)

Lemma before_polling_requests w a :
  post (before_polling w) (start a) (fun t fr' r =>
    Forall (request_of_run w a) t
    /\ (forall c j, r = Normal (c, j) -> command a <> NoCommand)).
Proof.
  unfold_before. unfold_m. unfold request_of_run, fingerprint, client_of.
  by_cases; (split; [|try (intros ? ? [=]); try congruence]);
    repeat constructor; simpl; rewrite ?Heqs; rewrite ?Heqf;
    try congruence; try reflexivity;
    try (do 2 eexists; (split; [reflexivity|]); (split; [eassumption|]);
         split; reflexivity);
    try (eexists; split; reflexivity).
Qed.

Lemma poll_request_more c job i l e :
  poll_request c job l e -> poll_request c job (i :: l) e.
Proof.
  destruct e; simpl; auto.
  intros [H1 (chance & H2 & H3)]. split; [exact H1|].
  exists chance. auto.
Qed.

Lemma iteration_requests c job i l tail :
  Forall (fun e => is_api_call e = false /\ is_sleep e = false) tail ->
  Forall (poll_request c job (i :: l))
    (Sleep polling_interval
       :: ApiCall (AskAnalysisResult job) (ask_analysis_result c i job) :: tail).
Proof.
  intros Htail. constructor; [exact I|]. constructor.
  - split; [reflexivity|]. exists i. split; [left|]; reflexivity.
  - eapply Forall_impl; [|exact Htail].
    intros [] [He _]; simpl in *; try exact I. discriminate He.
Qed.

Lemma loop_requests c job l fr t fr' r :
  loops (poll_once c job) l fr t fr' r -> Forall (poll_request c job l) t.
Proof.
  induction 1 as [fr|i l fr t fr' t' fr'' r E _ IH|i l fr t fr' E
                  |i l fr t fr' e E|i l fr t fr' code E];
    try (iteration E).
  - constructor.
  - apply Forall_app. split; [apply iteration_requests; exact Htail|].
    eapply Forall_impl; [|exact IH]. intros e. apply poll_request_more.
  - apply iteration_requests; exact Htail.
  - apply iteration_requests; exact Htail.
  - destruct (Hne code). reflexivity.
Qed.

Lemma polling_requests c job fr :
  Forall (poll_request c job (seq 0 polling_max_tries))
    (trace_of (polling c job fr)).
Proof.
  rewrite polling_run.
  destruct (for_in (seq 0 polling_max_tries) (poll_once c job) fr)
    as [[t fr'] r] eqn:E.
  apply for_in_run, loop_requests in E.
  destruct r as [[]|e|code]; simpl; constructor; try exact I; exact E.
Qed.

Lemma closing_requests w a r fr : Forall (request_of_run w a) (closing w r fr).
Proof.
  eapply Forall_impl; [|apply (closing_no_api_call w r fr)].
  intros [] He; simpl in *; try exact I. discriminate He.
Qed.

(** Every request of a run is one that the arguments call for. *)
Lemma run_requests w a :
  Forall (request_of_run w a) (fst (run (_pyintelowl_logic w) a)).
Proof.
  destruct (logic_cases w a)
    as [t0 fr1 c j tp fr2 r E0 Ep Erun|t0 fr1 e E0 Erun|t0 fr1 E0 Hc Erun];
    rewrite Erun; simpl;
    destruct (post_elim _ _ _ _ _ _ (before_polling_requests w a) E0)
      as [H0 Hcmd].
  - destruct (before_polling_start w a t0 fr1 _ E0) as (_ & _ & _ & Hcj).
    destruct (Hcj c j eq_refl) as [-> Hj].
    apply Forall_app. split; [exact H0|].
    apply Forall_app. split; [|apply closing_requests].
    pose proof (polling_requests (client_of w a) j fr1) as Hp.
    rewrite Ep in Hp.
    change (Forall (poll_request (client_of w a) j (seq 0 polling_max_tries)) tp)
      in Hp.
    eapply Forall_impl; [|exact Hp].
    intros ev He. destruct ev; try exact I.
    destruct He as [-> (chance & Hin & ->)].
    split; [exact Hj|]. split; [exact (Hcmd _ _ eq_refl)|].
    exists chance. apply in_seq in Hin. split; [lia|reflexivity].
  - apply Forall_app. split; [exact H0|].
    apply (closing_requests w a (Raise e) fr1).
  - exact H0.
Qed.

(** X1. Every availability request and every submission of a run carries
    the fingerprint of the input (the MD5 digest of the bytes of the file,
    or of the lower-cased observable) with the analyzers and the flags of
    the command line; a file submission sends the base name of the path
    and the bytes of the file, an observable submission sends the
    lower-cased observable. *)
Theorem requests_carry_the_input
    (w : World) (a : Args) (c : api_call) (r : api_result) :
  In (ApiCall c r) (fst (run (_pyintelowl_logic w) a)) ->
  match c with
  | AskAnalysisAvailability m al ra cr =>
      m = fingerprint w a /\ m <> None
      /\ al = analyzers_list a
      /\ ra = run_all_available_analyzers a
      /\ cr = check_reported_analysis_too a
  | SendFileAnalysisRequest m al filename binary fp pj de ra =>
      (exists file content,
          command a = CmdFile file /\ path_entry w file = Regular content
          /\ filename = Some (Str.basename file) /\ binary = Some content
          /\ m = Some (MD5.hexdigest content))
      /\ al = analyzers_list a
      /\ fp = force_privacy a /\ pj = private_job a
      /\ de = disable_external_analyzers a
      /\ ra = run_all_available_analyzers a
  | SendObservableAnalysisRequest m al value fp pj de ra =>
      (exists typed,
          command a = CmdObservable typed /\ value = Str.lower typed
          /\ m = Some (MD5.hexdigest (Str.encode_utf8 (Str.lower typed))))
      /\ al = analyzers_list a
      /\ fp = force_privacy a /\ pj = private_job a
      /\ de = disable_external_analyzers a
      /\ ra = run_all_available_analyzers a
  | _ => True
  end.
Proof.
  intros Hin. pose proof (run_requests w a) as H.
  rewrite Forall_forall in H. specialize (H _ Hin). simpl in H.
  destruct c; try exact I.
  - tauto.
  - destruct H as ((file & content & Hc & Hf & -> & ->) & Hm & H).
    split; [|tauto].
    exists file, content. repeat split; try assumption.
    rewrite Hm. unfold fingerprint. rewrite Hc, Hf. reflexivity.
  - destruct H as ((typed & Hc & ->) & Hm & H).
    split; [|tauto].
    exists typed. repeat split; try assumption.
    rewrite Hm. unfold fingerprint. rewrite Hc. reflexivity.
Qed.

Lemma requests_carry_the_input_witness :
  exists typed,
    command (cli (CmdObservable "Example.COM")) = CmdObservable typed
    /\ "example.com" = Str.lower typed
    /\ Some "5ababd603b22780302dd8d83498e5172"
       = Some (MD5.hexdigest (Str.encode_utf8 (Str.lower typed))).
Proof.
  refine (proj1 (requests_carry_the_input nominal
                   (cli (CmdObservable "Example.COM"))
                   (SendObservableAnalysisRequest
                      (Some "5ababd603b22780302dd8d83498e5172")
                      (Some ["Example_Analyzer"]) "example.com"
                      false false false false)
                   (accepted 7) _)).
  vm_compute. right. right. left. reflexivity.
Defined.



Lemma before_polling_starts_with_availability w a :
  post (before_polling w) (start a) (fun t fr' r =>
    skip_check_analysis_availability a = false ->
    fingerprint w a <> None ->
    exists rest,
      t = Log INFO (StartedAvailability (fingerprint w a) (analyzers_list a))
            :: ApiCall (AskAnalysisAvailability (fingerprint w a)
                          (analyzers_list a) (run_all_available_analyzers a)
                          (check_reported_analysis_too a))
                 (ask_analysis_availability (client_of w a) (fingerprint w a)
                    (analyzers_list a) (run_all_available_analyzers a)
                    (check_reported_analysis_too a))
            :: rest).
Proof.
  unfold_before. unfold_m. unfold fingerprint, client_of.
  by_cases; intros Hskip Hfp; rewrite ?Heqs in *; rewrite ?Heqf in *;
    try congruence; try (exfalso; apply Hfp; reflexivity);
    rewrite <- ?Heqa; eexists; reflexivity.
Qed.

(** X3. With [--skip-check-analysis-availability] no availability request
    is sent. Without it, whenever the input has a fingerprint (an
    observable, or a file that can be read), the run starts with the
    availability request for that fingerprint. *)
Theorem availability_check_and_its_skip (w : World) (a : Args) :
  (skip_check_analysis_availability a = true ->
   forall m al ra cr r,
     ~ In (ApiCall (AskAnalysisAvailability m al ra cr) r)
          (fst (run (_pyintelowl_logic w) a)))
  /\ (skip_check_analysis_availability a = false ->
      fingerprint w a <> None ->
      exists rest,
        fst (run (_pyintelowl_logic w) a)
        = Log INFO (StartedAvailability (fingerprint w a) (analyzers_list a))
            :: ApiCall (AskAnalysisAvailability (fingerprint w a)
                          (analyzers_list a) (run_all_available_analyzers a)
                          (check_reported_analysis_too a))
                 (ask_analysis_availability (client_of w a) (fingerprint w a)
                    (analyzers_list a) (run_all_available_analyzers a)
                    (check_reported_analysis_too a))
            :: rest).
Proof.
  split.
  - intros Hskip m al ra cr r Hin. pose proof (run_requests w a) as H.
    rewrite Forall_forall in H. specialize (H _ Hin). simpl in H.
    destruct H as [H _]. congruence.
  - intros Hskip Hfp.
    destruct (logic_cases w a)
      as [t0 fr1 c j tp fr2 r E0 Ep Erun|t0 fr1 e E0 Erun|t0 fr1 E0 Hc Erun];
      rewrite Erun; simpl;
      destruct (post_elim _ _ _ _ _ _
                  (before_polling_starts_with_availability w a) E0 Hskip Hfp)
        as [rest ->]; eexists; simpl; reflexivity.
Qed.

Lemma availability_check_and_its_skip_witness :
  exists rest,
    fst (run (_pyintelowl_logic nominal) (cli (CmdFile "/tmp/sample")))
    = Log INFO (StartedAvailability
                  (fingerprint nominal (cli (CmdFile "/tmp/sample")))
                  (Some ["Example_Analyzer"]))
        :: ApiCall (AskAnalysisAvailability
                      (fingerprint nominal (cli (CmdFile "/tmp/sample")))
                      (Some ["Example_Analyzer"]) false false)
             not_available
        :: rest.
Proof.
  apply (proj2 (availability_check_and_its_skip nominal
                  (cli (CmdFile "/tmp/sample")))).
  - reflexivity.
  - vm_compute. discriminate.
Defined.

(** X4. A request for the result always names a job: its job id is never
    empty or missing; it is the answer of the client at one of the 1200
    chances, and it is sent only in file or observable mode. *)
Theorem result_requests_name_a_job
    (w : World) (a : Args) (j : pyval) (r : api_result) :
  In (ApiCall (AskAnalysisResult j) r) (fst (run (_pyintelowl_logic w) a)) ->
  truthy j = true
  /\ command a <> NoCommand
  /\ exists chance,
       (chance < 1200)%nat /\ r = ask_analysis_result (client_of w a) chance j.
Proof.
  intros Hin. pose proof (run_requests w a) as H.
  rewrite Forall_forall in H. exact (H _ Hin).
Qed.

Lemma result_requests_name_a_job_witness : truthy (PInt 42) = true.
Proof.
  apply (result_requests_name_a_job already_available
           (cli (CmdObservable "Example.COM")) (PInt 42)
           (reported "reported_with_fails" report)).
  vm_compute. do 5 right. left. reflexivity.
Defined.

(** *** The order of the requests *)

Lemma requests_app t1 t2 : requests (t1 ++ t2) = requests t1 ++ requests t2.
Proof.
  induction t1 as [|e t1 IH]; simpl; [reflexivity|].
  destruct e; simpl; rewrite IH; reflexivity.
Qed.

Lemma requests_none t :
  Forall (fun e => is_api_call e = false) t -> requests t = [].
Proof.
  induction 1 as [|e t He _ IH]; simpl; [reflexivity|].
  destruct e; try exact IH. discriminate He.
Qed.

Lemma requests_polling job t :
  Forall (polling_event job) t ->
  requests t = repeat Result (List.length (filter is_poll t)).
Proof.
  induction 1 as [|e t He _ IH]; simpl; [reflexivity|].
  destruct e; simpl in *; try exact IH; try contradiction.
  subst c. simpl. rewrite IH. reflexivity.
Qed.

Lemma before_polling_order w fr :
  post (before_polling w) fr (fun t fr' r =>
    In (requests t)
       [[]; [Configuration]; [Availability]; [Availability; Submission];
        [Submission]]
    /\ (forall c j, r = Normal (c, j) ->
          In (requests t)
             [[Availability]; [Availability; Submission]; [Submission]])).
Proof.
  unfold_before. unfold_m.
  by_cases; (split; [simpl; tauto|]); intros ? ? H; try discriminate H;
    simpl; tauto.
Qed.

(** X5. The requests of a run, in order: nothing at all, or the
    configuration request alone, or at most one availability request,
    then at most one submission, then at most 1200 requests for the
    result; a request for the result is never the first request. *)
Theorem requests_follow_the_protocol (w : World) (a : Args) :
  requests (fst (run (_pyintelowl_logic w) a)) = []
  \/ requests (fst (run (_pyintelowl_logic w) a)) = [Configuration]
  \/ exists n,
       (n <= 1200)%nat
       /\ (requests (fst (run (_pyintelowl_logic w) a))
           = Availability :: repeat Result n
           \/ requests (fst (run (_pyintelowl_logic w) a))
              = Availability :: Submission :: repeat Result n
           \/ requests (fst (run (_pyintelowl_logic w) a))
              = Submission :: repeat Result n).
Proof.
  destruct (logic_cases w a)
    as [t0 fr1 c j tp fr2 r E0 Ep Erun|t0 fr1 e E0 Erun|t0 fr1 E0 Hc Erun];
    rewrite Erun; simpl;
    destruct (post_elim _ _ _ _ _ _ (before_polling_order w (start a)) E0)
      as [Hany Hok].
  - pose proof (post_elim _ _ _ _ _ _ (polling_shape c j fr1) Ep)
      as (tp' & -> & Hn & _ & Hev & _).
    rewrite !requests_app, (requests_none _ (closing_no_api_call w r fr2)).
    simpl. rewrite (requests_polling j tp' Hev), app_nil_r.
    right. right. exists (List.length (filter is_poll tp')).
    split; [exact Hn|].
    destruct (Hok c j eq_refl) as [H|[H|[H|[]]]]; rewrite <- H; simpl; auto.
  - change (handled e (md5 fr1) :: final w fr1) with (closing w (Raise e) fr1).
    rewrite requests_app.
    rewrite (requests_none _ (closing_no_api_call w (Raise e) fr1)), app_nil_r.
    destruct Hany as [H|[H|[H|[H|[H|[]]]]]]; rewrite <- H; auto;
      right; right; exists 0%nat; (split; [lia|]); simpl; auto.
  - destruct Hany as [H|[H|[H|[H|[H|[]]]]]]; rewrite <- H; auto;
      right; right; exists 0%nat; (split; [lia|]); simpl; auto.
Qed.

(** *** Runs that send no request for an analysis *)

(** X6. Without a sub-command and with [--get-configuration], when the
    client answers the configuration request: the run is that request, the
    record of the errors when there are some, the record and the print of
    the answer (an empty dict when the envelope has no answer), and
    [exit(0)]; the handlers of the [try] statement do not catch the exit,
    and no elapsed time or results are shown. *)
Theorem configuration_mode (w : World) (a : Args) (envelope : dict) :
  command a = NoCommand ->
  get_configuration a = true ->
  get_analyzer_configs (client_of w a) = Returns envelope ->
  run (_pyintelowl_logic w) a
  = (ApiCall GetAnalyzerConfigs (Returns envelope)
       :: (if truthy (errors_of envelope)
           then [Log ERROR (ConfigsFailed (errors_of envelope))]
           else [])
       ++ [Log INFO (ExtractedConfiguration (answer_of envelope));
           PPrint (answer_of envelope)],
     Exited 0)
  /\ (lookup envelope "answer" = None -> answer_of envelope = PDict []).
Proof.
  intros Hc Hg Hr. split.
  - rewrite logic_run, try_block_run.
    unfold before_polling, prepare_input, configuration_only, client_of in *.
    unfold_m. simpl. rewrite Hc, Hg. simpl. rewrite Hr. simpl.
    unfold errors_of, answer_of.
    destruct (truthy (dict_get envelope "errors" (PList []))); reflexivity.
  - intros Hl. unfold answer_of, dict_get. rewrite Hl. reflexivity.
Qed.

Lemma configuration_mode_witness :
  run (_pyintelowl_logic nominal) (cli_flags true None false)
  = ([ApiCall GetAnalyzerConfigs no_configs;
      Log INFO (ExtractedConfiguration (PDict []));
      PPrint (PDict [])],
     Exited 0).
Proof.
  apply (configuration_mode nominal (cli_flags true None false)
           (envelope_of [] []) eq_refl eq_refl eq_refl).
Defined.

(** X7. Without a sub-command and without [--get-configuration] the run
    sends no request: it logs the error about the type of the analysis,
    with no fingerprint, and goes on to the presentation of the empty
    results. *)
Theorem analysis_needs_a_subcommand (w : World) (a : Args) :
  command a = NoCommand ->
  get_configuration a = false ->
  run (_pyintelowl_logic w) a
  = (Log ERROR (ErrorMd5 MustSpecifyType None)
       :: Log INFO (ElapsedTime PNone) :: Log INFO ResultsHeader
       :: shown w a (PList []),
     outcome_of (presented w a))
  /\ (show_colors a = false ->
      shown w a (PList []) = [PPrint (PList [])]
      /\ outcome_of (presented w a) = Returned).
Proof.
  intros Hc Hg. split.
  - rewrite logic_run, try_block_run.
    unfold before_polling, prepare_input. unfold_m. simpl.
    rewrite Hc, Hg. reflexivity.
  - intros Hs. unfold shown, presented. rewrite Hs. split; reflexivity.
Qed.

Lemma analysis_needs_a_subcommand_witness :
  run (_pyintelowl_logic nominal)
    (cli_flags false (Some ["Example_Analyzer"]) false)
  = ([Log ERROR (ErrorMd5 MustSpecifyType None);
      Log INFO (ElapsedTime PNone); Log INFO ResultsHeader;
      PPrint (PList [])],
     Returned).
Proof.
  apply (analysis_needs_a_subcommand nominal
           (cli_flags false (Some ["Example_Analyzer"]) false)
           eq_refl eq_refl).
Defined.

(** X8. In file mode, a path that exists and cannot be opened for reading
    (a directory, a file without permission): the [OSError] of [open] is
    caught by the last handler and logged with its trace; no fingerprint is
    computed, no request is sent, and the run goes on to the presentation
    of the empty results. *)
Theorem unreadable_file_is_logged (w : World) (a : Args) (file : string) :
  command a = CmdFile file ->
  path_entry w file = Unreadable ->
  run (_pyintelowl_logic w) a
  = (LogException (OSError file)
       :: Log INFO (ElapsedTime PNone) :: Log INFO ResultsHeader
       :: shown w a (PList []),
     outcome_of (presented w a))
  /\ md5 (frame_of (try_block w (start a))) = None.
Proof.
  intros Hc Hf. split.
  - rewrite logic_run, try_block_run.
    unfold before_polling, prepare_input. unfold_m. simpl.
    rewrite Hc, Hf. reflexivity.
  - rewrite try_block_run.
    unfold before_polling, prepare_input. unfold_m. simpl.
    rewrite Hc, Hf. reflexivity.
Qed.

Lemma unreadable_file_is_logged_witness :
  run (_pyintelowl_logic (with_directory nominal "/tmp")) (cli (CmdFile "/tmp"))
  = ([LogException (OSError "/tmp");
      Log INFO (ElapsedTime PNone); Log INFO ResultsHeader;
      PPrint (PList [])],
     Returned).
Proof.
  apply (unreadable_file_is_logged (with_directory nominal "/tmp")
           (cli (CmdFile "/tmp")) "/tmp" eq_refl eq_refl).
Defined.

(** *** How the polling ends *)

(** An iteration that raises, after non-terminal answers, ends the loop
    with its exception and leaves the frame as the loop found it. *)
Lemma loop_raises c job l1 k l2 fr tk e :
  (forall i, In i l1 -> non_terminal (ask_analysis_result c i job) = true) ->
  poll_once c job k fr = (tk, fr, Raise e) ->
  exists t,
    for_in (l1 ++ k :: l2) (poll_once c job) fr = (t ++ tk, fr, Raise e)
    /\ List.length (filter is_poll t) = List.length l1
    /\ Forall (fun ev => is_error_record ev = false) t.
Proof.
  intros H Ek. induction l1 as [|i l1 IH].
  - exists []. simpl. unfold bind. rewrite Ek. repeat split. constructor.
  - destruct (poll_once_non_terminal c job i fr (H i (or_introl eq_refl)))
      as [tail E].
    destruct (IH (fun j Hj => H j (or_intror Hj))) as (t & Et & Hn & Hq).
    pose proof (post_elim _ _ _ _ _ _ (poll_once_shape c job i fr) E)
      as (tail0 & Heq & Htail & _).
    injection Heq as <-.
    assert (Htq : Forall (fun ev => is_error_record ev = false) tail).
    { revert E. unfold poll_once. unfold_m.
      by_cases; intros [= <-]; repeat constructor. }
    exists (Sleep polling_interval
              :: ApiCall (AskAnalysisResult job) (ask_analysis_result c i job)
              :: tail ++ t).
    simpl. unfold bind. rewrite E, Et. split.
    + simpl. rewrite <- app_assoc. reflexivity.
    + simpl. rewrite filter_app, length_app, Hn.
      rewrite (filter_none is_poll tail) by (apply polling_event_tail; exact Htail).
      split; [reflexivity|].
      repeat constructor. apply Forall_app. split; assumption.
Qed.

Lemma polling_raises c job fr k tk e :
  (k < polling_max_tries)%nat ->
  (forall i, (i < k)%nat -> non_terminal (ask_analysis_result c i job) = true) ->
  poll_once c job k fr = (tk, fr, Raise e) ->
  exists t,
    polling c job fr = (Log INFO StartedPolling :: t ++ tk, fr, Raise e)
    /\ List.length (filter is_poll t) = k
    /\ Forall (fun ev => is_error_record ev = false) t.
Proof.
  intros Hk H Ek.
  destruct (loop_raises c job (seq 0 k) k (seq (S k) (polling_max_tries - S k))
              fr tk e) as (t & E & Hn & Hq); auto.
  { intros i Hi. apply H. apply in_seq in Hi. lia. }
  exists t. split; [|split; [rewrite Hn; apply length_seq|exact Hq]].
  rewrite polling_run, (seq_split k polling_max_tries Hk), E. reflexivity.
Qed.

(** The run whose polling raises at the chance [k]. *)
Lemma run_polling_raises w a t0 fr1 c j k tk e :
  before_polling w (start a) = (t0, fr1, Normal (c, j)) ->
  (k < polling_max_tries)%nat ->
  (forall i, (i < k)%nat -> non_terminal (ask_analysis_result c i j) = true) ->
  poll_once c j k fr1 = (tk, fr1, Raise e) ->
  exists t,
    List.length (filter is_poll t) = k
    /\ try_block w (start a)
       = (t0 ++ Log INFO StartedPolling :: t ++ tk, fr1, Raise e)
    /\ run (_pyintelowl_logic w) a
       = (t0 ++ Log INFO StartedPolling :: t ++ tk
             ++ handled e (md5 fr1)
             :: Log INFO (ElapsedTime PNone) :: Log INFO ResultsHeader
             :: shown w (normalized a) (PList []),
          outcome_of (presented w (normalized a))).
Proof.
  intros E0 Hk H Ek.
  destruct (before_polling_start w a t0 fr1 _ E0) as (Hres & Hel & Ha & _).
  destruct (polling_raises c j fr1 k tk e Hk H Ek) as (t & Ep & Hn & _).
  destruct (polled_run w a _ _ _ _ _ _ _ E0 Ep) as [Et Erun].
  exists t. split; [exact Hn|]. split; [exact Et|].
  rewrite Erun. unfold closing, final. simpl.
  rewrite Hres, Hel, Ha, <- app_assoc. reflexivity.
Qed.

Lemma poll_once_rejected c job i fr envelope d :
  ask_analysis_result c i job = Returns envelope ->
  truthy (errors_of envelope) = false ->
  answer_of envelope = PDict d ->
  in_strs (dict_get d "status" PNone) ["invalid_id"; "not_available"] = true ->
  poll_once c job i fr
  = ([Sleep polling_interval;
      ApiCall (AskAnalysisResult job) (Returns envelope)],
     fr,
     Raise (IntelOwlClientException (ResultBadStatus (dict_get d "status" PNone)))).
Proof.
  unfold poll_once, errors_of, answer_of.
  intros Hr He Ha Hs. unfold_m. simpl. rewrite Hr. simpl. rewrite He, Ha. simpl.
  destruct (in_strs_cases _ _ Hs) as (s & Hv & Hin). rewrite Hv.
  simpl in Hin. destruct Hin as [<-|[<-|[]]]; reflexivity.
Qed.

Lemma poll_once_without_status c job i fr envelope d :
  ask_analysis_result c i job = Returns envelope ->
  truthy (errors_of envelope) = false ->
  answer_of envelope = PDict d ->
  truthy (dict_get d "status" PNone) = false ->
  poll_once c job i fr
  = ([Sleep polling_interval;
      ApiCall (AskAnalysisResult job) (Returns envelope)],
     fr,
     Raise (IntelOwlClientException (ResultNoStatus job (PDict d)))).
Proof.
  unfold poll_once, errors_of, answer_of.
  intros Hr He Ha Hs. unfold_m. simpl. rewrite Hr. simpl. rewrite He, Ha. simpl.
  rewrite Hs. reflexivity.
Qed.

Lemma poll_once_transport c job i fr e :
  ask_analysis_result c i job = Raises e ->
  poll_once c job i fr
  = ([Sleep polling_interval; ApiCall (AskAnalysisResult job) (Raises e)],
     fr, Raise e).
Proof.
  unfold poll_once. intros Hr. unfold_m. simpl. rewrite Hr. reflexivity.
Qed.

(** X9. When the run reaches the polling loop and the answer at the
    chance [k], after non-terminal answers, has the status "invalid_id" or
    "not_available": the loop stops at once, with [k + 1] requests for the
    result; the client exception about that status is raised and logged,
    and the run goes on to the presentation step, on the empty results,
    and ends as that step ends. *)
Theorem rejected_job_stops_the_polling
    (w : World) (a : Args) (t0 : trace) (fr1 : frame)
    (c : IntelOwlClient) (j : pyval) (k : nat) (envelope d : dict) :
  before_polling w (start a) = (t0, fr1, Normal (c, j)) ->
  (k < 1200)%nat ->
  (forall i, (i < k)%nat -> non_terminal (ask_analysis_result c i j) = true) ->
  ask_analysis_result c k j = Returns envelope ->
  truthy (errors_of envelope) = false ->
  answer_of envelope = PDict d ->
  in_strs (dict_get d "status" PNone) ["invalid_id"; "not_available"] = true ->
  exists t,
    List.length (filter is_poll t) = k
    /\ run (_pyintelowl_logic w) a
       = (t0 ++ Log INFO StartedPolling :: t
             ++ [Sleep 1; ApiCall (AskAnalysisResult j) (Returns envelope)]
             ++ Log ERROR (ErrorMd5 (ResultBadStatus (dict_get d "status" PNone))
                             (md5 fr1))
             :: Log INFO (ElapsedTime PNone) :: Log INFO ResultsHeader
             :: shown w (normalized a) (PList []),
          outcome_of (presented w (normalized a))).
Proof.
  intros E0 Hk H Hr He Ha Hs.
  destruct (run_polling_raises w a t0 fr1 c j k _ _ E0 Hk H
              (poll_once_rejected c j k fr1 envelope d Hr He Ha Hs))
    as (t & Hn & _ & Erun).
  exists t. split; [exact Hn|exact Erun].
Qed.

(** X10. When the run reaches the polling loop and the answer at the
    chance [k], after non-terminal answers, has no status (the key is
    missing, or its value is [None] or empty): the loop stops at once; the
    client exception about the missing status, with the job and the
    answer, is raised and logged, and the run goes on to the presentation
    step, on the empty results, and ends as that step ends. *)
Theorem answer_without_status_stops_the_polling
    (w : World) (a : Args) (t0 : trace) (fr1 : frame)
    (c : IntelOwlClient) (j : pyval) (k : nat) (envelope d : dict) :
  before_polling w (start a) = (t0, fr1, Normal (c, j)) ->
  (k < 1200)%nat ->
  (forall i, (i < k)%nat -> non_terminal (ask_analysis_result c i j) = true) ->
  ask_analysis_result c k j = Returns envelope ->
  truthy (errors_of envelope) = false ->
  answer_of envelope = PDict d ->
  truthy (dict_get d "status" PNone) = false ->
  exists t,
    List.length (filter is_poll t) = k
    /\ run (_pyintelowl_logic w) a
       = (t0 ++ Log INFO StartedPolling :: t
             ++ [Sleep 1; ApiCall (AskAnalysisResult j) (Returns envelope)]
             ++ Log ERROR (ErrorMd5 (ResultNoStatus j (PDict d)) (md5 fr1))
             :: Log INFO (ElapsedTime PNone) :: Log INFO ResultsHeader
             :: shown w (normalized a) (PList []),
          outcome_of (presented w (normalized a))).
Proof.
  intros E0 Hk H Hr He Ha Hs.
  destruct (run_polling_raises w a t0 fr1 c j k _ _ E0 Hk H
              (poll_once_without_status c j k fr1 envelope d Hr He Ha Hs))
    as (t & Hn & _ & Erun).
  exists t. split; [exact Hn|exact Erun].
Qed.

(** X11. When the run reaches the polling loop and the request at the
    chance [k], after non-terminal answers, raises an exception of the
    transport: the loop stops at once and the request is not sent again;
    the exception is caught and logged (with its trace when it is not the
    client exception), and the run goes on to the presentation step, on
    the empty results, and ends as that step ends. *)
Theorem transport_failure_stops_the_polling
    (w : World) (a : Args) (t0 : trace) (fr1 : frame)
    (c : IntelOwlClient) (j : pyval) (k : nat) (e : exn) :
  before_polling w (start a) = (t0, fr1, Normal (c, j)) ->
  (k < 1200)%nat ->
  (forall i, (i < k)%nat -> non_terminal (ask_analysis_result c i j) = true) ->
  ask_analysis_result c k j = Raises e ->
  exists t,
    List.length (filter is_poll t) = k
    /\ run (_pyintelowl_logic w) a
       = (t0 ++ Log INFO StartedPolling :: t
             ++ [Sleep 1; ApiCall (AskAnalysisResult j) (Raises e)]
             ++ handled e (md5 fr1)
             :: Log INFO (ElapsedTime PNone) :: Log INFO ResultsHeader
             :: shown w (normalized a) (PList []),
          outcome_of (presented w (normalized a))).
Proof.
  intros E0 Hk H Hr.
  destruct (run_polling_raises w a t0 fr1 c j k _ _ E0 Hk H
              (poll_once_transport c j k fr1 e Hr))
    as (t & Hn & _ & Erun).
  exists t. split; [exact Hn|exact Erun].
Qed.

Lemma rejected_job_stops_the_polling_witness :
  exists t,
    List.length (filter is_poll t) = 1%nat
    /\ run (_pyintelowl_logic forgetful) (cli (CmdObservable "Example.COM"))
       = (trace_of (before_polling forgetful
                      (start (cli (CmdObservable "Example.COM"))))
            ++ Log INFO StartedPolling :: t
            ++ [Sleep 1; ApiCall (AskAnalysisResult (PInt 7)) (in_status "invalid_id")]
            ++ Log ERROR (ErrorMd5 (ResultBadStatus (PStr "invalid_id"))
                            (Some "5ababd603b22780302dd8d83498e5172"))
            :: Log INFO (ElapsedTime PNone) :: Log INFO ResultsHeader
            :: [PPrint (PList [])],
          Returned).
Proof.
  apply (rejected_job_stops_the_polling forgetful
           (cli (CmdObservable "Example.COM"))
           (trace_of (before_polling forgetful
                        (start (cli (CmdObservable "Example.COM")))))
           (frame_of (before_polling forgetful
                        (start (cli (CmdObservable "Example.COM")))))
           (client_of forgetful (cli (CmdObservable "Example.COM")))
           (PInt 7) 1%nat
           (envelope_of [] [("status", PStr "invalid_id")])
           [("status", PStr "invalid_id")]).
  - vm_compute. reflexivity.
  - lia.
  - intros i Hi. assert (i = 0%nat) as -> by lia. reflexivity.
  - reflexivity.
  - reflexivity.
  - reflexivity.
  - reflexivity.
Defined.

Lemma answer_without_status_stops_the_polling_witness :
  exists t,
    List.length (filter is_poll t) = 1%nat
    /\ run (_pyintelowl_logic silent) (cli (CmdObservable "Example.COM"))
       = (trace_of (before_polling silent
                      (start (cli (CmdObservable "Example.COM"))))
            ++ Log INFO StartedPolling :: t
            ++ [Sleep 1;
                ApiCall (AskAnalysisResult (PInt 7))
                  (Returns (envelope_of [] [("job_id", PInt 7)]))]
            ++ Log ERROR (ErrorMd5 (ResultNoStatus (PInt 7)
                                      (PDict [("job_id", PInt 7)]))
                            (Some "5ababd603b22780302dd8d83498e5172"))
            :: Log INFO (ElapsedTime PNone) :: Log INFO ResultsHeader
            :: [PPrint (PList [])],
          Returned).
Proof.
  apply (answer_without_status_stops_the_polling silent
           (cli (CmdObservable "Example.COM"))
           (trace_of (before_polling silent
                        (start (cli (CmdObservable "Example.COM")))))
           (frame_of (before_polling silent
                        (start (cli (CmdObservable "Example.COM")))))
           (client_of silent (cli (CmdObservable "Example.COM")))
           (PInt 7) 1%nat
           (envelope_of [] [("job_id", PInt 7)])
           [("job_id", PInt 7)]).
  - vm_compute. reflexivity.
  - lia.
  - intros i Hi. assert (i = 0%nat) as -> by lia. reflexivity.
  - reflexivity.
  - reflexivity.
  - reflexivity.
  - reflexivity.
Defined.

Lemma transport_failure_stops_the_polling_witness :
  exists t,
    List.length (filter is_poll t) = 1%nat
    /\ run (_pyintelowl_logic unreachable) (cli (CmdObservable "Example.COM"))
       = (trace_of (before_polling unreachable
                      (start (cli (CmdObservable "Example.COM"))))
            ++ Log INFO StartedPolling :: t
            ++ [Sleep 1;
                ApiCall (AskAnalysisResult (PInt 7))
                  (Raises (HTTPError "502 Bad Gateway"))]
            ++ LogException (HTTPError "502 Bad Gateway")
            :: Log INFO (ElapsedTime PNone) :: Log INFO ResultsHeader
            :: [PPrint (PList [])],
          Returned).
Proof.
  apply (transport_failure_stops_the_polling unreachable
           (cli (CmdObservable "Example.COM"))
           (trace_of (before_polling unreachable
                        (start (cli (CmdObservable "Example.COM")))))
           (frame_of (before_polling unreachable
                        (start (cli (CmdObservable "Example.COM")))))
           (client_of unreachable (cli (CmdObservable "Example.COM")))
           (PInt 7) 1%nat (HTTPError "502 Bad Gateway")).
  - vm_compute. reflexivity.
  - lia.
  - intros i Hi. assert (i = 0%nat) as -> by lia. reflexivity.
  - reflexivity.
Defined.

Lemma poll_once_quiet c job i fr :
  Forall (fun e => is_error_record e = false) (trace_of (poll_once c job i fr)).
Proof.
  unfold poll_once. unfold_m. by_cases; repeat constructor.
Qed.

Lemma loop_quiet c job l fr t fr' r :
  loops (poll_once c job) l fr t fr' r ->
  Forall (fun e => is_error_record e = false) t.
Proof.
  assert (Hone : forall i fr t fr' r,
             poll_once c job i fr = (t, fr', r) ->
             Forall (fun e => is_error_record e = false) t).
  { intros i fr0 t0 fr0' r0 E. pose proof (poll_once_quiet c job i fr0) as H.
    rewrite E in H. exact H. }
  induction 1; eauto using Forall_nil.
  apply Forall_app. split; eauto.
Qed.

Lemma polling_quiet c job fr :
  Forall (fun e => is_error_record e = false) (trace_of (polling c job fr)).
Proof.
  rewrite polling_run.
  destruct (for_in (seq 0 polling_max_tries) (poll_once c job) fr)
    as [[t fr'] r] eqn:E.
  apply for_in_run, loop_quiet in E.
  destruct r as [[]|e|code]; simpl; constructor; try reflexivity; exact E.
Qed.

Lemma before_polling_quiet w fr :
  post (before_polling w) fr (fun t fr' r =>
    forall c j, r = Normal (c, j) ->
                Forall (fun e => is_error_record e = false) t).
Proof.
  unfold_before. unfold_m.
  by_cases; intros ? ? H; try discriminate H; repeat constructor.
Qed.

Lemma final_quiet w fr : Forall (fun e => is_error_record e = false) (final w fr).
Proof. unfold final, shown. by_cases; repeat constructor. Qed.

(** X12. When the run reaches the polling loop and the first terminal
    answer, at the chance [k], has results that are not empty, the run
    succeeds whatever the terminal status is (a job that failed counts as
    well as a job reported without fails): the loop ends with [k + 1]
    requests, the [try] block completes, no error is logged anywhere in
    the run, and the elapsed time and the results of that answer are the
    ones that the presentation step logs and gets; the run ends as that
    step ends. *)
Theorem terminal_answer_with_results_is_shown
    (w : World) (a : Args) (t0 : trace) (fr1 : frame)
    (c : IntelOwlClient) (j : pyval) (k : nat) (envelope d : dict) :
  before_polling w (start a) = (t0, fr1, Normal (c, j)) ->
  (k < 1200)%nat ->
  (forall i, (i < k)%nat -> non_terminal (ask_analysis_result c i j) = true) ->
  ask_analysis_result c k j = Returns envelope ->
  truthy (errors_of envelope) = false ->
  answer_of envelope = PDict d ->
  in_strs (dict_get d "status" PNone) terminal_statuses = true ->
  truthy (dict_get d "results" (PList [])) = true ->
  exists tp,
    List.length (filter is_poll tp) = S k
    /\ flow_of (try_block w (start a)) = Normal tt
    /\ run (_pyintelowl_logic w) a
       = (t0 ++ Log INFO StartedPolling :: tp
             ++ Log INFO (ElapsedTime
                            (dict_get d "elapsed_time_in_seconds" (PList [])))
             :: Log INFO ResultsHeader
             :: shown w (normalized a) (dict_get d "results" (PList [])),
          outcome_of (presented w (normalized a)))
    /\ Forall (fun e => is_error_record e = false)
         (fst (run (_pyintelowl_logic w) a)).
Proof.
  intros E0 Hk Hall Hr He Hans Hs Hres.
  destruct (before_polling_start w a t0 fr1 _ E0) as (_ & _ & Ha & _).
  destruct (polling_terminal c j fr1 k envelope d Hk Hall Hr He Hans Hs)
    as (tp & Ep & Hn).
  rewrite Hres in Ep.
  destruct (polled_run w a _ _ _ _ _ _ _ E0 Ep) as [Et Erun].
  exists tp. split; [exact Hn|]. split; [rewrite Et; reflexivity|].
  assert (Hq0 := post_elim _ _ _ _ _ _ (before_polling_quiet w (start a)) E0
                   c j eq_refl).
  pose proof (polling_quiet c j fr1) as Hqp. rewrite Ep in Hqp.
  split.
  - rewrite Erun. unfold closing, final. simpl. rewrite Ha. reflexivity.
  - rewrite Erun. simpl. apply Forall_app. split; [exact Hq0|].
    apply (Forall_app _ (Log INFO StartedPolling :: tp)). split; [exact Hqp|].
    apply final_quiet.
Qed.

Lemma terminal_answer_with_results_is_shown_witness :
  exists tp,
    List.length (filter is_poll tp) = 1%nat
    /\ flow_of (try_block already_available
                  (start (cli (CmdObservable "Example.COM")))) = Normal tt
    /\ Forall (fun e => is_error_record e = false)
         (fst (run (_pyintelowl_logic already_available)
                 (cli (CmdObservable "Example.COM")))).
Proof.
  destruct (terminal_answer_with_results_is_shown already_available
              (cli (CmdObservable "Example.COM"))
              (trace_of (before_polling already_available
                           (start (cli (CmdObservable "Example.COM")))))
              (frame_of (before_polling already_available
                           (start (cli (CmdObservable "Example.COM")))))
              (client_of already_available (cli (CmdObservable "Example.COM")))
              (PInt 42) 0%nat
              (envelope_of [] [("status", PStr "reported_with_fails");
                               ("results", report);
                               ("elapsed_time_in_seconds", PInt 3)])
              [("status", PStr "reported_with_fails"); ("results", report);
               ("elapsed_time_in_seconds", PInt 3)])
    as (tp & Hn & Hf & _ & Hq).
  - vm_compute. reflexivity.
  - lia.
  - intros i Hi. lia.
  - reflexivity.
  - reflexivity.
  - reflexivity.
  - reflexivity.
  - reflexivity.
  - exists tp. auto.
Defined.

(** *** Answers that break the contract, before the polling *)

(** A request other than for the result, found in the trace of a run, was
    sent before the polling loop; when the steps before the loop raise,
    the [try] block ends with that exception, the polling loop is not
    entered and the run goes on to the presentation of the empty
    results. *)
Lemma early_request w a c r :
  In (ApiCall c r) (fst (run (_pyintelowl_logic w) a)) ->
  is_poll (ApiCall c r) = false ->
  exists t0 fr1 r0,
    before_polling w (start a) = (t0, fr1, r0)
    /\ In (ApiCall c r) t0
    /\ forall e,
         raised r0 = Some e ->
         flow_of (try_block w (start a)) = Raise e
         /\ Forall (fun ev => is_poll ev = false)
              (fst (run (_pyintelowl_logic w) a))
         /\ run (_pyintelowl_logic w) a
            = (t0 ++ handled e (md5 fr1)
                 :: Log INFO (ElapsedTime PNone) :: Log INFO ResultsHeader
                 :: shown w (normalized a) (PList []),
               outcome_of (presented w (normalized a))).
Proof.
  intros Hin Hnp.
  destruct (logic_cases w a)
    as [t0 fr1 c' j tp fr2 r' E0 Ep Erun|t0 fr1 e E0 Erun|t0 fr1 E0 Hc Erun];
    rewrite Erun in *; simpl in Hin |- *.
  - pose proof (post_elim _ _ _ _ _ _ (polling_shape c' j fr1) Ep)
      as (tp' & Htp & _ & _ & Hev & _).
    assert (Hevp : Forall (polling_event j) tp)
      by (rewrite Htp; constructor; [exact I|exact Hev]).
    apply (early_call_in_prefix t0 j tp (closing w r' fr2)) in Hin;
      [|exact Hevp|apply closing_no_api_call|exact Hnp].
    exists t0, fr1, (Normal (c', j)). split; [exact E0|]. split; [exact Hin|].
    intros e0 H. discriminate H.
  - assert (Hin0 : In (ApiCall c r) t0).
    { apply in_app_or in Hin as [Hin|Hin]; [exact Hin|].
      pose proof (closing_no_api_call w (Raise e) fr1) as Hcl.
      rewrite Forall_forall in Hcl. specialize (Hcl _ Hin). discriminate Hcl. }
    exists t0, fr1, (Raise e). split; [exact E0|]. split; [exact Hin0|].
    intros e0 [= <-].
    destruct (before_polling_start w a t0 fr1 _ E0) as (Hres & Hel & Ha & _).
    split; [rewrite try_block_run, E0; reflexivity|]. split.
    + apply Forall_app. split.
      * eapply Forall_impl;
          [|exact (post_elim _ _ _ _ _ _ (before_polling_events w (start a)) E0)].
        intros ev [Hp _]. exact Hp.
      * eapply Forall_impl; [|exact (closing_no_api_call w (Raise e) fr1)].
        intros [] Hc'; simpl in *; try reflexivity; discriminate.
    + unfold final. rewrite Hres, Hel, Ha. reflexivity.
  - exists t0, fr1, (SysExit 0). split; [exact E0|]. split; [exact Hin|].
    intros e0 H. discriminate H.
Qed.

Lemma eq_str_truthy v s : s <> "" -> eq_str v s = true -> truthy v = true.
Proof.
  destruct v; simpl; try discriminate. intros Hs He.
  apply String.eqb_eq in He. subst. unfold truthy.
  destruct (String.eqb s "") eqn:E; [|reflexivity].
  apply String.eqb_eq in E. contradiction.
Qed.

Lemma before_polling_contract w fr :
  post (before_polling w) fr (fun t fr' r =>
    forall c envelope,
      In (ApiCall c (Returns envelope)) t ->
      truthy (errors_of envelope) = false ->
      match answer_of envelope with
      | PDict d =>
          match c with
          | AskAnalysisAvailability _ _ _ _ =>
              (truthy (dict_get d "status" PNone) = false ->
               raised r
               = Some (IntelOwlClientException (AvailabilityNoStatus (PDict d))))
              /\ (truthy (dict_get d "status" PNone) = true ->
                  eq_str (dict_get d "status" PNone) "not_available" = false ->
                  truthy (dict_get d "job_id" (PStr "")) = false ->
                  raised r
                  = Some (IntelOwlClientException (AvailabilityNoJobId (PDict d))))
          | SendFileAnalysisRequest _ _ _ _ _ _ _ _
          | SendObservableAnalysisRequest _ _ _ _ _ _ _ =>
              (truthy (dict_get d "status" PNone) = false ->
               raised r = Some (IntelOwlClientException (SendNoStatus (PDict d))))
              /\ (eq_str (dict_get d "status" PNone) "accepted" = true ->
                  truthy (dict_get d "job_id" PNone) = false ->
                  raised r
                  = Some (IntelOwlClientException (SendNoJobId (PDict d))))
          | _ => True
          end
      | _ => c <> GetAnalyzerConfigs -> raised r = Some (AttributeError "get")
      end).
Proof.
  unfold_before. unfold_m.
  by_cases; intros qc qenv Hin Herr;
    simpl in Hin;
    repeat match goal with
           | H : _ \/ _ |- _ => destruct H as [H|H]
           | H : False |- _ => destruct H
           | H : _ = ApiCall _ _ |- _ =>
               first [discriminate H | injection H as <- <-]
           end;
    unfold errors_of, answer_of in *;
    repeat match goal with
           | H : negb _ = false |- _ => apply negb_false_iff in H
           | H : negb _ = true |- _ => apply negb_true_iff in H
           end;
    try congruence;
    repeat match goal with
           | H : ?x = _ |- context [match ?x with _ => _ end] => rewrite H
           end;
    simpl; try congruence; try (split; intros; congruence);
    try (intros; congruence);
    try (split; [reflexivity|];
         intros H1 H2; apply eq_str_truthy in H1; [congruence|discriminate]);
    try (destruct (dict_get _ "answer" _); try exact I;
         intros Hneq; exfalso; apply Hneq; reflexivity).
Qed.

Lemma falsy_is_not_a_status v s : s <> "" -> truthy v = false -> eq_str v s = false.
Proof.
  intros Hs Ht. destruct (eq_str v s) eqn:E; [|reflexivity].
  apply (eq_str_truthy v s Hs) in E. congruence.
Qed.

(** X13. When the answer to the availability request, or to the
    submission, has no errors and no status (the key is missing, or its
    value is [None] or empty), the [try] block ends with the client
    exception about the missing status of that request, and no request for
    a result is sent; after the availability request, no submission is
    sent either. *)
Theorem answer_without_status_aborts
    (w : World) (a : Args) (c : api_call) (envelope d : dict) :
  In (ApiCall c (Returns envelope)) (fst (run (_pyintelowl_logic w) a)) ->
  truthy (errors_of envelope) = false ->
  answer_of envelope = PDict d ->
  truthy (dict_get d "status" PNone) = false ->
  match kind_of c with
  | Availability =>
      flow_of (try_block w (start a))
      = Raise (IntelOwlClientException (AvailabilityNoStatus (PDict d)))
      /\ Forall (fun e => is_poll e = false /\ is_submission e = false)
           (fst (run (_pyintelowl_logic w) a))
  | Submission =>
      flow_of (try_block w (start a))
      = Raise (IntelOwlClientException (SendNoStatus (PDict d)))
      /\ Forall (fun e => is_poll e = false) (fst (run (_pyintelowl_logic w) a))
  | _ => True
  end.
Proof.
  intros Hin He Ha Hs.
  destruct c; simpl; try exact I.
  - destruct (early_request w a _ _ Hin eq_refl)
      as (t0 & fr1 & r0 & E0 & Hin0 & Hraise).
    pose proof (post_elim _ _ _ _ _ _ (before_polling_contract w (start a)) E0
                  _ _ Hin0 He) as Hc.
    rewrite Ha in Hc. destruct Hc as [Hc _].
    destruct (Hraise _ (Hc Hs)) as (Hflow & Hnp & Erun).
    split; [exact Hflow|].
    destruct (post_elim _ _ _ _ _ _ (before_polling_available w (start a)) E0
                _ _ _ _ _ _ Hin0 Ha) as (Hsub & _).
    { apply falsy_is_not_a_status; [discriminate|exact Hs]. }
    rewrite Forall_forall in Hnp |- *. intros ev Hev.
    split; [apply Hnp; exact Hev|].
    rewrite Erun in Hev. simpl in Hev.
    apply in_app_or in Hev as [Hev|Hev].
    + rewrite Forall_forall in Hsub. apply Hsub. exact Hev.
    + pose proof (closing_no_api_call w
                    (Raise (IntelOwlClientException (AvailabilityNoStatus (PDict d))))
                    fr1) as Hcl.
      apply no_api_call_no_submission in Hcl.
      rewrite Forall_forall in Hcl. apply Hcl.
      destruct (before_polling_start w a t0 fr1 _ E0) as (Hres & Hel & Haa & _).
      unfold closing, final. rewrite Hres, Hel, Haa. exact Hev.
  - destruct (early_request w a _ _ Hin eq_refl)
      as (t0 & fr1 & r0 & E0 & Hin0 & Hraise).
    pose proof (post_elim _ _ _ _ _ _ (before_polling_contract w (start a)) E0
                  _ _ Hin0 He) as Hc.
    rewrite Ha in Hc. destruct Hc as [Hc _].
    destruct (Hraise _ (Hc Hs)) as (Hflow & Hnp & _). split; assumption.
  - destruct (early_request w a _ _ Hin eq_refl)
      as (t0 & fr1 & r0 & E0 & Hin0 & Hraise).
    pose proof (post_elim _ _ _ _ _ _ (before_polling_contract w (start a)) E0
                  _ _ Hin0 He) as Hc.
    rewrite Ha in Hc. destruct Hc as [Hc _].
    destruct (Hraise _ (Hc Hs)) as (Hflow & Hnp & _). split; assumption.
Qed.

Lemma answer_without_status_aborts_witness :
  flow_of (try_block without_status (start (cli (CmdObservable "Example.COM"))))
  = Raise (IntelOwlClientException (AvailabilityNoStatus (PDict []))).
Proof.
  refine (proj1 (answer_without_status_aborts without_status
                   (cli (CmdObservable "Example.COM"))
                   (AskAnalysisAvailability
                      (Some "5ababd603b22780302dd8d83498e5172")
                      (Some ["Example_Analyzer"]) false false)
                   (envelope_of [] []) [] _ _ _ _)).
  - vm_compute. right. left. reflexivity.
  - reflexivity.
  - reflexivity.
  - reflexivity.
Defined.

(** X14. When the availability answer has a status other than
    "not_available" and no job id, or the submission is accepted with no
    job id, the [try] block ends with the client exception about the
    missing job id of that request, and no request for a result is
    sent. *)
Theorem answer_without_job_aborts
    (w : World) (a : Args) (c : api_call) (envelope d : dict) :
  In (ApiCall c (Returns envelope)) (fst (run (_pyintelowl_logic w) a)) ->
  truthy (errors_of envelope) = false ->
  answer_of envelope = PDict d ->
  match kind_of c with
  | Availability =>
      truthy (dict_get d "status" PNone) = true ->
      eq_str (dict_get d "status" PNone) "not_available" = false ->
      truthy (dict_get d "job_id" (PStr "")) = false ->
      flow_of (try_block w (start a))
      = Raise (IntelOwlClientException (AvailabilityNoJobId (PDict d)))
      /\ Forall (fun e => is_poll e = false) (fst (run (_pyintelowl_logic w) a))
  | Submission =>
      eq_str (dict_get d "status" PNone) "accepted" = true ->
      truthy (dict_get d "job_id" PNone) = false ->
      flow_of (try_block w (start a))
      = Raise (IntelOwlClientException (SendNoJobId (PDict d)))
      /\ Forall (fun e => is_poll e = false) (fst (run (_pyintelowl_logic w) a))
  | _ => True
  end.
Proof.
  intros Hin He Ha.
  destruct c; simpl; try exact I;
    destruct (early_request w a _ _ Hin eq_refl)
      as (t0 & fr1 & r0 & E0 & Hin0 & Hraise);
    pose proof (post_elim _ _ _ _ _ _ (before_polling_contract w (start a)) E0
                  _ _ Hin0 He) as Hc;
    rewrite Ha in Hc; destruct Hc as [_ Hc].
  - intros H1 H2 H3. destruct (Hraise _ (Hc H1 H2 H3)) as (Hflow & Hnp & _).
    split; assumption.
  - intros H1 H2. destruct (Hraise _ (Hc H1 H2)) as (Hflow & Hnp & _).
    split; assumption.
  - intros H1 H2. destruct (Hraise _ (Hc H1 H2)) as (Hflow & Hnp & _).
    split; assumption.
Qed.

Lemma answer_without_job_aborts_witness :
  flow_of (try_block without_job (start (cli (CmdObservable "Example.COM"))))
  = Raise (IntelOwlClientException
             (AvailabilityNoJobId (PDict [("status", PStr "running")]))).
Proof.
  refine (proj1 (answer_without_job_aborts without_job
                   (cli (CmdObservable "Example.COM"))
                   (AskAnalysisAvailability
                      (Some "5ababd603b22780302dd8d83498e5172")
                      (Some ["Example_Analyzer"]) false false)
                   (envelope_of [] [("status", PStr "running")])
                   [("status", PStr "running")] _ _ _ _ _ _)).
  - vm_compute. right. left. reflexivity.
  - reflexivity.
  - reflexivity.
  - reflexivity.
  - reflexivity.
  - reflexivity.
Defined.

(** X15. When the answer to the availability request or to the submission
    is not a dict (a JSON null, list, string or number), reading its
    status fails with an [AttributeError]; the last handler catches it and
    logs it with its trace, and no request for a result is sent. *)
Theorem answer_that_is_not_a_dict
    (w : World) (a : Args) (c : api_call) (envelope : dict) :
  In (ApiCall c (Returns envelope)) (fst (run (_pyintelowl_logic w) a)) ->
  kind_of c = Availability \/ kind_of c = Submission ->
  truthy (errors_of envelope) = false ->
  (forall d, answer_of envelope <> PDict d) ->
  flow_of (try_block w (start a)) = Raise (AttributeError "get")
  /\ In (LogException (AttributeError "get")) (fst (run (_pyintelowl_logic w) a))
  /\ Forall (fun e => is_poll e = false) (fst (run (_pyintelowl_logic w) a)).
Proof.
  intros Hin Hk He Hnd.
  assert (Hnp : is_poll (ApiCall c (Returns envelope)) = false)
    by (destruct c; try reflexivity; destruct Hk; discriminate).
  assert (Hnc : c <> GetAnalyzerConfigs)
    by (intros ->; destruct Hk; discriminate).
  destruct (early_request w a _ _ Hin Hnp)
    as (t0 & fr1 & r0 & E0 & Hin0 & Hraise).
  pose proof (post_elim _ _ _ _ _ _ (before_polling_contract w (start a)) E0
                _ _ Hin0 He) as Hc.
  destruct (answer_of envelope) as [| | | | |d] eqn:Ha;
    try (destruct (Hraise _ (Hc Hnc)) as (Hflow & Hpolls & Erun);
         split; [exact Hflow|]; split; [|exact Hpolls];
         rewrite Erun; simpl; apply in_or_app; right; left; reflexivity).
  destruct (Hnd d). reflexivity.
Qed.

Lemma answer_that_is_not_a_dict_witness :
  flow_of (try_block null_answer (start (cli (CmdObservable "Example.COM"))))
  = Raise (AttributeError "get").
Proof.
  refine (proj1 (answer_that_is_not_a_dict null_answer
                   (cli (CmdObservable "Example.COM"))
                   (AskAnalysisAvailability
                      (Some "5ababd603b22780302dd8d83498e5172")
                      (Some ["Example_Analyzer"]) false false)
                   [("errors", PList []); ("answer", PNone)] _ _ _ _)).
  - vm_compute. right. left. reflexivity.
  - left. reflexivity.
  - reflexivity.
  - intros d. discriminate.
Defined.

Lemma before_polling_transport w fr :
  post (before_polling w) fr (fun t fr' r =>
    forall c e, In (ApiCall c (Raises e)) t -> raised r = Some e).
Proof.
  unfold_before. unfold_m.
  by_cases; intros qc qe Hin; simpl in Hin;
    repeat match goal with
           | H : _ \/ _ |- _ => destruct H as [H|H]
           | H : False |- _ => destruct H
           | H : _ = ApiCall _ _ |- _ =>
               first [discriminate H | injection H as <- <-]
           end;
    reflexivity.
Qed.

(** X16. When the configuration request, the availability request or the
    submission raises an exception instead of returning an envelope, the
    [try] block ends with that exception: the handler logs it (with its
    trace when it is not the client exception), the request is not sent
    again, no request for a result is sent, and the run goes on to the
    presentation step, on the empty results, and ends as that step
    ends. *)
Theorem transport_failure_before_the_polling
    (w : World) (a : Args) (c : api_call) (e : exn) :
  In (ApiCall c (Raises e)) (fst (run (_pyintelowl_logic w) a)) ->
  is_poll (ApiCall c (Raises e)) = false ->
  flow_of (try_block w (start a)) = Raise e
  /\ Forall (fun ev => is_poll ev = false) (fst (run (_pyintelowl_logic w) a))
  /\ exists t0,
       run (_pyintelowl_logic w) a
       = (t0 ++ handled e (fingerprint w a)
             :: Log INFO (ElapsedTime PNone) :: Log INFO ResultsHeader
             :: shown w (normalized a) (PList []),
          outcome_of (presented w (normalized a)))
       /\ In (ApiCall c (Raises e)) t0.
Proof.
  intros Hin Hnp.
  destruct (early_request w a _ _ Hin Hnp)
    as (t0 & fr1 & r0 & E0 & Hin0 & Hraise).
  pose proof (post_elim _ _ _ _ _ _ (before_polling_transport w (start a)) E0
                _ _ Hin0) as Hr.
  destruct (Hraise _ Hr) as (Hflow & Hpolls & Erun).
  split; [exact Hflow|]. split; [exact Hpolls|].
  exists t0. split; [|exact Hin0].
  rewrite Erun. f_equal. f_equal. f_equal. f_equal.
  pose proof (post_elim _ _ _ _ _ _ (before_polling_fingerprint w (start a)) E0)
    as Hm.
  unfold fingerprint. simpl in Hm.
  destruct (command a); try exact Hm.
  destruct (path_entry w file); exact Hm.
Qed.

Lemma transport_failure_before_the_polling_witness :
  flow_of (try_block offline (start (cli (CmdObservable "Example.COM"))))
  = Raise (HTTPError "503 Service Unavailable").
Proof.
  refine (proj1 (transport_failure_before_the_polling offline
                   (cli (CmdObservable "Example.COM"))
                   (SendObservableAnalysisRequest
                      (Some "5ababd603b22780302dd8d83498e5172")
                      (Some ["Example_Analyzer"]) "example.com"
                      false false false false)
                   (HTTPError "503 Service Unavailable") _ _)).
  - vm_compute. right. right. left. reflexivity.
  - reflexivity.
Defined.

(** *** How the process ends *)

Lemma before_polling_exit w fr :
  post (before_polling w) fr (fun t fr' r =>
    forall code, r = SysExit code ->
                 command (args fr) = NoCommand
                 /\ get_configuration (args fr) = true).
Proof.
  unfold_before. unfold_m.
  by_cases; intros code H; try discriminate H; split; congruence.
Qed.

(** X17. The ways [intel_owl_client] ends, once [parse_args] has
    returned the namespace. It exits with 2 exactly when, without
    [--get-configuration], no analyzer and no
    [--run-all-available-analyzers] is given; with 3 exactly when, without
    [--get-configuration], both are given. It exits with 0 only in the
    configuration-only mode. An exception leaves the script in three
    places only, all of them outside the [try] statement: the [OSError] of
    the log file in [get_logger], before anything is logged; with
    [--show-colors], the [AttributeError] of [args.value] outside the
    observable mode, and the exception of the classifier in observable
    mode. In every other case the script returns, whatever happened to the
    analysis: the exit status is 0, 1, 2 or 3. *)
Theorem ways_the_process_ends (w : World) (a : Args) :
  (snd (run (intel_owl_client w) a) = Exited 2
   <-> get_configuration a = false
       /\ some_analyzers (analyzers_list a) = false
       /\ run_all_available_analyzers a = false)
  /\ (snd (run (intel_owl_client w) a) = Exited 3
      <-> get_configuration a = false
          /\ some_analyzers (analyzers_list a) = true
          /\ run_all_available_analyzers a = true)
  /\ (snd (run (intel_owl_client w) a) = Exited 0 ->
      command a = NoCommand /\ get_configuration a = true
      /\ logger_opens w a = true)
  /\ (forall e,
         snd (run (intel_owl_client w) a) = Uncaught e ->
         cli_valid a = true
         /\ ((logger_opens w a = false
              /\ fst (run (intel_owl_client w) a) = []
              /\ exists path,
                  e = OSError path /\ log_to_file a = Some path
                  /\ appendable w path = false)
             \/ (logger_opens w a = true /\ show_colors a = true
                 /\ match command a with
                    | CmdObservable value =>
                        get_observable_classification w (Str.lower value)
                        = Unclassified e
                    | _ => e = AttributeError "value"
                    end)))
  /\ In (exit_status (snd (run (intel_owl_client w) a))) [0; 1; 2; 3].
Proof.
  assert (Hpres : forall e,
            outcome_of (presented w (normalized a)) = Uncaught e ->
            show_colors a = true
            /\ match command a with
               | CmdObservable value =>
                   get_observable_classification w (Str.lower value)
                   = Unclassified e
               | _ => e = AttributeError "value"
               end).
  { unfold presented. intros e. rewrite show_colors_normalized.
    destruct (show_colors a); [|discriminate].
    unfold normalized.
    destruct (command a) as [|file|value] eqn:Hc; simpl; rewrite ?Hc.
    - intros [= <-]. auto.
    - intros [= <-]. auto.
    - destruct (get_observable_classification w (Str.lower value));
        [discriminate|]. intros [= <-]. auto. }
  assert (Hpres' : forall code,
            outcome_of (presented w (normalized a)) <> Exited code).
  { unfold presented. intros code.
    destruct (show_colors (normalized a)); [|discriminate].
    destruct (command (normalized a)); try discriminate.
    destruct (get_observable_classification w value); discriminate. }
  assert (Hstatus : In (exit_status (outcome_of (presented w (normalized a))))
                       [0; 1; 2; 3]).
  { destruct (presented w (normalized a)) as [[]|e|code] eqn:E; simpl; auto.
    destruct (Hpres' code). rewrite ?E. reflexivity. }
  destruct (cli_valid a) eqn:Hv.
  - destruct (logger_opens w a) eqn:Ho.
    + destruct (client_run w a Hv Ho) as (l & _ & Erun). rewrite Erun. simpl.
      assert (Hlogic : (snd (run (_pyintelowl_logic w) a) = Exited 0
                        /\ command a = NoCommand /\ get_configuration a = true)
                       \/ snd (run (_pyintelowl_logic w) a)
                          = outcome_of (presented w (normalized a))).
      { destruct (logic_cases w a)
          as [? ? ? ? ? ? ? _ _ E|? ? ? _ E|t0 fr1 E0 Hc E];
          rewrite E; simpl; auto.
        left. split; [reflexivity|].
        exact (post_elim _ _ _ _ _ _ (before_polling_exit w (start a)) E0
                 0 eq_refl). }
      unfold cli_valid in Hv.
      destruct Hlogic as [(-> & Hc & Hg) | ->].
      * rewrite Hg.
        split; [split; [discriminate|intros (H & _); discriminate H]|].
        split; [split; [discriminate|intros (H & _); discriminate H]|].
        split; [auto|]. split; [discriminate|]. simpl. auto.
      * split.
        { split; [intros H; destruct (Hpres' _ H)|].
          intros (Hg & Ha & Hr). rewrite Hg, Ha, Hr in Hv. discriminate Hv. }
        split.
        { split; [intros H; destruct (Hpres' _ H)|].
          intros (Hg & Ha & Hr). rewrite Hg, Ha, Hr in Hv. discriminate Hv. }
        split; [intros H; destruct (Hpres' _ H)|].
        split; [|exact Hstatus].
        intros e He. split; [reflexivity|]. right.
        split; [reflexivity|]. exact (Hpres e He).
    + destruct (client_fails w a Hv Ho) as (path & Hl & _ & Hp & Erun).
      rewrite Erun. simpl. unfold cli_valid in Hv.
      split.
      { split; [discriminate|].
        intros (Hg & Ha & Hr). rewrite Hg, Ha, Hr in Hv. discriminate Hv. }
      split.
      { split; [discriminate|].
        intros (Hg & Ha & Hr). rewrite Hg, Ha, Hr in Hv. discriminate Hv. }
      split; [discriminate|].
      split; [|auto].
      intros e [= <-]. split; [reflexivity|]. left.
      split; [reflexivity|]. split; [reflexivity|]. exists path. auto.
  - unfold cli_valid in Hv.
    unfold run, intel_owl_client, bind, gets, emit, ret. simpl.
    destruct (get_configuration a); [discriminate Hv|].
    destruct (some_analyzers (analyzers_list a)),
      (run_all_available_analyzers a); try discriminate Hv; simpl;
      repeat split; try discriminate; try tauto;
      try (intros (_ & H & _); discriminate H);
      try (intros (_ & _ & H); discriminate H);
      try (intros ? H; discriminate H); auto.
Qed.

(** *** The logger *)





(** *** The case of the observable *)

Lemma set_value_twice a v x :
  set_value (set_value a v) x = set_value a x.
Proof.
  unfold set_value. simpl. destruct (command a); reflexivity.
Qed.

(** X19. The case of the observable does not matter: two runs whose
    observables differ only by their case, in the same world, send the same
    requests, log the same records and show the same results. *)
Theorem observable_case_is_ignored
    (w : World) (a : Args) (typed other : string) :
  command a = CmdObservable typed ->
  Str.lower other = Str.lower typed ->
  run (_pyintelowl_logic w) (set_value a other) = run (_pyintelowl_logic w) a.
Proof.
  intros Hc Hl.
  assert (Hp : prepare_input w (start (set_value a other))
               = prepare_input w (start a)).
  { unfold prepare_input. unfold_m.
    change (args (start (set_value a other))) with (set_value a other).
    change (args (start a)) with a.
    assert (Hco : command (set_value a other) = CmdObservable other)
      by (simpl; rewrite Hc; reflexivity).
    rewrite Hco, Hc. rewrite set_value_twice, Hl. reflexivity. }
  assert (Ht : try_block w (start (set_value a other)) = try_block w (start a)).
  { unfold try_block, before_polling, bind. rewrite Hp. reflexivity. }
  rewrite !logic_run, Ht. reflexivity.
Qed.

Lemma observable_case_is_ignored_witness :
  run (_pyintelowl_logic nominal)
    (set_value (cli (CmdObservable "Example.COM")) "EXAMPLE.com")
  = run (_pyintelowl_logic nominal) (cli (CmdObservable "Example.COM")).
Proof.
  apply (observable_case_is_ignored nominal (cli (CmdObservable "Example.COM"))
           "Example.COM" "EXAMPLE.com").
  - reflexivity.
  - reflexivity.
Defined.

(** *** The warning about a pending job *)

Lemma eq_str_exclusive v s1 s2 :
  eq_str v s1 = true -> s1 <> s2 -> eq_str v s2 = false.
Proof.
  destruct v; simpl; try discriminate. intros He Hne.
  apply String.eqb_eq in He. subst. apply String.eqb_neq. congruence.
Qed.

Lemma in_strs_exclusive v l s :
  in_strs v l = true -> ~ In s l -> eq_str v s = false.
Proof.
  intros Hin Hs. destruct (in_strs_cases _ _ Hin) as (s' & -> & Hs').
  simpl. apply String.eqb_neq. intros ->. contradiction.
Qed.

Lemma poll_once_warning c job i fr :
  post (poll_once c job i) fr (fun t fr' r =>
    exists tail,
      t = Sleep polling_interval
            :: ApiCall (AskAnalysisResult job) (ask_analysis_result c i job)
            :: tail
      /\ (pending_answer
            (ApiCall (AskAnalysisResult job) (ask_analysis_result c i job)) = true ->
          tail = [Log WARNING
                    (PendingMaybeStuck job (md5 fr) (analyzers_list (args fr)))]
          /\ r = Normal Continue)
      /\ (pending_answer
            (ApiCall (AskAnalysisResult job) (ask_analysis_result c i job)) = false ->
          Forall (fun e => is_warning e = false) tail)).
Proof.
  remember (pending_answer
              (ApiCall (AskAnalysisResult job) (ask_analysis_result c i job)))
    as p eqn:Hp.
  unfold poll_once. unfold_m. by_cases;
    eexists; (split; [reflexivity|]);
    unfold pending_answer, errors_of, answer_of in Hp;
    rewrite ?Heqa in Hp.
  all: repeat match goal with
       | H : negb _ = true |- _ => apply negb_true_iff in H
       | H : negb _ = false |- _ => apply negb_false_iff in H
       end.
  all: repeat match goal with
       | H : truthy (dict_get _ "errors" _) = _ |- _ => rewrite H in Hp
       | H : dict_get _ "answer" _ = _ |- _ => rewrite H in Hp
       end; simpl in Hp.
  all: try (subst p; split; [discriminate|intros _; repeat constructor]; fail).
  all: try match goal with
       | H : eq_str ?s "pending" = _ |- _ => rewrite H in Hp
       end.
  all: try (subst p; split; [discriminate|intros _; repeat constructor]; fail).
  all: try (subst p; split; [intros _; split; reflexivity|discriminate]; fail).
  - rewrite (falsy_is_not_a_status _ "pending") in Hp by (discriminate || assumption).
    subst p. split; [discriminate|intros _; constructor].
  - rewrite (in_strs_exclusive _ _ "pending" Heqb1) in Hp
      by (simpl; intros [H|[H|[]]]; discriminate H).
    subst p. split; [discriminate|intros _; constructor].
  - rewrite (eq_str_exclusive _ "running" "pending" Heqb2) in Hp by discriminate.
    subst p. split; [discriminate|intros _; constructor].
Qed.

Lemma warns_when_pending_more m l e post rest :
  warns_when_pending m l e post -> warns_when_pending m l e (post ++ rest).
Proof.
  destruct e as [| | | | | |[] ?|]; simpl; auto.
  intros H Hp. destruct (H Hp) as [rest0 ->]. eexists. reflexivity.
Qed.

Lemma warned_app m l t1 t2 :
  each_suffix (warns_when_pending m l) t1 ->
  each_suffix (warns_when_pending m l) t2 ->
  each_suffix (warns_when_pending m l) (t1 ++ t2).
Proof.
  intros H1 H2. apply each_suffix_app. split; [|exact H2].
  eapply each_suffix_weaken; [|exact H1].
  intros e post. apply warns_when_pending_more.
Qed.

Lemma calm_warned m l t :
  Forall calm t ->
  each_suffix (warns_when_pending m l) t
  /\ List.length (filter is_warning t) = List.length (filter pending_answer t).
Proof.
  intros H. split.
  - eapply each_suffix_weaken; [|apply each_suffix_Forall; exact H].
    intros e post [Hp _]. destruct e as [| | | | | |[] ?|]; simpl; try exact I.
    revert Hp. simpl. congruence.
  - rewrite (filter_none is_warning), (filter_none pending_answer).
    + reflexivity.
    + eapply Forall_impl; [|exact H]. intros e [Hp _]. exact Hp.
    + eapply Forall_impl; [|exact H]. intros e [_ Hw]. exact Hw.
Qed.

Lemma iteration_warned c job i fr t fr' r :
  poll_once c job i fr = (t, fr', r) ->
  each_suffix (warns_when_pending (md5 fr) (analyzers_list (args fr))) t
  /\ List.length (filter is_warning t) = List.length (filter pending_answer t).
Proof.
  intros E.
  pose proof (post_elim _ _ _ _ _ _ (poll_once_warning c job i fr) E)
    as (tail0 & Heq & Hyes & Hno).
  iteration E. injection Heq as <-.
  remember (ApiCall (AskAnalysisResult job) (ask_analysis_result c i job))
    as ev eqn:Hev.
  destruct (pending_answer ev) eqn:Ep.
  - destruct (Hyes eq_refl) as [-> _]. split.
    + simpl. split; [exact I|]. split; [|split; exact I].
      rewrite Hev. simpl. intros _. exists []. reflexivity.
    + cbn [filter is_warning pending_answer]. rewrite Ep.
      replace (is_warning ev) with false by (rewrite Hev; reflexivity).
      reflexivity.
  - assert (Hcalm : Forall calm tail).
    { apply Forall_forall. intros e He. split.
      - pose proof (proj1 (Forall_forall _ _) Htail e He) as [Hc _].
        destruct e; simpl in *; try reflexivity. discriminate Hc.
      - exact (proj1 (Forall_forall _ _) (Hno eq_refl) e He). }
    destruct (calm_warned (md5 fr) (analyzers_list (args fr)) tail Hcalm)
      as [H1 H2].
    split.
    + simpl. split; [exact I|]. split; [|exact H1].
      revert Ep. rewrite Hev. simpl. congruence.
    + cbn [filter is_warning pending_answer]. rewrite Ep.
      replace (is_warning ev) with false by (rewrite Hev; reflexivity).
      exact H2.
Qed.

Lemma loop_warned c job l fr t fr' r :
  loops (poll_once c job) l fr t fr' r ->
  each_suffix (warns_when_pending (md5 fr) (analyzers_list (args fr))) t
  /\ List.length (filter is_warning t) = List.length (filter pending_answer t).
Proof.
  induction 1 as [fr|i l fr t fr' t' fr'' r E _ IH|i l fr t fr' E
                  |i l fr t fr' e E|i l fr t fr' code E];
    try (destruct (iteration_warned _ _ _ _ _ _ _ E) as [H1 H2]).
  - split; [exact I|reflexivity].
  - assert (fr' = fr).
    { iteration E. apply Hfr. discriminate. }
    subst fr'. destruct IH as [IH1 IH2]. split.
    + apply warned_app; assumption.
    + rewrite !filter_app, !length_app. congruence.
  - split; assumption.
  - split; assumption.
  - split; assumption.
Qed.

Lemma before_polling_calm w fr :
  post (before_polling w) fr (fun t fr' r => Forall calm t).
Proof.
  unfold_before. unfold_m. unfold calm. by_cases; repeat constructor.
Qed.

Lemma closing_calm w r fr : Forall calm (closing w r fr).
Proof.
  assert (Hs : Forall calm (final w fr)).
  { unfold final, shown, calm. by_cases; repeat constructor. }
  destruct r as [[]|e|code]; simpl; try exact Hs.
  constructor; [|exact Hs]. destruct e; split; reflexivity.
Qed.

Lemma fingerprint_of_frame w a t0 fr1 r :
  before_polling w (start a) = (t0, fr1, r) ->
  md5 fr1 = fingerprint w a /\ analyzers_list (args fr1) = analyzers_list a.
Proof.
  intros E0.
  pose proof (post_elim _ _ _ _ _ _ (before_polling_fingerprint w (start a)) E0)
    as Hm.
  destruct (before_polling_start w a t0 fr1 _ E0) as (_ & _ & Ha & _).
  split.
  - unfold fingerprint. simpl in Hm.
    destruct (command a) as [|file|value]; [exact Hm| |exact Hm].
    destruct (path_entry w file); exact Hm.
  - rewrite Ha. unfold normalized. destruct (command a); reflexivity.
Qed.

(** X20. A result answer without errors whose status is "pending" is
    followed at once by a warning that names the job of the request, the
    fingerprint of the input and the analyzers asked for; nothing else is
    logged as a warning: a run has as many warnings as pending answers. *)
Theorem pending_job_is_warned_about (w : World) (a : Args) :
  each_suffix (warns_when_pending (fingerprint w a) (analyzers_list a))
    (fst (run (_pyintelowl_logic w) a))
  /\ List.length (filter is_warning (fst (run (_pyintelowl_logic w) a)))
     = List.length (filter pending_answer (fst (run (_pyintelowl_logic w) a))).
Proof.
  destruct (logic_cases w a)
    as [t0 fr1 c j tp fr2 r E0 Ep Erun|t0 fr1 e E0 Erun|t0 fr1 E0 Hc Erun];
    rewrite Erun; simpl;
    pose proof (post_elim _ _ _ _ _ _ (before_polling_calm w (start a)) E0)
      as H0.
  - destruct (fingerprint_of_frame w a _ _ _ E0) as [Hm Hl].
    assert (Hp : each_suffix
                   (warns_when_pending (fingerprint w a) (analyzers_list a)) tp
                 /\ List.length (filter is_warning tp)
                    = List.length (filter pending_answer tp)).
    { rewrite polling_run in Ep.
      destruct (for_in (seq 0 polling_max_tries) (poll_once c j) fr1)
        as [[t fr'] r'] eqn:E.
      apply for_in_run, loop_warned in E. rewrite Hm, Hl in E.
      destruct E as [E1 E2].
      destruct r' as [[]|e'|code']; injection Ep as <- _ _;
        (split; [simpl; split; [exact I|exact E1]|simpl; exact E2]). }
    destruct Hp as [Hp1 Hp2].
    destruct (calm_warned (fingerprint w a) (analyzers_list a) _ H0) as [A1 A2].
    destruct (calm_warned (fingerprint w a) (analyzers_list a) _
                (closing_calm w r fr2)) as [B1 B2].
    split.
    + apply warned_app; [exact A1|]. apply warned_app; assumption.
    + rewrite !filter_app, !length_app. congruence.
  - assert (Hc : Forall calm (t0 ++ closing w (Raise e) fr1))
      by (apply Forall_app; split; [exact H0|apply closing_calm]).
    exact (calm_warned _ _ _ Hc).
  - exact (calm_warned _ _ _ H0).
Qed.

(** *** One error record, or results *)

Lemma before_polling_no_error w fr :
  post (before_polling w) fr (fun t fr' r =>
    (forall code, r <> SysExit code) ->
    Forall (fun e => is_error_record e = false) t).
Proof.
  unfold_before. unfold_m.
  by_cases; intros H; try (destruct (H _ eq_refl)); repeat constructor.
Qed.

Lemma polling_results c j fr tp fr2 r :
  polling c j fr = (tp, fr2, r) ->
  results fr = PList [] ->
  match r with
  | Normal _ => truthy (results fr2) = true
  | Raise _ => truthy (results fr2) = false
  | SysExit _ => False
  end.
Proof.
  intros Ep Hres. rewrite polling_run in Ep.
  destruct (for_in (seq 0 polling_max_tries) (poll_once c j) fr)
    as [[t fr'] r'] eqn:E.
  apply for_in_run, loop_frame in E. destruct E as (_ & _ & Hne & Hfr).
  destruct r' as [[]|e|code].
  - destruct (truthy (results fr')) eqn:Et; injection Ep as <- <- <-; exact Et.
  - injection Ep as <- <- <-. rewrite (Hfr ltac:(discriminate)), Hres.
    reflexivity.
  - destruct (Hne code). reflexivity.
Qed.

Lemma handled_is_an_error e m : is_error_record (handled e m) = true.
Proof. destruct e; reflexivity. Qed.

(** X21. A run that does not end in the configuration mode logs at most
    one error, and it does so exactly when the results that the [try]
    block leaves are empty: when the results are not empty no error record
    is in the trace; when they are empty the record of the handler is the
    only error record, and the last event before the elapsed time, the
    header and what the presentation step shows of the results (nothing,
    with [--show-colors], when [args.value] does not exist or the
    classifier raises). *)
Theorem one_error_or_results (w : World) (a : Args) :
  snd (run (_pyintelowl_logic w) a) <> Exited 0 ->
  exists pre,
    fst (run (_pyintelowl_logic w) a)
    = pre ++ final w (frame_of (try_block w (start a)))
    /\ Forall (fun e => is_error_record e = false)
         (final w (frame_of (try_block w (start a))))
    /\ if truthy (results (frame_of (try_block w (start a))))
       then Forall (fun e => is_error_record e = false) pre
       else exists t e,
           pre = t ++ [handled e (md5 (frame_of (try_block w (start a))))]
           /\ Forall (fun e => is_error_record e = false) t.
Proof.
  intros Hexit. rewrite try_block_run.
  destruct (logic_cases w a)
    as [t0 fr1 c j tp fr2 r E0 Ep Erun|t0 fr1 e E0 Erun|t0 fr1 E0 Hc Erun];
    rewrite Erun in *; simpl in Hexit; simpl fst;
    rewrite E0, ?Ep; unfold frame_of; simpl fst; simpl snd;
    try (destruct (before_polling_start w a t0 fr1 _ E0) as (Hres & _)).
  - assert (H0 := post_elim _ _ _ _ _ _ (before_polling_no_error w (start a)) E0
                    ltac:(discriminate)).
    pose proof (polling_quiet c j fr1) as Hqp. rewrite Ep in Hqp.
    change (Forall (fun e => is_error_record e = false) tp) in Hqp.
    pose proof (polling_results c j fr1 tp fr2 r Ep Hres) as Hr.
    destruct r as [[]|e|code]; [| |destruct Hr].
    + exists (t0 ++ tp). simpl. rewrite app_assoc.
      split; [reflexivity|]. split; [apply final_quiet|].
      rewrite Hr. apply Forall_app. split; assumption.
    + exists (t0 ++ tp ++ [handled e (md5 fr2)]). simpl.
      split; [rewrite <- !app_assoc; reflexivity|].
      split; [apply final_quiet|].
      rewrite Hr. exists (t0 ++ tp), e.
      split; [rewrite <- app_assoc; reflexivity|].
      apply Forall_app. split; assumption.
  - assert (H0 := post_elim _ _ _ _ _ _ (before_polling_no_error w (start a)) E0
                    ltac:(discriminate)).
    exists (t0 ++ [handled e (md5 fr1)]).
    split; [rewrite <- app_assoc; reflexivity|].
    split; [apply final_quiet|].
    rewrite Hres. change (truthy (PList [])) with false.
    exists t0, e. split; [reflexivity|exact H0].
  - destruct Hexit. reflexivity.
Qed.

Lemma one_error_or_results_witness :
  exists pre,
    fst (run (_pyintelowl_logic stuck) (cli (CmdObservable "Example.COM")))
    = pre ++ final stuck
               (frame_of (try_block stuck
                            (start (cli (CmdObservable "Example.COM")))))
    /\ Forall (fun e => is_error_record e = false)
         (final stuck
            (frame_of (try_block stuck
                         (start (cli (CmdObservable "Example.COM"))))))
    /\ if truthy (results
                    (frame_of (try_block stuck
                                 (start (cli (CmdObservable "Example.COM"))))))
       then Forall (fun e => is_error_record e = false) pre
       else exists t e,
           pre = t ++ [handled e
                         (md5 (frame_of
                                 (try_block stuck
                                    (start (cli (CmdObservable "Example.COM"))))))]
           /\ Forall (fun e => is_error_record e = false) t.
Proof.
  apply (one_error_or_results stuck (cli (CmdObservable "Example.COM"))).
  vm_compute. discriminate.
Defined.
